(** * SPJIMR PGPM retrieval-augmented assistant: pipeline model

    A shallow embedding of the TypeScript backend: the query heuristics,
    the conversation memory, the composite-query builder, the adaptive
    threshold, the four pipeline stages that run, the response-validation
    stage that does not, the sequential orchestrator and the
    server-sent-event handler.

    Conventions.
    - JavaScript strings are modelled by [string] (8-bit characters); case
      mapping, whitespace and word characters are the ASCII ones.  The
      model speaks for the code on ASCII texts ([JsString.is_ascii]).
    - JavaScript numbers are modelled by the rationals [Q].  The code only
      compares confidences, takes a maximum and tests them for zero; it
      never does arithmetic on them.
    - Values read out of [JSON.parse] keep their dynamic type ([jsval]): the
      stages read properties off whatever was parsed.
    - External services (the chat model in its three roles, the vector
      store, the tracing SDK, the clock and the keep-alive timer) are
      oracles collected in a [World].  A stage is a computation in [M]: the
      list of external effects it performs, then a thrown error or a value.
    - Logging and the optional tracing spans inside the stages (every use is
      behind [?.] or its own [try]/[catch]) are left out, as is the
      construction of the model client; writes to the response stream are
      taken to succeed. *)

From Stdlib Require Import String Ascii List QArith Lia Bool Arith DecimalString.
From Stdlib Require Import Permutation Sorted.
Import ListNotations.
Local Open Scope list_scope.
Local Open Scope string_scope.
Local Open Scope nat_scope.

(* ===================================================================== *)
(** ** JavaScript strings *)
(* ===================================================================== *)

Module JsString.

Definition code (c : ascii) : nat := nat_of_ascii c.

Definition is_upper (c : ascii) : bool := (65 <=? code c) && (code c <=? 90).
Definition is_lower (c : ascii) : bool := (97 <=? code c) && (code c <=? 122).
Definition is_digit (c : ascii) : bool := (48 <=? code c) && (code c <=? 57).

(** [\w]: letters, digits and the underscore. *)
Definition is_word (c : ascii) : bool :=
  is_upper c || is_lower c || is_digit c || (code c =? 95).

(** [\s], and what [trim] strips: tab, LF, VT, FF, CR, space. *)
Definition is_space (c : ascii) : bool :=
  ((9 <=? code c) && (code c <=? 13)) || (code c =? 32).

Definition lower_char (c : ascii) : ascii :=
  if is_upper c then ascii_of_nat (code c + 32) else c.

(** [s.toLowerCase()] *)
Fixpoint toLowerCase (s : string) : string :=
  match s with
  | EmptyString => EmptyString
  | String c s' => String (lower_char c) (toLowerCase s')
  end.

Fixpoint trimStart (s : string) : string :=
  match s with
  | EmptyString => EmptyString
  | String c s' => if is_space c then trimStart s' else s
  end.

(** Strips trailing whitespace: a character is kept when it is not a
    space or when something is kept after it. *)
Fixpoint trimEnd (s : string) : string :=
  match s with
  | EmptyString => EmptyString
  | String c s' =>
      match trimEnd s' with
      | EmptyString => if is_space c then EmptyString else String c EmptyString
      | t => String c t
      end
  end.

(** [s.trim()] *)
Definition trim (s : string) : string := trimEnd (trimStart s).

(** [s.includes(sub)] *)
Fixpoint includes (s sub : string) : bool :=
  prefix sub s ||
  match s with
  | EmptyString => false
  | String _ s' => includes s' sub
  end.

(** [parts.join(sep)] *)
Fixpoint join (sep : string) (parts : list string) : string :=
  match parts with
  | [] => EmptyString
  | [p] => p
  | p :: rest => p ++ sep ++ join sep rest
  end.

(** Decimal rendering of an array index inside a template literal. *)
Definition of_nat (n : nat) : string := NilEmpty.string_of_uint (Nat.to_uint n).

Definition nl : string := String (ascii_of_nat 10) EmptyString.

Definition is_empty (s : string) : bool :=
  match s with EmptyString => true | _ => false end.

(** [xs.includes(x)] on an array of strings. *)
Definition mem (x : string) (xs : list string) : bool := existsb (String.eqb x) xs.

(** [keys.some(k => s.includes(k))] *)
Definition includes_any (s : string) (keys : list string) : bool :=
  existsb (includes s) keys.

(** The text has ASCII characters only.  Such a text is the JavaScript
    string of the same characters: its [length] is the number of its
    characters, and [trim], [toLowerCase] and the regular expressions act on
    it as defined here. *)
Fixpoint is_ascii (s : string) : bool :=
  match s with
  | EmptyString => true
  | String c s' => (code c <? 128) && is_ascii s'
  end.

End JsString.

(* ===================================================================== *)
(** ** Regular expressions

    The fragment of ECMAScript regular expressions the sources use, with a
    backtracking matcher that explores alternatives in the engine's order
    (left alternative first, greedy repetition). *)
(* ===================================================================== *)

Module Regex.
Import JsString.

Inductive regex : Type :=
| Lit (c : ascii)            (* a literal character *)
| Cls (cs : list ascii)      (* a character class [..] *)
| Space                      (* \s *)
| WordB                      (* \b *)
| Bol                        (* ^ *)
| Eol                        (* $ *)
| Eps
| Seq (r1 r2 : regex)
| Alt (r1 r2 : regex)
| Star (r : regex).

(** [r?] *)
Definition Opt (r : regex) : regex := Alt r Eps.

(** A literal run of characters. *)
Fixpoint str (s : string) : regex :=
  match s with
  | EmptyString => Eps
  | String c EmptyString => Lit c
  | String c s' => Seq (Lit c) (str s')
  end.

(** [(r1|r2|...|rn)] *)
Fixpoint alts (rs : list regex) : regex :=
  match rs with
  | [] => Cls []
  | [r] => r
  | r :: rest => Alt r (alts rest)
  end.

Fixpoint seqs (rs : list regex) : regex :=
  match rs with
  | [] => Eps
  | [r] => r
  | r :: rest => Seq r (seqs rest)
  end.

(** [(w1|w2|...)] for literal words. *)
Definition words (ws : list string) : regex := alts (map str ws).

(** [^(...)$] and [\b(...)\b] *)
Definition anchored (r : regex) : regex := seqs [Bol; r; Eol].
Definition bounded (r : regex) : regex := seqs [WordB; r; WordB].

Definition chr_eq (ci : bool) (a b : ascii) : bool :=
  if ci then Ascii.eqb (lower_char a) (lower_char b) else Ascii.eqb a b.

Definition word_at (c : option ascii) : bool :=
  match c with Some a => is_word a | None => false end.

(** [rx ci r prev s k]: match [r] at the current position, where [prev] is
    the character just before it and [s] the rest of the input, then
    continue with [k].  The result is the input left after the whole
    match.  [ci] is the [i] flag. *)
Fixpoint rx (ci : bool) (r : regex) (prev : option ascii) (s : list ascii)
         (k : option ascii -> list ascii -> option (list ascii))
  : option (list ascii) :=
  match r with
  | Lit c =>
      match s with
      | a :: s' => if chr_eq ci c a then k (Some a) s' else None
      | [] => None
      end
  | Cls cs =>
      match s with
      | a :: s' => if existsb (chr_eq ci a) cs then k (Some a) s' else None
      | [] => None
      end
  | Space =>
      match s with
      | a :: s' => if is_space a then k (Some a) s' else None
      | [] => None
      end
  | WordB => if xorb (word_at prev) (word_at (hd_error s)) then k prev s else None
  | Bol => match prev with None => k prev s | Some _ => None end
  | Eol => match s with [] => k prev s | _ :: _ => None end
  | Eps => k prev s
  | Seq r1 r2 => rx ci r1 prev s (fun p s' => rx ci r2 p s' k)
  | Alt r1 r2 =>
      match rx ci r1 prev s k with
      | Some out => Some out
      | None => rx ci r2 prev s k
      end
  | Star r' =>
      (fix star (n : nat) (prev : option ascii) (s : list ascii)
         : option (list ascii) :=
         match n with
         | O => k prev s
         | S n' =>
             match rx ci r' prev s
                      (fun p s' =>
                         if length s' <? length s then star n' p s' else None)
             with
             | Some out => Some out
             | None => k prev s
             end
         end) (S (length s)) prev s
  end.

(** First match at or after the current position: where it starts and
    what is left after it. *)
Fixpoint search (ci : bool) (r : regex) (prev : option ascii) (s : list ascii)
  : option (list ascii * list ascii) :=
  match rx ci r prev s (fun _ rest => Some rest) with
  | Some rest => Some (s, rest)
  | None =>
      match s with
      | [] => None
      | a :: s' => search ci r (Some a) s'
      end
  end.

(** [re.test(s)] *)
Definition test (ci : bool) (r : regex) (s : string) : bool :=
  match search ci r None (list_ascii_of_string s) with
  | Some _ => true
  | None => false
  end.

Definition last_char (prev : option ascii) (m : list ascii) : option ascii :=
  match rev m with
  | c :: _ => Some c
  | [] => prev
  end.

(** All successive matches, left to right, as the [g] flag collects them. *)
Fixpoint matches (fuel : nat) (ci : bool) (r : regex)
         (prev : option ascii) (s : list ascii) : list string :=
  match fuel with
  | O => []
  | S fuel' =>
      match search ci r prev s with
      | None => []
      | Some (from, rest) =>
          let m := firstn (length from - length rest) from in
          string_of_list_ascii m ::
            match m, rest with
            | [], [] => []
            | [], c :: rest' => matches fuel' ci r (Some c) rest'
            | _ :: _, _ => matches fuel' ci r (last_char prev m) rest
            end
      end
  end.

(** [s.match(re)] for a global [re]: [null] when nothing matches, else the
    array of matched substrings. *)
Definition match_g (ci : bool) (r : regex) (s : string) : option (list string) :=
  match matches (S (String.length s)) ci r None (list_ascii_of_string s) with
  | [] => None
  | ms => Some ms
  end.

End Regex.

(* ===================================================================== *)
(** ** JavaScript values

    What [JSON.parse] can return, plus [undefined] and [NaN].  An object is
    the list of its own properties. *)
(* ===================================================================== *)

Module Js.

#[warnings="-register-all"]
Inductive jsval : Type :=
| JUndefined
| JNull
| JBool (b : bool)
| JNum (q : Q)
| JNaN
| JStr (s : string)
| JArr (items : list jsval)
| JObj (fields : list (string * jsval)).

(** ToBoolean *)
Definition truthy (v : jsval) : bool :=
  match v with
  | JUndefined | JNull | JNaN => false
  | JBool b => b
  | JNum q => negb (Qeq_bool q 0)
  | JStr s => negb (JsString.is_empty s)
  | JArr _ | JObj _ => true
  end.

(** [a || b] and [a && b] return one of their operands. *)
Definition or (a b : jsval) : jsval := if truthy a then a else b.
Definition and (a b : jsval) : jsval := if truthy a then b else a.

Fixpoint lookup (name : string) (fields : list (string * jsval)) : jsval :=
  match fields with
  | [] => JUndefined
  | (k, v) :: rest => if String.eqb k name then v else lookup name rest
  end.

(** [v.name] for a name no prototype defines; [None] is the TypeError
    raised on [null] and [undefined]. *)
Definition get (v : jsval) (name : string) : option jsval :=
  match v with
  | JUndefined | JNull => None
  | JObj fields => Some (lookup name fields)
  | _ => Some JUndefined
  end.

(** ToNumber; [None] is NaN.  The conversion of strings, arrays and
    objects is left to [coerce]. *)
Definition to_number (coerce : jsval -> option Q) (v : jsval) : option Q :=
  match v with
  | JUndefined | JNaN => None
  | JNull => Some 0%Q
  | JBool b => Some (if b then 1%Q else 0%Q)
  | JNum q => Some q
  | other => coerce other
  end.

(** [v >= bound] for a numeric [bound]. *)
Definition ge (coerce : jsval -> option Q) (v : jsval) (bound : Q) : bool :=
  match to_number coerce v with
  | Some q => Qle_bool bound q
  | None => false
  end.

(** [Math.max(a, v)] for a numeric [a]. *)
Definition math_max (coerce : jsval -> option Q) (a : Q) (v : jsval) : jsval :=
  match to_number coerce v with
  | Some q => JNum (if Qle_bool a q then q else a)
  | None => JNaN
  end.

(** The value is a number in the closed unit interval. *)
Definition in_unit (v : jsval) : Prop :=
  exists q, v = JNum q /\ (0 <= q)%Q /\ (q <= 1)%Q.

End Js.
Export Js.

(* ===================================================================== *)
(** ** types/rag.ts *)
(* ===================================================================== *)

Record Document : Type := {
  pageContent : string;
  source : string          (* metadata['source'] *)
}.

(** [RAGState].  [retrievedDocs] is [None] when the property is missing,
    which the stages guard against. *)
Record RAGState : Type := {
  query : string;
  isRelevant : jsval;
  retrievedDocs : option (list Document);
  hasAnswer : jsval;
  context : string;
  response : string;
  needsValidation : bool;
  confidence : jsval;
  sources : list string;
  errorMessage : option string
}.

(** [Partial<RAGState>] as the stages return it: [None] is an absent key. *)
Record Update : Type := {
  u_isRelevant : option jsval;
  u_retrievedDocs : option (list Document);
  u_hasAnswer : option jsval;
  u_context : option string;
  u_response : option string;
  u_needsValidation : option bool;
  u_confidence : option jsval;
  u_sources : option (list string);
  u_errorMessage : option string
}.

Definition no_update : Update :=
  {| u_isRelevant := None; u_retrievedDocs := None; u_hasAnswer := None;
     u_context := None; u_response := None; u_needsValidation := None;
     u_confidence := None; u_sources := None; u_errorMessage := None |}.

Definition pick {A : Type} (old : A) (new : option A) : A :=
  match new with Some v => v | None => old end.

(** [{ ...state, ...update }] *)
Definition merge (st : RAGState) (u : Update) : RAGState :=
  {| query := query st;
     isRelevant := pick (isRelevant st) (u_isRelevant u);
     retrievedDocs :=
       match u_retrievedDocs u with
       | Some docs => Some docs
       | None => retrievedDocs st
       end;
     hasAnswer := pick (hasAnswer st) (u_hasAnswer u);
     context := pick (context st) (u_context u);
     response := pick (response st) (u_response u);
     needsValidation := pick (needsValidation st) (u_needsValidation u);
     confidence := pick (confidence st) (u_confidence u);
     sources := pick (sources st) (u_sources u);
     errorMessage :=
       match u_errorMessage u with
       | Some m => Some m
       | None => errorMessage st
       end |}.

Module RESPONSE_TEMPLATES.
Definition NOT_RELEVANT : string :=
  "I can only answer questions about the SPJIMR PGPM program. Please ask about admissions, curriculum, fees, placements, or eligibility.".
Definition NO_INFORMATION : string :=
  "I don't have enough information to answer this specific question about the PGPM program. Please contact SPJIMR directly for more details.".
Definition VERIFICATION_FAILED : string :=
  "I'm having trouble processing this request right now. Please try rephrasing your question or contact SPJIMR directly.".
End RESPONSE_TEMPLATES.

(** The error classes; [JsError] is any other thrown value. *)
Inductive Exn : Type :=
| ValidationError (message : string)
| RetrievalError (message : string)
| GenerationError (message : string)
| JsError (message : string).

Definition exn_message (e : Exn) : string :=
  match e with
  | ValidationError m | RetrievalError m | GenerationError m | JsError m => m
  end.

(* ===================================================================== *)
(** ** External services and effects *)
(* ===================================================================== *)

Inductive Prompt : Type := GROUNDED_RESPONSE_PROMPT | FALLBACK_RESPONSE_PROMPT.

(** A structured call: it throws, or it returns text, represented by what
    [JSON.parse] makes of that text ([None]: a SyntaxError). *)
Inductive JsonReply : Type :=
| JsonCallThrows (message : string)
| JsonContent (parsed : option jsval).

(** A generation call: the tokens handed to the streaming callback while
    it runs, then the text or a failure. *)
Record GenReply : Type := {
  gen_tokens : list string;
  gen_result : string + string     (* inl message: throws; inr content *)
}.

Inductive RetrievalReply : Type :=
| RetrievalThrows (message : string)
| Retrieved (docs : list Document) (srcs : list string).

Inductive Tracing : Type :=
| TracingOff                       (* no LANGFUSE keys *)
| TracingOn
| TracingSetupThrows (message : string).

Record World : Type := {
  classifier : string -> JsonReply;
  retriever : string -> RetrievalReply;
  judge : string -> string -> JsonReply;
  generator : Prompt -> string -> string -> GenReply;
  validator : string -> string -> JsonReply;
  coerce : jsval -> option Q;
  tracing : Tracing;
  development : bool;                (* NODE_ENV === 'development' *)
  now_iso : string;                  (* new Date().toISOString() *)
  now_ms : Z;                        (* new Date() *)
  ping_times : nat -> list Z         (* heartbeats firing before the k-th token *)
}.

(** What a stage does to the outside, in order. *)
Inductive Effect : Type :=
| CallClassifier (q : string)
| CallRetriever (q : string)
| CallJudge (documents q : string)
| CallGenerator (p : Prompt) (ctx q : string)
| CallValidator (ctx resp : string)
| Token (t : string).

Definition is_generator_call (e : Effect) : bool :=
  match e with CallGenerator _ _ _ => true | _ => false end.
Definition is_judge_call (e : Effect) : bool :=
  match e with CallJudge _ _ => true | _ => false end.
Definition is_validator_call (e : Effect) : bool :=
  match e with CallValidator _ _ => true | _ => false end.
Definition not_validator (e : Effect) : Prop := is_validator_call e = false.

(** An asynchronous computation: the effects performed, then an exception
    or a value. *)
Definition M (A : Type) : Type := list Effect * (Exn + A).

Definition ret {A} (a : A) : M A := ([], inr a).
Definition throw {A} (e : Exn) : M A := ([], inl e).
Definition perform (es : list Effect) : M unit := (es, inr tt).

Definition bind {A B} (m : M A) (k : A -> M B) : M B :=
  match m with
  | (es, inl e) => (es, inl e)
  | (es, inr a) => let (es', r) := k a in (es ++ es', r)%list
  end.

(** [try { body } catch (error) { handler }] *)
Definition try_catch {A} (body : M A) (handler : Exn -> M A) : M A :=
  match body with
  | (es, inl e) => let (es', r) := handler e in (es ++ es', r)%list
  | (es, inr a) => (es, inr a)
  end.

Declare Scope js_scope.
Delimit Scope js_scope with js.
Notation "x <- m ;; k" := (bind m (fun x => k))
  (at level 61, m at next level, right associativity) : js_scope.
Notation "m ;;; k" := (bind m (fun _ => k))
  (at level 61, right associativity) : js_scope.

Definition effects {A} (m : M A) : list Effect := fst m.
Definition outcome {A} (m : M A) : Exn + A := snd m.

(* ===================================================================== *)
(** ** shared/queryHeuristics.ts *)
(* ===================================================================== *)

Module QueryHeuristics.
Import JsString Regex.

(** [(s || "").toLowerCase().trim()] *)
Definition normalize (s : string) : string := trim (toLowerCase s).

Definition KNOWN_TERMS : list string :=
  ["abhyudaya"; "docc"; "sitaras"; "samavesh"; "intex";
   "aicte"; "aacsb"; "amba"; "ppt"; "cis";
   "mccombs"; "insead"; "cornell"; "michigan";
   "barcelona"; "reutlingen"; "esic"; "esb"].

Definition isKnownPGPMTerm (q : string) : bool := mem (normalize q) KNOWN_TERMS.

Definition relevantKeywords : list string :=
  ["spjimr"; "pgpm"; "post graduate programme"; "management";
   "admission"; "eligibility"; "curriculum"; "fees"; "placement";
   "duration"; "campus"; "accreditation"; "ranking"; "faculty"].

Definition hasRelevantKeywords (q : string) : bool :=
  includes_any (normalize q) relevantKeywords.

Definition followUpPatterns : list regex :=
  [ (* /^(longer|more|elaborate|tell me more|expand|details?)$/i *)
    anchored (alts [str "longer"; str "more"; str "elaborate"; str "tell me more";
                    str "expand"; Seq (str "detail") (Opt (Lit "s"))]);
    (* /^(what else|any other|additional|anything else)$/i *)
    anchored (words ["what else"; "any other"; "additional"; "anything else"]);
    (* /^(it|this|that|the program|the course)$/i *)
    anchored (words ["it"; "this"; "that"; "the program"; "the course"]);
    (* /^(give me|show me|tell me) (more|all|everything|details)$/i *)
    anchored (seqs [words ["give me"; "show me"; "tell me"]; Lit " ";
                    words ["more"; "all"; "everything"; "details"]]) ].

Definition isFollowUpQuery (q : string) : bool :=
  existsb (fun p => test true p (normalize q)) followUpPatterns.

End QueryHeuristics.

(* ===================================================================== *)
(** ** shared/conversationMemory.ts *)
(* ===================================================================== *)

Module ConversationMemory.
Import JsString.

Record Turn : Type := {
  timestamp : Z;
  question : string;
  answer : string;
  turn_confidence : jsval;
  turn_sources : list string
}.

(** The argument of [addTurn]: a turn without its timestamp. *)
Record TurnInput : Type := {
  in_question : string;
  in_answer : string;
  in_confidence : jsval;
  in_sources : list string
}.

(** The object's only state is [history]. *)
Definition t : Type := list Turn.

Definition empty : t := [].

Definition maxHistoryLength : nat := 10.

Definition stamp (now : Z) (turn : TurnInput) : Turn :=
  {| timestamp := now;
     question := in_question turn;
     answer := in_answer turn;
     turn_confidence := in_confidence turn;
     turn_sources := in_sources turn |}.

(** [history.shift()] *)
Definition shift (h : t) : t := tl h.

(** [addTurn]: push, then drop the first turn when over capacity. *)
Definition addTurn (now : Z) (turn : TurnInput) (h : t) : t :=
  let pushed := (h ++ [stamp now turn])%list in
  if maxHistoryLength <? length pushed then shift pushed else pushed.

Definition getHistory (h : t) : list Turn := h.

Definition clear (h : t) : t := [].

(** [arr.slice(-n)]; [slice(-0)] is the whole array. *)
Definition slice_last {A : Type} (n : nat) (l : list A) : list A :=
  if n =? 0 then l else skipn (length l - n) l.

Definition render (turn : Turn) : string :=
  "Q: " ++ question turn ++ nl ++ "A: " ++ answer turn.

Definition getRecentContext (turnCount : nat) (h : t) : string :=
  join (nl ++ nl) (map render (slice_last turnCount h)).

(** Every turn the sequence of calls adds, oldest first. *)
Fixpoint addTurns (calls : list (Z * TurnInput)) (h : t) : t :=
  match calls with
  | [] => h
  | (now, turn) :: rest => addTurns rest (addTurn now turn h)
  end.

End ConversationMemory.

(* ===================================================================== *)
(** ** shared/conversation.ts *)
(* ===================================================================== *)

Module Conversation.
Import JsString QueryHeuristics.

Definition buildCompositeQuery (question : string) (memory : ConversationMemory.t)
  : string :=
  let q := trim question in
  if is_empty q then q
  else if isKnownPGPMTerm q then q
  else if isFollowUpQuery q then
    let recentContext := ConversationMemory.getRecentContext 5 memory in
    if negb (is_empty recentContext)
    then "Previous conversation context:" ++ nl ++ recentContext ++ nl ++ nl
         ++ "Current user request: " ++ q ++ nl ++ nl
         ++ "Note: This appears to be a follow-up query asking for more detailed information about the previously discussed SPJIMR PGPM topics."
    else "User request: " ++ q
         ++ " (Note: This appears to be a request for detailed SPJIMR PGPM information)"
  else
    let recentContext := ConversationMemory.getRecentContext 2 memory in
    if negb (is_empty recentContext)
    then recentContext ++ nl ++ nl ++ "User: " ++ q
    else q.

End Conversation.

(* ===================================================================== *)
(** ** langgraph/nodes/retrieval.ts *)
(* ===================================================================== *)

Module Retrieval.
Import JsString.

Record QueryType : Type := {
  keywords : list string;
  indicators : list string;
  threshold : Q
}.

Definition baseThreshold : Q := 0.3.

Definition specificQueries : list QueryType :=
  [ {| keywords := ["fee"; "cost"; "price"];
       indicators := ["fee"; "cost"; "rs."; "rupees"; "lakh"]; threshold := 0.2 |};
    {| keywords := ["duration"; "length"; "time"];
       indicators := ["month"; "year"; "duration"]; threshold := 0.2 |};
    {| keywords := ["eligibility"; "requirement"];
       indicators := ["eligib"; "require"; "criteria"]; threshold := 0.2 |};
    {| keywords := ["deadline"; "date"];
       indicators := ["deadline"; "date"; "last date"]; threshold := 0.2 |};
    {| keywords := ["salary"; "package"];
       indicators := ["salary"; "lpa"; "package"; "compensation"]; threshold := 0.2 |};
    {| keywords := ["admission"; "application"];
       indicators := ["admission"; "application"; "apply"]; threshold := 0.2 |};
    {| keywords := ["curriculum"; "subject"; "course"];
       indicators := ["curriculum"; "subject"; "course"; "module"]; threshold := 0.2 |};
    {| keywords := ["placement"; "job"; "career"];
       indicators := ["placement"; "job"; "career"; "company"]; threshold := 0.2 |} ].

(** The condition of the loop body's [if]. *)
Definition applies (queryLower contextLower : string) (qt : QueryType) : bool :=
  includes_any queryLower (keywords qt) && includes_any contextLower (indicators qt).

(** The [for ... of] loop with its early [return]. *)
Fixpoint scan (queryLower contextLower : string) (table : list QueryType) : Q :=
  match table with
  | [] => baseThreshold
  | qt :: rest =>
      if applies queryLower contextLower qt then threshold qt
      else scan queryLower contextLower rest
  end.

Definition getAdaptiveConfidenceThreshold (q contextContent : string) : Q :=
  scan (toLowerCase q) (toLowerCase contextContent) specificQueries.

(** The stage itself.  Its searches and reordering happen in the vector
    store and are summarised by the reply; the stage returns the ordered
    documents and their sources and nothing else, and whatever goes wrong
    leaves it as a [RetrievalError]. *)
Definition retrievalNode (w : World) (st : RAGState) : M Update :=
  (perform [CallRetriever (query st)] ;;;
   match retriever w (query st) with
   | RetrievalThrows m => throw (RetrievalError m)
   | Retrieved docs srcs =>
       ret {| u_isRelevant := None; u_retrievedDocs := Some docs;
              u_hasAnswer := None; u_context := None; u_response := None;
              u_needsValidation := None; u_confidence := None;
              u_sources := Some srcs; u_errorMessage := None |}
   end)%js.

End Retrieval.

(* ===================================================================== *)
(** ** Helpers shared by the stages *)
(* ===================================================================== *)

Module Stage.
Import JsString.

(** [await chain.invoke(...)] on a structured prompt, then
    [JSON.parse(result.content)]. *)
Definition structured_call (reply : JsonReply) : M (option jsval) :=
  match reply with
  | JsonCallThrows m => throw (JsError m)
  | JsonContent parsed => ret parsed
  end.

Definition JSON_parse (parsed : option jsval) : M jsval :=
  match parsed with
  | Some v => ret v
  | None => throw (JsError "SyntaxError")
  end.

(** [v.name], raising the TypeError of a read on [null]. *)
Definition prop (v : jsval) (name : string) : M jsval :=
  match get v name with
  | Some x => ret x
  | None => throw (JsError "TypeError")
  end.

(** [docs.map((doc, index) => `Document ${index + 1}:\n${doc.pageContent}`)] *)
Fixpoint number_docs (index : nat) (docs : list Document) : list string :=
  match docs with
  | [] => []
  | doc :: rest =>
      ("Document " ++ of_nat (index + 1) ++ ":" ++ nl ++ pageContent doc)
        :: number_docs (S index) rest
  end.

(** [... .join("\n---\n")] *)
Definition documents_blob (docs : list Document) : string :=
  join (nl ++ "---" ++ nl) (number_docs 0 docs).

(** [await chain.invoke(...)] on the generation model; with a stream
    callback registered every token is passed on as it arrives. *)
Definition generation_call (w : World) (streaming : bool)
           (p : Prompt) (ctx q : string) : M string :=
  let reply := generator w p ctx q in
  (perform (CallGenerator p ctx q
              :: (if streaming then map Token (gen_tokens reply) else [])) ;;;
   match gen_result reply with
   | inl m => throw (JsError m)
   | inr content => ret content
   end)%js.

(** [docs && docs.length > 0] *)
Definition has_docs (docs : option (list Document)) : bool :=
  match docs with
  | Some (_ :: _) => true
  | _ => false
  end.

(** [docs || []] *)
Definition docs_or_empty (docs : option (list Document)) : list Document :=
  match docs with Some ds => ds | None => [] end.

End Stage.

(* ===================================================================== *)
(** ** langgraph/nodes/queryValidation.ts *)
(* ===================================================================== *)

Module QueryValidation.
Import JsString Regex QueryHeuristics Stage.

Record QueryValidationResult : Type := {
  qv_isRelevant : jsval;
  qv_category : jsval;
  qv_reason : jsval;
  qv_confidence : jsval
}.

(** The inner [try]: parse and pick the four fields. *)
Definition decode (parsed : option jsval) : M QueryValidationResult :=
  (parsedResult <- JSON_parse parsed ;;
   r <- prop parsedResult "isRelevant" ;;
   c <- prop parsedResult "category" ;;
   why <- prop parsedResult "reason" ;;
   conf <- prop parsedResult "confidence" ;;
   ret {| qv_isRelevant := r; qv_category := or c JUndefined;
          qv_reason := why; qv_confidence := conf |})%js.

(** [/\b(pgpm|spjimr|mba)\b/i] *)
Definition domain_word : regex := bounded (words ["pgpm"; "spjimr"; "mba"]).

Definition fallbackRelevant (q : string) : bool :=
  hasRelevantKeywords q
  || test true domain_word q
  || (String.length (trim q) <=? 3)
  || isKnownPGPMTerm q.

Definition queryValidationNode (w : World) (st : RAGState) : M Update :=
  try_catch
    (perform [CallClassifier (query st)] ;;;
     content <- structured_call (classifier w (query st)) ;;
     validationResult <-
       try_catch (decode content)
         (fun parseError =>
            throw (ValidationError "Failed to parse validation response")) ;;
     ret {| u_isRelevant :=
              Some (or (qv_isRelevant validationResult)
                       (JBool (fallbackRelevant (query st))));
            u_retrievedDocs := None; u_hasAnswer := None; u_context := None;
            u_response := None; u_needsValidation := None;
            u_confidence := Some (qv_confidence validationResult);
            u_sources :=
              if truthy (qv_isRelevant validationResult) then Some [] else None;
            u_errorMessage := None |})%js
    (fun error =>
       match error with
       | ValidationError _ => throw error
       | _ => throw (ValidationError "Query validation failed")
       end).

End QueryValidation.

(* ===================================================================== *)
(** ** langgraph/nodes/contextCheck.ts *)
(* ===================================================================== *)

Module ContextCheck.
Import JsString Stage Retrieval.

Record ContextValidationResult : Type := {
  cv_hasAnswer : jsval;
  cv_confidence : jsval;
  cv_reasoning : jsval
}.

Definition decode (parsed : option jsval) : M ContextValidationResult :=
  (parsedResult <- JSON_parse parsed ;;
   h <- prop parsedResult "hasAnswer" ;;
   conf <- prop parsedResult "confidence" ;;
   why <- prop parsedResult "reasoning" ;;
   ret {| cv_hasAnswer := h; cv_confidence := conf;
          cv_reasoning := or why JUndefined |})%js.

Definition gate_update (h : jsval) (ctx : string) (conf : jsval) : Update :=
  {| u_isRelevant := None; u_retrievedDocs := None;
     u_hasAnswer := Some h; u_context := Some ctx;
     u_response := None; u_needsValidation := None;
     u_confidence := Some conf; u_sources := None; u_errorMessage := None |}.

Definition contextCheckNode (w : World) (st : RAGState) : M Update :=
  try_catch
    (if negb (has_docs (retrievedDocs st))
     then ret (gate_update (JBool false) "" (JNum 0))
     else
       let docsContent := documents_blob (docs_or_empty (retrievedDocs st)) in
       (perform [CallJudge docsContent (query st)] ;;;
        content <- structured_call (judge w docsContent (query st)) ;;
        validationResult <-
          try_catch (decode content)
            (fun parseError =>
               throw (ValidationError "Failed to parse context validation response")) ;;
        let confidenceThreshold :=
          getAdaptiveConfidenceThreshold (query st) docsContent in
        let finalHasAnswer :=
          and (cv_hasAnswer validationResult)
              (JBool (ge (coerce w) (cv_confidence validationResult)
                         confidenceThreshold)) in
        ret (gate_update finalHasAnswer
               (if truthy finalHasAnswer then docsContent else "")
               (cv_confidence validationResult)))%js)
    (fun error =>
       match error with
       | ValidationError _ => throw error
       | _ => throw (ValidationError "Context validation failed")
       end).

End ContextCheck.

(* ===================================================================== *)
(** ** langgraph/nodes/generation.ts *)
(* ===================================================================== *)

Module Generation.
Import JsString Regex Stage.

Definition answer_update (resp : string) (needs : bool) (conf : jsval) : Update :=
  {| u_isRelevant := None; u_retrievedDocs := None; u_hasAnswer := None;
     u_context := None; u_response := Some resp;
     u_needsValidation := Some needs; u_confidence := Some conf;
     u_sources := None; u_errorMessage := None |}.

(** [/^(longer|more|elaborate|tell me more|expand|details?|what else|any other|additional)$/i] *)
Definition followUpPattern : regex :=
  anchored (alts [str "longer"; str "more"; str "elaborate"; str "tell me more";
                  str "expand"; Seq (str "detail") (Opt (Lit "s"));
                  str "what else"; str "any other"; str "additional"]).

(** [/\b(stats?|statistics|data|numbers|figures|all data|give me all|show me all|tell me all)\b/i] *)
Definition statsPattern : regex :=
  bounded (alts [Seq (str "stat") (Opt (Lit "s")); str "statistics"; str "data";
                 str "numbers"; str "figures"; str "all data"; str "give me all";
                 str "show me all"; str "tell me all"]).

(** [/^(everything|tell me everything|all information|complete|comprehensive|full)$/i] *)
Definition broadPattern : regex :=
  anchored (words ["everything"; "tell me everything"; "all information";
                   "complete"; "comprehensive"; "full"]).

(** [/\b(duration|how long|months?|length)\b/i] *)
Definition durationPattern : regex :=
  bounded (alts [str "duration"; str "how long";
                 Seq (str "month") (Opt (Lit "s")); str "length"]).

(** [/\b(abhyudaya|social\s*work|social\s*projects|docc|underprivileged|community)\b/i] *)
Definition socialPattern : regex :=
  bounded (alts [str "abhyudaya";
                 seqs [str "social"; Star Space; str "work"];
                 seqs [str "social"; Star Space; str "projects"];
                 str "docc"; str "underprivileged"; str "community"]).

(** [/(1[58])\s*-?month/gi] *)
Definition monthPattern : regex :=
  seqs [Lit "1"; Cls ["5"%char; "8"%char]; Star Space; Opt (Lit "-"); str "month"].

(** [/18/] *)
Definition eighteen : regex := str "18".

(** [!state.hasAnswer || !state.context || state.context.trim().length === 0] *)
Definition insufficient (st : RAGState) : bool :=
  negb (truthy (hasAnswer st))
  || is_empty (context st)
  || (String.length (trim (context st)) =? 0).

Definition mentions_fees (doc : Document) : bool :=
  let content := toLowerCase (pageContent doc) in
  includes content "fee" || includes content "cost" || includes content "rs."
  || includes content "lakh" || includes content "rupees".

(** The fee salvage is taken: a fee or cost query, documents, and one of
    them found by [find]. *)
Definition fee_salvage (st : RAGState) : bool :=
  let queryLower := toLowerCase (query st) in
  (includes queryLower "fee" || includes queryLower "cost")
  && has_docs (retrievedDocs st)
  && existsb mentions_fees (docs_or_empty (retrievedDocs st)).

Definition isFollowUp (st : RAGState) : bool := test true followUpPattern (trim (query st)).
Definition isStatsQuery (st : RAGState) : bool := test true statsPattern (query st).
Definition isBroadQuery (st : RAGState) : bool := test true broadPattern (trim (query st)).

Definition followup_salvage (st : RAGState) : bool :=
  (isFollowUp st || isStatsQuery st || isBroadQuery st) && has_docs (retrievedDocs st).

Definition wantsDuration (st : RAGState) : bool := test true durationPattern (query st).
Definition wantsSocial (st : RAGState) : bool := test true socialPattern (query st).

(** [.flat()] over the per-document results: a [null] stays an element. *)
Definition flat (results : list (option (list string))) : list (option string) :=
  flat_map (fun r => match r with
                     | None => [None]
                     | Some ms => map Some ms
                     end) results.

(** [.filter(Boolean)] *)
Fixpoint filter_Boolean (xs : list (option string)) : list string :=
  match xs with
  | [] => []
  | None :: rest => filter_Boolean rest
  | Some s :: rest => if is_empty s then filter_Boolean rest else s :: filter_Boolean rest
  end.

(** [(docs || []).map(d => d.pageContent.match(re)).flat().filter(Boolean)[0]]:
    the text of the first match, a string. *)
Definition monthMatch (st : RAGState) : option string :=
  hd_error
    (filter_Boolean
       (flat (map (fun d => match_g true monthPattern (pageContent d))
                  (docs_or_empty (retrievedDocs st))))).

(** [s[0]] on a string: its first character, or [undefined]. *)
Definition index0 (s : string) : option string :=
  match s with
  | EmptyString => None
  | String c _ => Some (String c EmptyString)
  end.

(** [/18/.test(x)] where [x] may be [undefined], which [test] reads as the
    text "undefined". *)
Definition test_eighteen (x : option string) : bool :=
  test false eighteen (match x with Some s => s | None => "undefined" end).

Definition duration_answer (m : string) : Update :=
  let months := if test_eighteen (index0 m) then "18 months" else "15 months" in
  answer_update
    ("The SPJIMR PGPM is " ++ months
     ++ ". It includes 2 months online, 12 months on-campus, and 4 months for social/start-up projects and international immersion. Please verify with SPJIMR for the latest details.")
    false
    (JNum (if test_eighteen (index0 m) then 0.9 else 0.6)%Q).

Definition mentions_social (doc : Document) : bool :=
  let content := toLowerCase (pageContent doc) in
  includes content "abhyudaya" || includes content "docc"
  || includes content "social" || includes content "community"
  || includes content "underprivileged" || includes content "citizenship".

Definition social_salvage (st : RAGState) : bool :=
  wantsSocial st
  && has_docs (retrievedDocs st)
  && existsb mentions_social (docs_or_empty (retrievedDocs st)).

(** Grounded generation over all retrieved documents, at a fixed
    confidence. *)
Definition salvage (w : World) (streaming : bool) (st : RAGState) (conf : Q)
  : M Update :=
  (content <- generation_call w streaming GROUNDED_RESPONSE_PROMPT
                (documents_blob (docs_or_empty (retrievedDocs st))) (query st) ;;
   ret (answer_update content true (JNum conf)))%js.

(** The "don't know" reply, with its own [try]/[catch]. *)
Definition graceful_non_answer (w : World) (streaming : bool) (st : RAGState)
  : M Update :=
  try_catch
    (content <- generation_call w streaming FALLBACK_RESPONSE_PROMPT
                  "Insufficient information in knowledge base" (query st) ;;
     ret (answer_update content false (JNum 0.3)))%js
    (fun fallbackError =>
       ret (answer_update RESPONSE_TEMPLATES.NO_INFORMATION false (JNum 0.2))).

(** Case 3. *)
Definition grounded (w : World) (streaming : bool) (st : RAGState) : M Update :=
  (content <- generation_call w streaming GROUNDED_RESPONSE_PROMPT
                (context st) (query st) ;;
   if is_empty content || (String.length (trim content) <? 20)
   then throw (GenerationError "Generated response is too short or empty")
   else ret (answer_update content true (or (confidence st) (JNum 0.8))))%js.

Definition generationNode (w : World) (streaming : bool) (st : RAGState)
  : M Update :=
  try_catch
    (if negb (truthy (isRelevant st))
     then ret (answer_update RESPONSE_TEMPLATES.NOT_RELEVANT false (JNum 1.0))
     else if insufficient st then
       if fee_salvage st then salvage w streaming st 0.7
       else if followup_salvage st then salvage w streaming st 0.8
       else
         match (if wantsDuration st then monthMatch st else None) with
         | Some m => ret (duration_answer m)
         | None =>
             if social_salvage st then salvage w streaming st 0.75
             else graceful_non_answer w streaming st
         end
     else grounded w streaming st)
    (fun error =>
       match error with
       | GenerationError _ => throw error
       | _ =>
           ret {| u_isRelevant := None; u_retrievedDocs := None;
                  u_hasAnswer := None; u_context := None;
                  u_response := Some RESPONSE_TEMPLATES.VERIFICATION_FAILED;
                  u_needsValidation := Some false;
                  u_confidence := Some (JNum 0.1);
                  u_sources := None;
                  u_errorMessage := Some (exn_message error) |}
       end).

End Generation.

(* ===================================================================== *)
(** ** langgraph/nodes/responseValidation.ts *)
(* ===================================================================== *)

Module ResponseValidation.
Import JsString Stage.

Record ResponseValidationResult : Type := {
  rv_isValid : jsval;
  rv_issues : jsval;
  rv_confidence : jsval;
  rv_reasoning : jsval
}.

Definition decode (parsed : option jsval) : M ResponseValidationResult :=
  (parsedResult <- JSON_parse parsed ;;
   v <- prop parsedResult "isValid" ;;
   i <- prop parsedResult "issues" ;;
   conf <- prop parsedResult "confidence" ;;
   why <- prop parsedResult "reasoning" ;;
   ret {| rv_isValid := v; rv_issues := or i (JArr []);
          rv_confidence := conf; rv_reasoning := or why JUndefined |})%js.

Definition verification_failed (message : option string) : Update :=
  {| u_isRelevant := None; u_retrievedDocs := None; u_hasAnswer := None;
     u_context := None;
     u_response := Some RESPONSE_TEMPLATES.VERIFICATION_FAILED;
     u_needsValidation := Some false;
     u_confidence := Some (JNum 0.1);
     u_sources := None; u_errorMessage := message |}.

Definition responseValidationNode (w : World) (st : RAGState) : M Update :=
  try_catch
    (if negb (needsValidation st)
     then ret {| u_isRelevant := None; u_retrievedDocs := None;
                 u_hasAnswer := None; u_context := None;
                 u_response := Some (response st);
                 u_needsValidation := Some false;
                 u_confidence := None; u_sources := None;
                 u_errorMessage := None |}
     else if is_empty (response st) || is_empty (context st)
     then ret (verification_failed None)
     else
       (perform [CallValidator (context st) (response st)] ;;;
        content <- structured_call (validator w (context st) (response st)) ;;
        validationResult <-
          try_catch (decode content)
            (fun parseError =>
               throw (ValidationError "Failed to parse validation response")) ;;
        ret (Generation.answer_update (response st) false
               (math_max (coerce w) 0.8 (or (confidence st) (JNum 0.8)))))%js)
    (fun error =>
       match error with
       | ValidationError _ => throw error
       | _ => ret (verification_failed (Some (exn_message error)))
       end).

End ResponseValidation.

(* ===================================================================== *)
(** ** langgraph/workflow.ts *)
(* ===================================================================== *)

Module Workflow.
Import QueryValidation Retrieval ContextCheck Generation.

Definition initialState (q : string) : RAGState :=
  {| query := q; isRelevant := JBool false; retrievedDocs := Some [];
     hasAnswer := JBool false; context := ""; response := "";
     needsValidation := false; confidence := JNum 0; sources := [];
     errorMessage := None |}.

(** What the [catch] of the sequential execution returns. *)
Definition degraded (q : string) (error : Exn) : RAGState :=
  {| query := q; isRelevant := JBool false; retrievedDocs := Some [];
     hasAnswer := JBool false; context := "";
     response := "I apologize, but I encountered an error while processing your question. Please try again or contact SPJIMR directly for assistance.";
     needsValidation := false; confidence := JNum 0.1; sources := [];
     errorMessage := Some (exn_message error) |}.

(** Steps 2 and 3, run only for a relevant query. *)
Definition retrieve_and_check (w : World) (st : RAGState) : M RAGState :=
  if truthy (isRelevant st) then
    (retrievalResult <- retrievalNode w st ;;
     let st := merge st retrievalResult in
     contextResult <- contextCheckNode w st ;;
     ret (merge st contextResult))%js
  else ret st.

(** Steps 1 to 4; step 5 is not called. *)
Definition executeRAGWorkflowFallback (w : World) (streaming : bool) (q : string)
  : M RAGState :=
  try_catch
    (let st := initialState q in
     validationResult <- queryValidationNode w st ;;
     let st := merge st validationResult in
     st <- retrieve_and_check w st ;;
     generationResult <- generationNode w streaming st ;;
     ret (merge st generationResult))%js
    (fun error => ret (degraded q error)).

(** [createRAGWorkflow().invoke(state, options)]: [streamCallback] tells
    whether the options carry a stream callback. *)
Definition invoke (w : World) (streamCallback : bool) (state : RAGState)
  : M RAGState :=
  executeRAGWorkflowFallback w streamCallback (query state).

End Workflow.

(* ===================================================================== *)
(** ** The server: handleStreamingChat *)
(* ===================================================================== *)

Module Server.
Import JsString.

Inductive StreamEvent : Type :=
| EvConnected (sessionId timestamp : string)
| EvStatus (message : string)
| EvToken (content : string)
| EvPing (t : Z)
| EvComplete (answer : string) (conf : jsval) (srcs : list string)
             (retrievedDocuments : nat)
| EvError (error : string) (details : option string)
| EvEnd.

Record Request : Type := {
  body_question : jsval;                        (* req.body.question *)
  sessionId : string;
  conversationMemory : ConversationMemory.t
}.

(** What the client receives: a JSON error with its status, or the frames
    written to the event stream before [res.end()]. *)
Inductive HttpResult : Type :=
| JsonError (status : nat) (code : string)
| EventStream (events : list StreamEvent).

Definition is_connected (e : StreamEvent) : bool :=
  match e with EvConnected _ _ => true | _ => false end.
Definition is_complete (e : StreamEvent) : bool :=
  match e with EvComplete _ _ _ _ => true | _ => false end.
Definition is_error (e : StreamEvent) : bool :=
  match e with EvError _ _ => true | _ => false end.
Definition is_end (e : StreamEvent) : bool :=
  match e with EvEnd => true | _ => false end.
Definition is_token_or_ping (e : StreamEvent) : bool :=
  match e with EvToken _ | EvPing _ => true | _ => false end.

Definition count (p : StreamEvent -> bool) (events : list StreamEvent) : nat :=
  length (filter p events).

(** The tokens the stream callback received. *)
Fixpoint tokens_of (es : list Effect) : list string :=
  match es with
  | [] => []
  | Token t :: rest => t :: tokens_of rest
  | _ :: rest => tokens_of rest
  end.

(** Token frames in order, with the keep-alive frames that fire while the
    handler waits for the workflow. *)
Fixpoint interleave (pings : nat -> list Z) (k : nat) (tokens : list string)
  : list StreamEvent :=
  match tokens with
  | [] => map EvPing (pings k)
  | t :: rest => (map EvPing (pings k) ++ EvToken t :: interleave pings (S k) rest)%list
  end.

(** [String(error)] *)
Definition String_of_error (e : Exn) : string :=
  match e with
  | ValidationError m => "ValidationError: " ++ m
  | RetrievalError m => "RetrievalError: " ++ m
  | GenerationError m => "GenerationError: " ++ m
  | JsError m => "Error: " ++ m
  end.

Definition error_event (w : World) (e : Exn) : StreamEvent :=
  EvError "Failed to process streaming query"
          (if development w then Some (String_of_error e) else None).

(** The tracing set-up between the stream callback and the workflow call:
    with both LANGFUSE keys present the handler runs [new Langfuse(...)],
    [lf.trace(...)] and [new CallbackHandler(...)] unguarded; everything
    later that touches the trace is wrapped in its own [try]/[catch]. *)
Definition tracing_setup (w : World) : M unit :=
  match tracing w with
  | TracingSetupThrows m => throw (JsError m)
  | _ => ret tt
  end.

(** The inner [try] block from the status frame to the memory update, and
    its [catch].  The result is the frames written and the session memory
    afterwards.  Heartbeats can fire only while the handler is suspended on
    the workflow call. *)
Definition stream_body (workflow_ready : bool) (w : World) (req : Request)
           (question : string) : list StreamEvent * ConversationMemory.t :=
  let memory := conversationMemory req in
  let status := EvStatus "Processing query..." in
  let compositeQuestion := Conversation.buildCompositeQuery question memory in
  let setup : M unit :=
    ((if workflow_ready then ret tt else throw (JsError "Workflow not initialized")) ;;;
     tracing_setup w)%js in
  match outcome setup with
  | inl error => ([status; error_event w error], memory)
  | inr _ =>
      let run := Workflow.invoke w true (Workflow.initialState (trim compositeQuestion)) in
      let tokens := tokens_of (effects run) in
      let during := interleave (ping_times w) 0 tokens in
      match outcome run with
      | inr result =>
          let fullResponse := String.concat "" tokens in
          let answer := if is_empty (response result) then fullResponse
                        else response result in
          let conf := or (confidence result) (JNum 0.7) in
          ((status :: during
              ++ [EvComplete answer conf (sources result)
                    (length (Stage.docs_or_empty (retrievedDocs result)))])%list,
           ConversationMemory.addTurn (now_ms w)
             {| ConversationMemory.in_question := question;
                ConversationMemory.in_answer := answer;
                ConversationMemory.in_confidence := conf;
                ConversationMemory.in_sources := sources result |} memory)
      | inl error => ((status :: during ++ [error_event w error])%list, memory)
      end
  end.

Definition handleStreamingChat (workflow_ready : bool) (w : World) (req : Request)
  : HttpResult * ConversationMemory.t :=
  let memory := conversationMemory req in
  match body_question req with
  | JStr question =>
      if is_empty question then (JsonError 400 "INVALID_QUESTION", memory)
      else if negb workflow_ready then (JsonError 503 "WORKFLOW_NOT_READY", memory)
      else
        let (frames, memory') := stream_body workflow_ready w req question in
        (EventStream
           ((EvConnected (sessionId req) (now_iso w) :: frames) ++ [EvEnd])%list,
         memory')
  | _ => (JsonError 400 "INVALID_QUESTION", memory)
  end.

End Server.

(* ===================================================================== *)
(** ** Sample data used by the examples below *)
(* ===================================================================== *)

Module Scenario.
Import ConversationMemory.

Definition classifier_reply (relevant : bool) (conf : Q) : jsval :=
  JObj [("isRelevant", JBool relevant); ("category", JStr "general");
        ("reason", JStr "about the programme"); ("confidence", JNum conf)].

Definition judge_reply (sufficient : bool) (conf : Q) : jsval :=
  JObj [("hasAnswer", JBool sufficient); ("confidence", JNum conf);
        ("reasoning", JStr "read the documents")].

(** From the corpus: the programme overview and the fee table. *)
Definition doc_overview : Document :=
  {| pageContent := "SPJIMR's Post Graduate Programme in Management (PGPM) is an 18-month AICTE-approved General Management programme, ideal for experienced executives with over three years of work experience.";
     source := "overview.md" |}.

Definition doc_fees : Document :=
  {| pageContent := "## PGPM fee structure. Admission fee 65,000. Tuition fee 16,00,000. Total fee 21,00,000.";
     source := "fees.md" |}.

Definition doc_admissions : Document :=
  {| pageContent := "PGPM admissions follow the rolling interview process. Outstanding candidates receive an offer letter even before the closing date of admissions.";
     source := "admissions.md" |}.

Definition generated_text : string :=
  "The programme is described in the documents provided; please verify with SPJIMR.".

(** A world whose classifier accepts the query, whose retriever returns
    [docs], whose judge finds the documents insufficient and whose
    generation model answers in two tokens. *)
Definition world (docs : list Document) : World :=
  {| classifier := fun _ => JsonContent (Some (classifier_reply true 0.9));
     retriever := fun _ => Retrieved docs (map source docs);
     judge := fun _ _ => JsonContent (Some (judge_reply false 0.1));
     generator := fun _ _ _ =>
       {| gen_tokens := ["The programme is described "; "in the documents."];
          gen_result := inr generated_text |};
     validator := fun _ _ =>
       JsonContent (Some (JObj [("isValid", JBool true); ("issues", JArr []);
                                ("confidence", JNum 0.9)]));
     coerce := fun _ => None;
     tracing := TracingOff;
     development := false;
     now_iso := "2025-01-01T00:00:00.000Z";
     now_ms := 1735689600000%Z;
     ping_times := fun _ => [] |}.

Definition with_classifier (reply : JsonReply) (w : World) : World :=
  {| classifier := fun _ => reply; retriever := retriever w; judge := judge w;
     generator := generator w; validator := validator w; coerce := coerce w;
     tracing := tracing w; development := development w;
     now_iso := now_iso w; now_ms := now_ms w; ping_times := ping_times w |}.

Definition with_judge (reply : JsonReply) (w : World) : World :=
  {| classifier := classifier w; retriever := retriever w;
     judge := fun _ _ => reply;
     generator := generator w; validator := validator w; coerce := coerce w;
     tracing := tracing w; development := development w;
     now_iso := now_iso w; now_ms := now_ms w; ping_times := ping_times w |}.

Definition with_tracing (t : Tracing) (w : World) : World :=
  {| classifier := classifier w; retriever := retriever w; judge := judge w;
     generator := generator w; validator := validator w; coerce := coerce w;
     tracing := t; development := development w;
     now_iso := now_iso w; now_ms := now_ms w; ping_times := ping_times w |}.

(** A state as the generation stage receives it after an insufficient
    context check. *)
Definition insufficient_state (q : string) (docs : list Document) : RAGState :=
  {| query := q; isRelevant := JBool true; retrievedDocs := Some docs;
     hasAnswer := JBool false; context := ""; response := "";
     needsValidation := false; confidence := JNum 0.1;
     sources := map source docs; errorMessage := None |}.

(** The fee salvage's answer, handed to the response validator together
    with the documents as context. *)
Definition salvaged_fee_state : RAGState :=
  {| query := "What is the total PGPM fee?"; isRelevant := JBool true;
     retrievedDocs := Some [doc_fees]; hasAnswer := JBool true;
     context := Stage.documents_blob [doc_fees];
     response := generated_text;
     needsValidation := true; confidence := JNum 0.7;
     sources := ["fees.md"]; errorMessage := None |}.

Definition turn (q a : string) : TurnInput :=
  {| in_question := q; in_answer := a; in_confidence := JNum 0.8;
     in_sources := ["admissions.md"] |}.

(** A session with one earlier exchange about admissions. *)
Definition after_admissions : ConversationMemory.t :=
  addTurn 0 (turn "What is the admission process?"
                  "PGPM admissions follow the rolling interview process.")
          empty.

(** Ten turns: a session at capacity. *)
Definition full_history : ConversationMemory.t :=
  addTurns (map (fun n => (Z.of_nat n, turn (JsString.of_nat n) "answer"))
                (seq 1 10)) empty.

Definition request (q : jsval) (memory : ConversationMemory.t) : Server.Request :=
  {| Server.body_question := q; Server.sessionId := "session-1";
     Server.conversationMemory := memory |}.

End Scenario.

(* ===================================================================== *)
(** ** shared/queryHeuristics.ts: the remaining classifiers and the query
    expansion *)
(* ===================================================================== *)

Module QueryExpansion.
Import JsString Regex QueryHeuristics.

Definition statsPatterns : list regex :=
  [ (* /\b(stats?|statistics|data|numbers|figures|all data)\b/i *)
    bounded (alts [Seq (str "stat") (Opt (Lit "s")); str "statistics"; str "data";
                   str "numbers"; str "figures"; str "all data"]);
    (* /\b(give me all|show me all|tell me all)\b/i *)
    bounded (words ["give me all"; "show me all"; "tell me all"]);
    (* /\b(complete (stats?|data|information))\b/i *)
    bounded (Seq (str "complete ")
                 (alts [Seq (str "stat") (Opt (Lit "s")); str "data";
                        str "information"])) ].

(** Tested on the query as given, not on its normal form. *)
Definition isStatsQuery (q : string) : bool :=
  existsb (fun p => test true p q) statsPatterns.

Definition broadPatterns : list regex :=
  [ (* /^(everything|tell me everything|all information)$/i *)
    anchored (words ["everything"; "tell me everything"; "all information"]);
    (* /^(complete|comprehensive|full) (info|information|details?)$/i *)
    anchored (seqs [words ["complete"; "comprehensive"; "full"]; Lit " ";
                    alts [str "info"; str "information";
                          Seq (str "detail") (Opt (Lit "s"))]]);
    (* /^(overview|summary)$/i *)
    anchored (words ["overview"; "summary"]);
    (* /\b(tell me about|what is|what's) (pgpm|the program|this program)\b/i *)
    bounded (seqs [words ["tell me about"; "what is"; "what's"]; Lit " ";
                   words ["pgpm"; "the program"; "this program"]]) ].

Definition isBroadInformationQuery (q : string) : bool :=
  existsb (fun p => test true p (normalize q)) broadPatterns.

(** [categoryKeywords], in the order [Object.entries] visits it. *)
Definition categoryKeywords : list (string * list string) :=
  [ ("eligibility", ["eligibility"; "criteria"; "requirement"; "qualify";
                     "experience"; "marks"; "degree"]);
    ("admissions", ["admission"; "apply"; "application"; "deadline"; "process";
                    "selection"]);
    ("curriculum", ["curriculum"; "course"; "subject"; "major"; "minor";
                    "academic"; "syllabus"]);
    ("fees", ["fees"; "cost"; "payment"; "financial"; "scholarship"; "loan"]);
    ("placements", ["placement"; "job"; "salary"; "company"; "career";
                    "recruitment"]);
    ("duration", ["duration"; "length"; "timeline"; "phase"; "semester"]);
    ("campus", ["campus"; "location"; "facility"; "infrastructure"; "hostel"]);
    ("accreditation", ["accreditation"; "aacsb"; "amba"; "equis";
                       "certification"]);
    ("rankings", ["ranking"; "rank"; "rating"; "reputation"; "financial times"]);
    ("faculty", ["faculty"; "professor"; "teacher"; "staff"; "instructor"]) ].

(** The [for ... of] loop pushing every category with a keyword hit. *)
Fixpoint collect_categories (q : string) (table : list (string * list string))
  : list string :=
  match table with
  | [] => []
  | (category, kws) :: rest =>
      if includes_any q kws then category :: collect_categories q rest
      else collect_categories q rest
  end.

Definition suggestCategories (q : string) : list string :=
  collect_categories (normalize q) categoryKeywords.

(** The pieces of [s] between runs of whitespace.  On the trimmed text the
    code splits, [split(/\s+/)] returns these, or one empty string for the
    empty text, which the length filter that follows drops. *)
Fixpoint split_whitespace (s : string) (cur : string) : list string :=
  match s with
  | EmptyString => if is_empty cur then [] else [cur]
  | String c s' =>
      if is_space c
      then (if is_empty cur then split_whitespace s' ""
            else cur :: split_whitespace s' "")
      else split_whitespace s' (cur ++ String c "")
  end.

(** [queryLower.split(/\s+/).filter(word => word.length > 2)] *)
Definition significant_words (queryLower : string) : list string :=
  filter (fun w => 2 <? String.length w) (split_whitespace queryLower "").

Definition baseContext : string := "SPJIMR PGPM program management".

Definition domainExpansions : list (string * string) :=
  [ ("curriculum", "curriculum courses subjects modules syllabus academic program structure");
    ("course", "courses curriculum subjects academic program modules");
    ("duration", "duration length time period months years program");
    ("admission", "admission admissions eligibility requirements application process criteria");
    ("eligibility", "eligibility criteria requirements qualification admission");
    ("deadline", "deadline dates timeline admission application last date");
    ("application", "application form process admission requirements procedure");
    ("fees", "fees cost tuition payment structure scholarship financial aid");
    ("cost", "cost fees expenses tuition financial charges");
    ("scholarship", "scholarship financial aid funding assistance fees support");
    ("payment", "payment fees cost installment structure financial");
    ("placement", "placement job career opportunities salary companies recruitment");
    ("salary", "salary placement packages compensation career opportunities");
    ("companies", "companies placement recruiters employers opportunities");
    ("career", "career placement opportunities job salary growth");
    ("campus", "campus facilities infrastructure location accommodation hostel");
    ("hostel", "hostel accommodation campus facilities residence");
    ("facilities", "facilities infrastructure campus amenities services");
    ("faculty", "faculty professors teachers teaching staff academics");
    ("teaching", "teaching faculty professors pedagogy learning methodology") ].

Definition shortQueryExpansions : list (string * string) :=
  [ ("fees", "PGPM program fees cost tuition structure payment financial");
    ("admission", "PGPM admission eligibility requirements application process criteria");
    ("curriculum", "PGPM curriculum courses subjects academic program structure");
    ("placement", "PGPM placement job career opportunities salary companies");
    ("duration", "PGPM program duration length time period months");
    ("faculty", "PGPM faculty professors teachers teaching staff");
    ("campus", "PGPM campus facilities infrastructure location");
    ("eligibility", "PGPM eligibility criteria requirements qualification admission");
    ("salary", "PGPM placement salary packages compensation career");
    ("deadline", "PGPM admission deadline dates timeline application");
    ("scholarship", "PGPM scholarship financial aid funding assistance fees");
    ("stats", "PGPM statistics data placement salary admission numbers figures");
    ("everything", "PGPM comprehensive information overview curriculum admission placement fees");
    ("abhyudaya", "PGPM Abhyudaya social projects community underprivileged local engagement development citizenship DoCC");
    ("docc", "PGPM DoCC Development Corporate Citizenship social projects organizations India community work");
    ("sitaras", "PGPM social projects community education learning experience Sitaras participants engagement") ].

Definition needsEnhancement (originalQuery : string) : bool :=
  let queryLower := normalize originalQuery in
  let queryWords := significant_words queryLower in
  (String.length originalQuery <? 20)
  || (length queryWords <? 3)
  || (negb (includes queryLower "pgpm") && negb (includes queryLower "spjimr"))
  || isFollowUpQuery originalQuery
  || isStatsQuery originalQuery
  || isBroadInformationQuery originalQuery.

(** The loop over [domainExpansions]: a topic counts when its name occurs
    in the query or its first four letters occur in a significant word. *)
Fixpoint collect_expansions (queryLower : string) (queryWords : list string)
         (table : list (string * string)) : list string :=
  match table with
  | [] => []
  | (domain, expansion) :: rest =>
      if includes queryLower domain
         || existsb (fun w => includes w (substring 0 4 domain)) queryWords
      then expansion :: collect_expansions queryLower queryWords rest
      else collect_expansions queryLower queryWords rest
  end.

(** The loop over [shortQueryExpansions], returning at the first hit. *)
Fixpoint first_short_expansion (queryLower : string) (table : list (string * string))
  : option string :=
  match table with
  | [] => None
  | (key, expansion) :: rest =>
      if includes queryLower key then Some expansion
      else first_short_expansion queryLower rest
  end.

Definition statsPriming : string :=
  "PGPM program statistics data numbers figures placement salary fees admission criteria duration curriculum comprehensive information".
Definition broadPriming : string :=
  "PGPM program complete information overview summary comprehensive details curriculum admission placement fees faculty campus facilities".
Definition followUpPriming : string :=
  "PGPM program detailed information comprehensive overview curriculum admission placement fees salary statistics faculty campus duration".

(** The last step: all collected expansions, or the base context alone when
    the text would exceed 200 characters. *)
Definition default_expansion (queryLower : string) (queryWords : list string)
           (originalQuery : string) : string :=
  let expansions :=
    baseContext :: collect_expansions queryLower queryWords domainExpansions in
  let enhanced := join " " expansions ++ " " ++ originalQuery in
  if 200 <? String.length enhanced
  then baseContext ++ " " ++ originalQuery
  else enhanced.

Definition enhanceQuery (originalQuery : string) : string :=
  let queryLower := normalize originalQuery in
  let queryWords := significant_words queryLower in
  if negb (needsEnhancement originalQuery) then originalQuery
  else if isStatsQuery originalQuery then statsPriming ++ " " ++ originalQuery
  else if isBroadInformationQuery originalQuery then broadPriming ++ " " ++ originalQuery
  else if isFollowUpQuery originalQuery then followUpPriming ++ " " ++ originalQuery
  else
    match (if length queryWords <=? 2
           then first_short_expansion queryLower shortQueryExpansions
           else None) with
    | Some expansion => expansion ++ " " ++ originalQuery
    | None => default_expansion queryLower queryWords originalQuery
    end.

End QueryExpansion.

(* ===================================================================== *)
(** ** langgraph/nodes/retrieval.ts: the pure helpers *)
(* ===================================================================== *)

Module RetrievalHelpers.
Import JsString.

(** A search hit with the metadata the helpers read. *)
Record Hit : Type := {
  hit_document : Document;
  hit_type : option string;       (* metadata['type'] *)
  hit_section : option string     (* metadata['section'] *)
}.

(** The texts of a hit that the helpers measure or search, its content and
    its section, are ASCII. *)
Definition ascii_hit (doc : Hit) : bool :=
  is_ascii (pageContent (hit_document doc))
  && match hit_section doc with
     | Some section => is_ascii section
     | None => true
     end.

(** The metadata filter: the domain constant and an optional type. *)
Record Filter : Type := {
  program : string;
  filter_type : option string
}.

Definition createRetrievalFilter (q : string) : Filter :=
  let queryLower := toLowerCase q in
  if includes queryLower "admission" || includes queryLower "eligibility"
  then {| program := "PGPM"; filter_type := Some "admissions" |}
  else if includes queryLower "fee" || includes queryLower "cost"
          || includes queryLower "payment"
  then {| program := "PGPM"; filter_type := Some "fees" |}
  else if includes queryLower "placement" || includes queryLower "job"
          || includes queryLower "salary"
  then {| program := "PGPM"; filter_type := Some "placements" |}
  else if includes queryLower "curriculum" || includes queryLower "course"
          || includes queryLower "subject"
  then {| program := "PGPM"; filter_type := Some "curriculum" |}
  else {| program := "PGPM"; filter_type := None |}.

(** [s.replace(/\s+/g, ' ')]: every run of whitespace becomes one space. *)
Fixpoint collapse_whitespace (s : string) (in_run : bool) : string :=
  match s with
  | EmptyString => EmptyString
  | String c s' =>
      if is_space c
      then (if in_run then collapse_whitespace s' true
            else String " " (collapse_whitespace s' true))
      else String c (collapse_whitespace s' false)
  end.

(** [doc.pageContent.substring(0, 200).replace(/\s+/g, ' ').trim()] *)
Definition contentHash (doc : Hit) : string :=
  trim (collapse_whitespace (substring 0 200 (pageContent (hit_document doc))) false).

(** The loop of [deduplicateDocuments]; [seen] is the set of hashes. *)
Fixpoint dedupe_loop (seen : list string) (docs : list Hit) : list Hit :=
  match docs with
  | [] => []
  | doc :: rest =>
      if mem (contentHash doc) seen then dedupe_loop seen rest
      else doc :: dedupe_loop (contentHash doc :: seen) rest
  end.

Definition deduplicateDocuments (docs : list Hit) : list Hit :=
  dedupe_loop [] docs.

(** The merge of a second search into the results so far, keyed by
    [pageContent.slice(0, 200)]. *)
Definition sliceKey (doc : Hit) : string :=
  substring 0 200 (pageContent (hit_document doc)).

Fixpoint merge_loop (seen : list string) (extraDocs : list Hit) : list Hit :=
  match extraDocs with
  | [] => []
  | d :: rest =>
      if mem (sliceKey d) seen then merge_loop seen rest
      else d :: merge_loop (sliceKey d :: seen) rest
  end.

Definition merge_results (retrievedDocs extraDocs : list Hit) : list Hit :=
  (retrievedDocs ++ merge_loop (map sliceKey retrievedDocs) extraDocs)%list.

(** [arr.indexOf(x)], as a position when there is one. *)
Fixpoint indexOf (x : string) (arr : list string) : option nat :=
  match arr with
  | [] => None
  | y :: rest =>
      if String.eqb y x then Some 0
      else match indexOf x rest with
           | Some i => Some (S i)
           | None => None
           end
  end.

(** [arr.filter((source, index, arr) => arr.indexOf(source) === index)],
    walking the elements from position [index]. *)
Fixpoint first_occurrences (arr : list string) (index : nat) (rest : list string)
  : list string :=
  match rest with
  | [] => []
  | s :: rest' =>
      match indexOf s arr with
      | Some i => if i =? index then s :: first_occurrences arr (S index) rest'
                  else first_occurrences arr (S index) rest'
      | None => first_occurrences arr (S index) rest'
      end
  end.

(** The sources for citation: unique, at most three. *)
Definition extractSources (orderedDocs : list Hit) : list string :=
  let arr := map (fun doc => source (hit_document doc)) orderedDocs in
  firstn 3 (first_occurrences arr 0 arr).

(** [s.split(' ')] *)
Fixpoint split_space (s : string) (cur : string) : list string :=
  match s with
  | EmptyString => [cur]
  | String c s' =>
      if Ascii.eqb c " " then cur :: split_space s' ""
      else split_space s' (cur ++ String c "")
  end.

(** [queryLower.split(' ').filter(term => term.length > 2)] *)
Definition queryTerms (queryLower : string) : list string :=
  filter (fun term => 2 <? String.length term) (split_space queryLower "").

(** [typePreferences[type] || 0], for a type that is one of the four keys,
    another plain name, or missing (names of [Object.prototype]'s own
    properties are not document types). *)
Definition typePreference (queryLower : string) (type : option string) : nat :=
  match type with
  | Some t =>
      if String.eqb t "admissions" then (if includes queryLower "admission" then 3 else 0)
      else if String.eqb t "fees" then (if includes queryLower "fee" then 3 else 0)
      else if String.eqb t "placements" then (if includes queryLower "placement" then 3 else 0)
      else if String.eqb t "curriculum" then (if includes queryLower "curriculum" then 3 else 0)
      else 0
  | None => 0
  end.

(** The score the comparator computes for one of its two arguments. *)
Definition relevanceScore (queryLower : string) (h : Hit) : nat :=
  fold_left
    (fun score term =>
       score
       + (match hit_section h with
          | Some section => if includes (toLowerCase section) term then 2 else 0
          | None => 0
          end)
       + (if includes (toLowerCase (pageContent (hit_document h))) term then 1 else 0))
    (queryTerms queryLower) 0
  + typePreference queryLower (hit_type h).

(** [docs.sort((a, b) => scoreB - scoreA)].  The comparator orders by score
    alone and the sort is stable, so the result is the stable arrangement by
    descending score, built here by insertion from the right. *)
Fixpoint insert_by_score (score : Hit -> nat) (x : Hit) (sorted : list Hit) : list Hit :=
  match sorted with
  | [] => [x]
  | y :: rest =>
      if score y <=? score x then x :: y :: rest
      else y :: insert_by_score score x rest
  end.

Definition sort_by_score (score : Hit -> nat) (docs : list Hit) : list Hit :=
  fold_right (insert_by_score score) [] docs.

Definition reorderDocumentsByRelevance (docs : list Hit) (q : string) : list Hit :=
  sort_by_score (relevanceScore (toLowerCase q)) docs.

(** The tail of [retrievalNode], once the searches are done: deduplicate,
    drop short chunks, reorder, and extract the sources. *)
Definition finish_retrieval (retrievedDocs : list Hit) (q : string)
  : list Hit * list string :=
  let filteredDocs :=
    filter (fun doc => 50 <? String.length (trim (pageContent (hit_document doc))))
           (deduplicateDocuments retrievedDocs) in
  let orderedDocs := reorderDocumentsByRelevance filteredDocs q in
  (orderedDocs, extractSources orderedDocs).

End RetrievalHelpers.

(* ===================================================================== *)
(** ** langgraph/nodes/generation.ts: the response helpers *)
(* ===================================================================== *)

Module ResponseHelpers.
Import JsString.

Definition problematicPhrases : list string :=
  ["i think"; "i believe"; "probably"; "might be"; "could be";
   "in my opinion"; "i assume"; "i guess"; "perhaps";
   "it seems like"; "maybe"; "i would say"].

Definition containsProblematicContent (response : string) : bool :=
  includes_any (toLowerCase response) problematicPhrases.

Definition enhanceResponseWithCitations (response : string) (srcs : option (list string))
  : string :=
  match srcs with
  | None | Some [] => response
  | Some l => response ++ (nl ++ nl ++ "Sources: ") ++ join ", " l
  end.

Definition disclaimer : string :=
  nl ++ nl ++ "Please verify this information directly with SPJIMR admissions for the most current and accurate details.".

Definition addVerificationDisclaimer (response : string) : string :=
  if includes (toLowerCase response) "verify" || includes (toLowerCase response) "contact"
  then response
  else response ++ disclaimer.

(** [s.lastIndexOf(c)], counting from position [i]; -1 when absent. *)
Fixpoint lastIndexOf_from (i : Z) (c : ascii) (s : string) : Z :=
  match s with
  | EmptyString => (-1)%Z
  | String a s' =>
      let later := lastIndexOf_from (i + 1)%Z c s' in
      if (0 <=? later)%Z then later
      else if Ascii.eqb a c then i else (-1)%Z
  end.

Definition lastIndexOf (c : ascii) (s : string) : Z := lastIndexOf_from 0%Z c s.

(** [truncateResponse].  [beyond lastSentenceEnd maxLength] stands for the
    floating-point test [lastSentenceEnd > maxLength * 0.7]. *)
Definition truncateResponse (beyond : Z -> nat -> bool)
           (response : string) (maxLength : nat) : string :=
  if String.length response <=? maxLength then response
  else
    let truncated := substring 0 maxLength response in
    let lastSentenceEnd :=
      Z.max (Z.max (lastIndexOf "." truncated) (lastIndexOf "!" truncated))
            (lastIndexOf "?" truncated) in
    if beyond lastSentenceEnd maxLength
    then substring 0 (Z.to_nat (lastSentenceEnd + 1)) truncated
    else truncated ++ "...".

End ResponseHelpers.

(* ===================================================================== *)
(** ** langgraph/workflow.ts: executeRAGWorkflow and testWorkflow *)
(* ===================================================================== *)

Module WorkflowEntry.

(** [executeRAGWorkflow]: the workflow object invoked without options, and
    the sequential execution again should that throw. *)
Definition executeRAGWorkflow (w : World) (q : string) : M RAGState :=
  try_catch (Workflow.invoke w false (Workflow.initialState q))
            (fun error => Workflow.executeRAGWorkflowFallback w false q).

Definition defaultTestQuery : string := "What is the PGPM program at SPJIMR?".

(** [testWorkflow]: success is [!!(result.response && result.response.length > 20)]. *)
Definition testWorkflow (w : World) (testQuery : option string) : M bool :=
  try_catch
    (let q := match testQuery with
              | Some t => if JsString.is_empty t then defaultTestQuery else t
              | None => defaultTestQuery
              end in
     result <- executeRAGWorkflow w q ;;
     ret (negb (JsString.is_empty (response result))
          && (20 <? String.length (response result))))%js
    (fun error => ret false).

End WorkflowEntry.

(* ===================================================================== *)
(** ** The server: sessions and the buffered chat endpoint *)
(* ===================================================================== *)

Module Sessions.

(** A conversation memory as the session map holds it: the history and the
    [lastActivity] stamp the chat handlers attach after a completed
    exchange. *)
Record Session : Type := {
  memory : ConversationMemory.t;
  lastActivity : option Z
}.

(** The [Map] from session identifiers, in insertion order. *)
Definition t : Type := list (string * Session).

Definition sessionTimeout : Z := (30 * 60 * 1000)%Z.

Fixpoint get (id : string) (sessions : t) : option Session :=
  match sessions with
  | [] => None
  | (k, s) :: rest => if String.eqb k id then Some s else get id rest
  end.

Definition has (id : string) (sessions : t) : bool :=
  match get id sessions with Some _ => true | None => false end.

(** [sessions.set(id, s)] for an identifier that is not yet a key. *)
Definition add (id : string) (s : Session) (sessions : t) : t :=
  (sessions ++ [(id, s)])%list.

(** [memory.lastActivity || now] *)
Definition activity_or (now : Z) (s : Session) : Z :=
  match lastActivity s with
  | Some stamp => if (stamp =? 0)%Z then now else stamp
  | None => now
  end.

Definition expired (now : Z) (s : Session) : bool :=
  (sessionTimeout <? now - activity_or now s)%Z.

Definition cleanupSessions (now : Z) (sessions : t) : t :=
  filter (fun entry => negb (expired now (snd entry))) sessions.

Definition fresh : Session := {| memory := ConversationMemory.empty; lastActivity := None |}.

(** What [handleSession] leaves behind: the identifier and memory attached
    to the request, the header it set, and the session map. *)
Record Handled : Type := {
  sessionId : string;
  attached : Session;
  header_set : option string;
  sessions_after : t
}.

(** [handleSession]: [header] is the request's x-session-id, [uuid] what
    [uuidv4()] returns. *)
Definition handleSession (header : option string) (uuid : string) (now : Z)
           (sessions : t) : Handled :=
  let given := match header with
               | Some h => negb (JsString.is_empty h)
               | None => false
               end in
  let id := if given then match header with Some h => h | None => uuid end
            else uuid in
  let sessions1 := if has id sessions then sessions else add id fresh sessions in
  {| sessionId := id;
     attached := match get id sessions1 with Some s => s | None => fresh end;
     header_set := if given then None else Some id;
     sessions_after := cleanupSessions now sessions1 |}.

End Sessions.

Module ChatEndpoint.
Import JsString.

(** The body of a successful reply of POST /api/chat. *)
Record ChatReply : Type := {
  reply_answer : string;
  reply_confidence : jsval;
  reply_sources : list string;
  reply_isRelevant : jsval;
  reply_sessionId : string;
  reply_context : option string;
  reply_retrievedDocuments : option nat
}.

Inductive ChatResult : Type :=
| ChatError (status : nat) (code : string)
| ChatOk (reply : ChatReply).

(** [handleChatQuery]; [includeContext] is the body's flag.  The result is
    the reply, the session memory afterwards and the [lastActivity] stamp
    written on it, if any. *)
Definition handleChatQuery (workflow_ready : bool) (w : World) (req : Server.Request)
           (includeContext : jsval)
  : ChatResult * ConversationMemory.t * option Z :=
  let memory := Server.conversationMemory req in
  match Server.body_question req with
  | JStr question =>
      if is_empty question then (ChatError 400 "INVALID_QUESTION", memory, None)
      else if negb workflow_ready
      then (ChatError 503 "WORKFLOW_NOT_READY", memory, None)
      else
        let compositeQuestion := Conversation.buildCompositeQuery question memory in
        match outcome (Workflow.invoke w false
                         (Workflow.initialState (trim compositeQuestion))) with
        | inr result =>
            (ChatOk {| reply_answer := response result;
                       reply_confidence := confidence result;
                       reply_sources := sources result;
                       reply_isRelevant := isRelevant result;
                       reply_sessionId := Server.sessionId req;
                       reply_context :=
                         if truthy includeContext then Some (context result) else None;
                       reply_retrievedDocuments :=
                         if truthy includeContext
                         then Some (length (Stage.docs_or_empty (retrievedDocs result)))
                         else None |},
             ConversationMemory.addTurn (now_ms w)
               {| ConversationMemory.in_question := question;
                  ConversationMemory.in_answer := response result;
                  ConversationMemory.in_confidence := confidence result;
                  ConversationMemory.in_sources := sources result |} memory,
             Some (now_ms w))
        | inl error => (ChatError 500 "PROCESSING_ERROR", memory, None)
        end
  | _ => (ChatError 400 "INVALID_QUESTION", memory, None)
  end.

End ChatEndpoint.

(* ===================================================================== *)
(** ** More sample data *)
(* ===================================================================== *)

Module Samples.

Definition with_generator (g : Prompt -> string -> string -> GenReply) (w : World)
  : World :=
  {| classifier := classifier w; retriever := retriever w; judge := judge w;
     generator := g; validator := validator w; coerce := coerce w;
     tracing := tracing w; development := development w;
     now_iso := now_iso w; now_ms := now_ms w; ping_times := ping_times w |}.

Definition with_retriever (r : RetrievalReply) (w : World) : World :=
  {| classifier := classifier w; retriever := fun _ => r; judge := judge w;
     generator := generator w; validator := validator w; coerce := coerce w;
     tracing := tracing w; development := development w;
     now_iso := now_iso w; now_ms := now_ms w; ping_times := ping_times w |}.

Definition with_validator (reply : JsonReply) (w : World) : World :=
  {| classifier := classifier w; retriever := retriever w; judge := judge w;
     generator := generator w; validator := fun _ _ => reply; coerce := coerce w;
     tracing := tracing w; development := development w;
     now_iso := now_iso w; now_ms := now_ms w; ping_times := ping_times w |}.

Definition with_pings (pings : nat -> list Z) (w : World) : World :=
  {| classifier := classifier w; retriever := retriever w; judge := judge w;
     generator := generator w; validator := validator w; coerce := coerce w;
     tracing := tracing w; development := development w;
     now_iso := now_iso w; now_ms := now_ms w; ping_times := pings |}.

(** A model that answers in one word, and one whose call fails. *)
Definition terse : Prompt -> string -> string -> GenReply :=
  fun _ _ _ => {| gen_tokens := ["Yes."]; gen_result := inr "Yes." |}.

Definition unreachable_model : Prompt -> string -> string -> GenReply :=
  fun _ _ _ => {| gen_tokens := []; gen_result := inl "socket hang up" |}.

(** A state with sufficient context, as the generation stage receives it. *)
Definition sufficient_state : RAGState :=
  {| query := "What is the total PGPM fee?"; isRelevant := JBool true;
     retrievedDocs := Some [Scenario.doc_fees]; hasAnswer := JBool true;
     context := Stage.documents_blob [Scenario.doc_fees];
     response := ""; needsValidation := false; confidence := JNum 0.9;
     sources := ["fees.md"]; errorMessage := None |}.

Definition hit (content src type : string) (section : option string)
  : RetrievalHelpers.Hit :=
  {| RetrievalHelpers.hit_document := {| pageContent := content; source := src |};
     RetrievalHelpers.hit_type := Some type;
     RetrievalHelpers.hit_section := section |}.

(** Three search hits: the fee page, the same page found again under
    another source, and the admissions page. *)
Definition hits : list RetrievalHelpers.Hit :=
  [ hit (pageContent Scenario.doc_fees) "fees.md" "fees" (Some "Fee structure");
    hit (pageContent Scenario.doc_fees) "fees-copy.md" "fees" None;
    hit (pageContent Scenario.doc_admissions) "admissions.md" "admissions"
        (Some "Admissions") ].

Definition session (history : ConversationMemory.t) (stamp : option Z)
  : Sessions.Session :=
  {| Sessions.memory := history; Sessions.lastActivity := stamp |}.

End Samples.

(* ===================================================================== *)
(** * Properties *)
(* ===================================================================== *)

(** ** Computations *)

Lemma effects_bind {A B} (m : M A) (k : A -> M B) a :
  outcome m = inr a ->
  effects (bind m k) = (effects m ++ effects (k a))%list.
Proof.
  destruct m as [es [e | x]]; simpl; intros H; [discriminate |].
  injection H as ->. destruct (k a); reflexivity.
Qed.

Lemma outcome_bind {A B} (m : M A) (k : A -> M B) a :
  outcome m = inr a -> outcome (bind m k) = outcome (k a).
Proof.
  destruct m as [es [e | x]]; simpl; intros H; [discriminate |].
  injection H as ->. destruct (k a); reflexivity.
Qed.

Lemma outcome_bind_throw {A B} (m : M A) (k : A -> M B) e :
  outcome m = inl e -> bind m k = (effects m, inl e).
Proof.
  destruct m as [es [e' | x]]; simpl; intros H; [| discriminate].
  injection H as ->. reflexivity.
Qed.

(** A [catch] that returns a value leaves nothing to propagate. *)
Lemma try_catch_returns {A} (body : M A) (h : Exn -> A) :
  exists a, outcome (try_catch body (fun e => ret (h e))) = inr a.
Proof.
  destruct body as [es [e | a]]; simpl; eauto.
Qed.

Lemma is_empty_false (s : string) : s <> "" -> JsString.is_empty s = false.
Proof. destruct s; [congruence | reflexivity]. Qed.

(** ** Conversation memory *)

Module MemoryFacts.
Import ConversationMemory.

Lemma addTurn_unfold now turn h :
  addTurn now turn h =
  if length h =? maxHistoryLength then (tl h ++ [stamp now turn])%list
  else if length h <? maxHistoryLength then (h ++ [stamp now turn])%list
  else tl (h ++ [stamp now turn])%list.
Proof.
  unfold addTurn, shift, maxHistoryLength.
  rewrite length_app; simpl.
  destruct (length h =? 10) eqn:E10.
  - apply Nat.eqb_eq in E10.
    replace (10 <? length h + 1) with true by (symmetry; apply Nat.ltb_lt; lia).
    destruct h; [discriminate | reflexivity].
  - apply Nat.eqb_neq in E10.
    destruct (length h <? 10) eqn:Elt.
    + apply Nat.ltb_lt in Elt.
      replace (10 <? length h + 1) with false by (symmetry; apply Nat.ltb_ge; lia).
      reflexivity.
    + apply Nat.ltb_ge in Elt.
      replace (10 <? length h + 1) with true by (symmetry; apply Nat.ltb_lt; lia).
      reflexivity.
Qed.

Lemma addTurn_bounded now turn h :
  length h <= maxHistoryLength -> length (addTurn now turn h) <= maxHistoryLength.
Proof.
  intros Hle. rewrite addTurn_unfold. unfold maxHistoryLength in *.
  destruct (length h =? 10) eqn:E10.
  - apply Nat.eqb_eq in E10. rewrite length_app; simpl.
    destruct h; simpl in *; lia.
  - apply Nat.eqb_neq in E10.
    replace (length h <? 10) with true by (symmetry; apply Nat.ltb_lt; lia).
    rewrite length_app; simpl; lia.
Qed.

Lemma addTurns_bounded calls : forall h,
  length h <= maxHistoryLength -> length (addTurns calls h) <= maxHistoryLength.
Proof.
  induction calls as [| [now turn] rest IH]; intros h Hle; simpl.
  - exact Hle.
  - apply IH, addTurn_bounded, Hle.
Qed.

End MemoryFacts.

(** C8: in a session's memory, which starts empty, the history never holds
    more than 10 turns whatever sequence of [addTurn] calls is made; and a
    call made at capacity removes exactly the oldest turn, keeping the other
    nine in order and appending the new one, while a call below capacity
    only appends. *)
Theorem history_bounded_fifo :
  forall (calls : list (Z * ConversationMemory.TurnInput))
         (now : Z) (turn : ConversationMemory.TurnInput),
    let h := ConversationMemory.addTurns calls ConversationMemory.empty in
    length h <= 10
    /\ ConversationMemory.addTurn now turn h =
       (if length h =? 10
        then tl h ++ [ConversationMemory.stamp now turn]
        else h ++ [ConversationMemory.stamp now turn])%list
    /\ length (ConversationMemory.addTurn now turn h) <= 10.
Proof.
  intros calls now turn h.
  assert (Hb : length h <= 10).
  { apply MemoryFacts.addTurns_bounded. simpl. unfold ConversationMemory.maxHistoryLength. lia. }
  split; [exact Hb |]. split.
  - rewrite MemoryFacts.addTurn_unfold. unfold ConversationMemory.maxHistoryLength.
    destruct (length h =? 10) eqn:E10; [reflexivity |].
    apply Nat.eqb_neq in E10.
    replace (length h <? 10) with true by (symmetry; apply Nat.ltb_lt; lia).
    reflexivity.
  - apply MemoryFacts.addTurn_bounded, Hb.
Qed.

(** The eleventh turn of a session pushes out the first. *)
Example eleventh_turn_evicts_first :
  map ConversationMemory.question
      (ConversationMemory.addTurn 11 (Scenario.turn "11" "answer") Scenario.full_history)
  = ["2"; "3"; "4"; "5"; "6"; "7"; "8"; "9"; "10"; "11"].
Proof. reflexivity. Qed.

(** ** The context gate *)

Module GateFacts.
Import JsString Stage Retrieval ContextCheck.





End GateFacts.

(** C6: with no retrieved documents (an empty list, or no list at all) the
    context gate returns hasAnswer=false, confidence=0 and an empty context,
    and performs no external call, so the judge is never consulted. *)
Theorem no_documents_no_judge (w : World) (st : RAGState) :
  retrievedDocs st = None \/ retrievedDocs st = Some [] ->
  exists upd,
    ContextCheck.contextCheckNode w st = ([], inr upd)
    /\ u_hasAnswer upd = Some (JBool false)
    /\ u_confidence upd = Some (JNum 0)
    /\ u_context upd = Some ""
    /\ existsb is_judge_call (effects (ContextCheck.contextCheckNode w st)) = false.
Proof.
  intros H.
  assert (E : ContextCheck.contextCheckNode w st
              = ([], inr (ContextCheck.gate_update (JBool false) "" (JNum 0)))).
  { unfold ContextCheck.contextCheckNode. destruct H as [-> | ->]; reflexivity. }
  rewrite E. eexists; repeat split.
Qed.

Lemma no_documents_no_judge_witness :
  exists upd,
    ContextCheck.contextCheckNode (Scenario.world []) (Workflow.initialState "How long is PGPM?")
      = ([], inr upd)
    /\ u_hasAnswer upd = Some (JBool false)
    /\ u_confidence upd = Some (JNum 0)
    /\ u_context upd = Some ""
    /\ existsb is_judge_call
         (effects (ContextCheck.contextCheckNode (Scenario.world [])
                     (Workflow.initialState "How long is PGPM?"))) = false.
Proof.
  apply (no_documents_no_judge (Scenario.world []) (Workflow.initialState "How long is PGPM?")).
  right; reflexivity.
Defined.



(** ** The relevance gate *)

Module RelevanceFacts.
Import JsString QueryHeuristics.




End RelevanceFacts.



(** The four conditions and the rejection on sample queries, all with a
    classifier that answers "not relevant". *)
Example relevance_gate_samples :
  let w := Scenario.with_classifier
             (JsonContent (Some (Scenario.classifier_reply false 0.4)))
             (Scenario.world []) in
  let marked q :=
    match outcome (QueryValidation.queryValidationNode w (Workflow.initialState q)) with
    | inr upd => u_isRelevant upd
    | inl _ => None
    end in
  marked "how much are the FEES?" = Some (JBool true)
  /\ marked "is an MBA worth it" = Some (JBool true)
  /\ marked " hi " = Some (JBool true)
  /\ marked "  DoCC" = Some (JBool true)
  /\ marked "what is the weather today" = Some (JBool false).
Proof. repeat split. Qed.

(** ** Decoding the structured replies *)

Module DecodeFacts.
Import Stage.

(** Text that is not JSON is rejected by both gates. *)
Lemma unparseable_classifier_reply_raises (w : World) (st : RAGState) :
  classifier w (query st) = JsonContent None ->
  outcome (QueryValidation.queryValidationNode w st)
  = inl (ValidationError "Failed to parse validation response").
Proof.
  intros H. unfold QueryValidation.queryValidationNode. rewrite H. reflexivity.
Qed.

Lemma unparseable_judge_reply_raises (w : World) (st : RAGState) :
  has_docs (retrievedDocs st) = true ->
  judge w (documents_blob (docs_or_empty (retrievedDocs st))) (query st)
    = JsonContent None ->
  outcome (ContextCheck.contextCheckNode w st)
  = inl (ValidationError "Failed to parse context validation response").
Proof.
  intros Hd H. unfold ContextCheck.contextCheckNode. rewrite Hd.
  cbn [negb]. rewrite H. reflexivity.
Qed.

(** So is the JSON text [null], whose first property read fails. *)
Lemma null_judge_reply_raises (w : World) (st : RAGState) :
  has_docs (retrievedDocs st) = true ->
  judge w (documents_blob (docs_or_empty (retrievedDocs st))) (query st)
    = JsonContent (Some JNull) ->
  outcome (ContextCheck.contextCheckNode w st)
  = inl (ValidationError "Failed to parse context validation response").
Proof.
  intros Hd H. unfold ContextCheck.contextCheckNode. rewrite Hd.
  cbn [negb]. rewrite H. reflexivity.
Qed.

(** A failing call is reported as a ValidationError too. *)
Lemma failed_classifier_call_raises (w : World) (st : RAGState) m :
  classifier w (query st) = JsonCallThrows m ->
  outcome (QueryValidation.queryValidationNode w st)
  = inl (ValidationError "Query validation failed").
Proof.
  intros H. unfold QueryValidation.queryValidationNode. rewrite H. reflexivity.
Qed.

(** Any parsed value other than [null] gets through both gates, read
    property by property. *)
Lemma parsed_reply_is_accepted (w : World) (st : RAGState) (reply : jsval) :
  reply <> JNull ->
  reply <> JUndefined ->
  exists verdict conf,
    get reply "isRelevant" = Some verdict
    /\ get reply "confidence" = Some conf
    /\ (classifier w (query st) = JsonContent (Some reply) ->
        exists upd,
          outcome (QueryValidation.queryValidationNode w st) = inr upd
          /\ u_isRelevant upd
             = Some (or verdict (JBool (QueryValidation.fallbackRelevant (query st))))
          /\ u_confidence upd = Some conf)
    /\ (has_docs (retrievedDocs st) = true ->
        judge w (documents_blob (docs_or_empty (retrievedDocs st))) (query st)
          = JsonContent (Some reply) ->
        exists upd,
          outcome (ContextCheck.contextCheckNode w st) = inr upd
          /\ u_confidence upd = Some conf).
Proof.
  intros Hnull Hundef.
  assert (Hget : forall name, get reply name
                              = Some (match reply with
                                      | JObj fields => lookup name fields
                                      | _ => JUndefined
                                      end)).
  { intros name. destruct reply; try reflexivity; congruence. }
  do 2 eexists. split; [apply Hget |]. split; [apply Hget |]. split.
  - intros Hreply. unfold QueryValidation.queryValidationNode. rewrite Hreply.
    unfold QueryValidation.decode, prop, structured_call, JSON_parse.
    cbn [bind ret perform app]. rewrite !Hget.
    eexists. split; [reflexivity |]. split; reflexivity.
  - intros Hdocs Hreply. unfold ContextCheck.contextCheckNode.
    rewrite Hdocs. cbn [negb]. rewrite Hreply.
    unfold ContextCheck.decode, prop, structured_call, JSON_parse.
    cbn [bind ret perform app]. rewrite !Hget.
    eexists. split; reflexivity.
Qed.

End DecodeFacts.

(** C7, on replies of the wrong shape.  Whatever non-null value the reply
    parses to (an object without the required fields, an array, a string, a
    number), neither gate raises: the relevance gate returns the value of
    the reply's isRelevant property or-ed with the fallback and the value of
    its confidence property, and the context gate returns the value of its
    confidence property, each [undefined] when the property is missing.
    No ValidationError is raised for a reply that is valid JSON. *)
Theorem wrong_shape_reply_is_accepted (w : World) (st : RAGState) (reply : jsval) :
  reply <> JNull ->
  reply <> JUndefined ->
  exists verdict conf,
    get reply "isRelevant" = Some verdict
    /\ get reply "confidence" = Some conf
    /\ (classifier w (query st) = JsonContent (Some reply) ->
        exists upd,
          outcome (QueryValidation.queryValidationNode w st) = inr upd
          /\ u_isRelevant upd
             = Some (or verdict (JBool (QueryValidation.fallbackRelevant (query st))))
          /\ u_confidence upd = Some conf)
    /\ (Stage.has_docs (retrievedDocs st) = true ->
        judge w (Stage.documents_blob (Stage.docs_or_empty (retrievedDocs st))) (query st)
          = JsonContent (Some reply) ->
        exists upd,
          outcome (ContextCheck.contextCheckNode w st) = inr upd
          /\ u_confidence upd = Some conf).
Proof.
  intros Hnull Hundef.
  destruct (DecodeFacts.parsed_reply_is_accepted w st reply Hnull Hundef)
    as (verdict & conf & Hv & Hc & Hq & Hj).
  exists verdict, conf. repeat split; assumption.
Qed.

(** The judge answers with the empty object: the context gate raises
    nothing and returns an [undefined] confidence. *)
Lemma wrong_shape_reply_is_accepted_witness :
  exists upd,
    outcome (ContextCheck.contextCheckNode
               (Scenario.with_judge (JsonContent (Some (JObj [])))
                                    (Scenario.world [Scenario.doc_overview]))
               (Scenario.insufficient_state "How long is PGPM?" [Scenario.doc_overview]))
    = inr upd
    /\ u_confidence upd = Some JUndefined.
Proof.
  destruct (wrong_shape_reply_is_accepted
              (Scenario.with_judge (JsonContent (Some (JObj [])))
                                   (Scenario.world [Scenario.doc_overview]))
              (Scenario.insufficient_state "How long is PGPM?" [Scenario.doc_overview])
              (JObj []))
    as (verdict & conf & _ & Hconf & _ & Hjudge); [discriminate | discriminate |].
  destruct (Hjudge eq_refl eq_refl) as (upd & Hout & Hupd).
  cbn in Hconf. injection Hconf as <-.
  exists upd. split; assumption.
Defined.

(** The same replies, run: the context gate returns hasAnswer and
    confidence [undefined]; the relevance gate reads the missing verdict of
    an off-topic question as "not relevant". *)
Example empty_object_replies :
  outcome (ContextCheck.contextCheckNode
             (Scenario.with_judge (JsonContent (Some (JObj [])))
                                  (Scenario.world [Scenario.doc_overview]))
             (Scenario.insufficient_state "How long is PGPM?" [Scenario.doc_overview]))
  = inr (ContextCheck.gate_update JUndefined "" JUndefined)
  /\ outcome (QueryValidation.queryValidationNode
                (Scenario.with_classifier (JsonContent (Some (JObj [])))
                                          (Scenario.world []))
                (Workflow.initialState "what is the weather today"))
     = inr {| u_isRelevant := Some (JBool false); u_retrievedDocs := None;
              u_hasAnswer := None; u_context := None; u_response := None;
              u_needsValidation := None; u_confidence := Some JUndefined;
              u_sources := None; u_errorMessage := None |}.
Proof. split; reflexivity. Qed.

(** ** Confidence bounds *)

(** C4, on replies whose confidence is any number [c].  Query validation
    returns [c] as the stage's confidence and so does the context gate;
    nothing bounds it, so the stage's confidence lies in [0,1] only if the
    model's did. *)
Theorem reply_confidence_is_not_clamped (w : World) (st : RAGState)
        (fields : list (string * jsval)) (c : Q) :
  lookup "confidence" fields = JNum c ->
  (classifier w (query st) = JsonContent (Some (JObj fields)) ->
   exists upd,
     outcome (QueryValidation.queryValidationNode w st) = inr upd
     /\ u_confidence upd = Some (JNum c))
  /\ (Stage.has_docs (retrievedDocs st) = true ->
      judge w (Stage.documents_blob (Stage.docs_or_empty (retrievedDocs st))) (query st)
        = JsonContent (Some (JObj fields)) ->
      exists upd,
        outcome (ContextCheck.contextCheckNode w st) = inr upd
        /\ u_confidence upd = Some (JNum c))
  /\ (in_unit (JNum c) <-> (0 <= c)%Q /\ (c <= 1)%Q).
Proof.
  intros Hc.
  destruct (DecodeFacts.parsed_reply_is_accepted w st (JObj fields))
    as (verdict & conf & _ & Hconf & Hq & Hj); [discriminate | discriminate |].
  cbn [get] in Hconf. rewrite Hc in Hconf. injection Hconf as <-.
  split; [| split].
  - intros Hreply. destruct (Hq Hreply) as (upd & Hout & _ & Hupd). eauto.
  - intros Hdocs Hreply. destruct (Hj Hdocs Hreply) as (upd & Hout & Hupd). eauto.
  - split.
    + intros (q & Hq' & Hlo & Hhi). injection Hq' as <-. split; assumption.
    + intros [Hlo Hhi]. exists c. repeat split; assumption.
Qed.

(** A classifier that reports 95 and a judge that reports 85, percentages
    where fractions were asked for: both numbers leave their stage as its
    confidence, and neither lies in [0,1]. *)
Lemma reply_confidence_is_not_clamped_witness :
  (exists upd,
      outcome (QueryValidation.queryValidationNode
                 (Scenario.with_classifier
                    (JsonContent (Some (Scenario.classifier_reply true 95)))
                    (Scenario.world [Scenario.doc_overview]))
                 (Workflow.initialState "How long is PGPM?")) = inr upd
      /\ u_confidence upd = Some (JNum 95))
  /\ ~ in_unit (JNum 95).
Proof.
  destruct (reply_confidence_is_not_clamped
              (Scenario.with_classifier
                 (JsonContent (Some (Scenario.classifier_reply true 95)))
                 (Scenario.world [Scenario.doc_overview]))
              (Workflow.initialState "How long is PGPM?")
              [("isRelevant", JBool true); ("category", JStr "general");
               ("reason", JStr "about the programme"); ("confidence", JNum 95)]
              95%Q eq_refl)
    as (Hq & _ & Hunit).
  split; [exact (Hq eq_refl) |].
  intros H. apply Hunit in H. destruct H as [_ Hhi].
  unfold Qle in Hhi; simpl in Hhi; lia.
Defined.

(** With sufficient context the judge's 85 is also the confidence the run
    ends with. *)
Example out_of_range_confidence_reaches_the_answer :
  exists final,
    outcome (Workflow.executeRAGWorkflowFallback
               (Scenario.with_judge
                  (JsonContent (Some (Scenario.judge_reply true 85)))
                  (Scenario.world [Scenario.doc_overview]))
               true "How long is PGPM?") = inr final
    /\ confidence final = JNum 85.
Proof. eexists; split; [vm_compute; reflexivity | reflexivity]. Qed.

(** ** Generation: the salvage branches *)

Module GenerationFacts.
Import JsString Regex Generation.

(** [/18/] never matches a single character, nor the text "undefined". *)
Lemma first_character_is_not_eighteen (m : string) :
  test_eighteen (index0 m) = false.
Proof.
  destruct m as [| c rest]; [reflexivity |].
  unfold test_eighteen, index0, test, eighteen.
  cbn -[Ascii.eqb]. destruct (Ascii.eqb "1" c); reflexivity.
Qed.

(** Whatever text the month pattern matched, the synthesized answer says
    15 months at confidence 0.6. *)
Lemma duration_answer_is_fifteen (m : string) :
  duration_answer m =
  answer_update
    "The SPJIMR PGPM is 15 months. It includes 2 months online, 12 months on-campus, and 4 months for social/start-up projects and international immersion. Please verify with SPJIMR for the latest details."
    false (JNum 0.6).
Proof.
  unfold duration_answer. rewrite first_character_is_not_eighteen. reflexivity.
Qed.

(** An anchored pattern matches at the start of the text or not at all. *)
Lemma anchored_inside ci r : forall s a, search ci (anchored r) (Some a) s = None.
Proof.
  induction s as [| c s IH]; intros a; simpl; [reflexivity | apply IH].
Qed.

Lemma trim_keeps_first c s :
  is_space c = false -> exists s', trim (String c s) = String c s'.
Proof.
  intros Hc. unfold trim. cbn [trimStart]. rewrite Hc. cbn [trimEnd].
  destruct (trimEnd s); [rewrite Hc |]; eauto.
Qed.

(** No alternative of the follow-up or broad patterns starts with the first
    letter of the two framings the composite-query builder produces. *)
Lemma framed_text_is_no_follow_up c s :
  c = "P"%char \/ c = "U"%char ->
  test true followUpPattern (String c s) = false
  /\ test true broadPattern (String c s) = false.
Proof.
  intros Hc. unfold test. cbn [list_ascii_of_string].
  set (l := list_ascii_of_string s). cbn [search].
  assert (H : rx true followUpPattern None (c :: l) (fun _ rest => Some rest) = None
              /\ rx true broadPattern None (c :: l) (fun _ rest => Some rest) = None).
  { destruct Hc as [-> | ->]; split; vm_compute; reflexivity. }
  destruct H as [-> ->]. unfold followUpPattern, broadPattern.
  rewrite !anchored_inside. split; reflexivity.
Qed.

(** Whatever the session holds, the composite text built for a follow-up
    question is never a follow-up or a broad query for the generation
    stage: branch 2b can then be entered through the statistics pattern
    only. *)
Lemma composite_follow_up_never_matches (question : string)
      (memory : ConversationMemory.t) (st : RAGState) :
  trim question <> "" ->
  QueryHeuristics.isKnownPGPMTerm (trim question) = false ->
  QueryHeuristics.isFollowUpQuery (trim question) = true ->
  query st = trim (Conversation.buildCompositeQuery question memory) ->
  isFollowUp st = false /\ isBroadQuery st = false.
Proof.
  intros Hne Hknown Hfollow Hq.
  unfold isFollowUp, isBroadQuery. rewrite Hq.
  unfold Conversation.buildCompositeQuery.
  rewrite (is_empty_false _ Hne), Hknown, Hfollow.
  destruct (negb (is_empty (ConversationMemory.getRecentContext 5 memory)));
    cbn [String.append];
    match goal with
    | |- context [trim (trim (String ?c ?s))] =>
        destruct (trim_keeps_first c s eq_refl) as (s1 & ->);
        destruct (trim_keeps_first c s1 eq_refl) as (s2 & ->)
    end;
    apply framed_text_is_no_follow_up; auto.
Qed.

(** A bare follow-up reaching the stage unchanged does take branch 2b. *)
Example bare_follow_up_is_salvaged :
  outcome (generationNode (Scenario.world [Scenario.doc_admissions]) false
             (Scenario.insufficient_state "tell me more" [Scenario.doc_admissions]))
  = inr (answer_update Scenario.generated_text true (JNum 0.8)).
Proof. reflexivity. Qed.

End GenerationFacts.

(** ** Effects of the stages *)

Module EffectFacts.

Lemma Forall_effects_bind {A B} (P : Effect -> Prop) (m : M A) (k : A -> M B) :
  Forall P (effects m) ->
  (forall a, Forall P (effects (k a))) ->
  Forall P (effects (bind m k)).
Proof.
  destruct m as [es [e | a]]; simpl; intros Hm Hk; [exact Hm |].
  specialize (Hk a). destruct (k a) as [es' r]; simpl in *.
  apply Forall_app; split; assumption.
Qed.

Lemma Forall_effects_try_catch {A} (P : Effect -> Prop) (body : M A) (h : Exn -> M A) :
  Forall P (effects body) ->
  (forall e, Forall P (effects (h e))) ->
  Forall P (effects (try_catch body h)).
Proof.
  destruct body as [es [e | a]]; simpl; intros Hm Hh; [| exact Hm].
  specialize (Hh e). destruct (h e) as [es' r]; simpl in *.
  apply Forall_app; split; assumption.
Qed.

Lemma Forall_effects_handler {A} (P : Effect -> Prop) (e : Exn) (x : A) :
  Forall P (effects (match e with
                     | ValidationError _ => throw e
                     | _ => ret x
                     end)).
Proof. destruct e; constructor. Qed.

Ltac quiet :=
  repeat first
    [ apply Forall_effects_try_catch
    | apply Forall_effects_bind
    | apply Forall_nil
    | apply Forall_cons; [reflexivity |]
    | progress intros
    | match goal with
      | |- Forall _ (effects (if ?b then _ else _)) => destruct b
      | |- Forall _ (effects (match ?x with _ => _ end)) => destruct x
      | |- Forall _ (effects (ret _)) => apply Forall_nil
      | |- Forall _ (effects (throw _)) => apply Forall_nil
      | |- Forall _ (effects (perform _)) => simpl
      end ].

Lemma generation_call_quiet w s p ctx q :
  Forall not_validator (effects (Stage.generation_call w s p ctx q)).
Proof.
  unfold Stage.generation_call.
  apply Forall_effects_bind.
  - simpl. constructor; [reflexivity |].
    destruct s; [| constructor].
    induction (gen_tokens (generator w p ctx q)); simpl; constructor;
      [reflexivity | assumption].
  - intros _. destruct (gen_result (generator w p ctx q)); constructor.
Qed.

Lemma queryValidation_quiet w st :
  Forall not_validator (effects (QueryValidation.queryValidationNode w st)).
Proof.
  unfold QueryValidation.queryValidationNode, QueryValidation.decode,
    Stage.structured_call, Stage.JSON_parse, Stage.prop.
  quiet.
Qed.

Lemma retrieval_quiet w st :
  Forall not_validator (effects (Retrieval.retrievalNode w st)).
Proof. unfold Retrieval.retrievalNode. quiet. Qed.

Lemma contextCheck_quiet w st :
  Forall not_validator (effects (ContextCheck.contextCheckNode w st)).
Proof.
  unfold ContextCheck.contextCheckNode, ContextCheck.decode,
    Stage.structured_call, Stage.JSON_parse, Stage.prop.
  quiet.
Qed.

Lemma salvage_quiet w s st conf :
  Forall not_validator (effects (Generation.salvage w s st conf)).
Proof.
  unfold Generation.salvage.
  apply Forall_effects_bind; [apply generation_call_quiet | intros; constructor].
Qed.

Lemma graceful_non_answer_quiet w s st :
  Forall not_validator (effects (Generation.graceful_non_answer w s st)).
Proof.
  unfold Generation.graceful_non_answer.
  apply Forall_effects_try_catch; [| intros; constructor].
  apply Forall_effects_bind; [apply generation_call_quiet | intros; constructor].
Qed.

Lemma grounded_quiet w s st :
  Forall not_validator (effects (Generation.grounded w s st)).
Proof.
  unfold Generation.grounded.
  apply Forall_effects_bind; [apply generation_call_quiet | intros content].
  destruct (_ || _); constructor.
Qed.

Lemma generation_quiet w s st :
  Forall not_validator (effects (Generation.generationNode w s st)).
Proof.
  unfold Generation.generationNode.
  apply Forall_effects_try_catch.
  - destruct (negb _); [constructor |].
    destruct (Generation.insufficient st); [| apply grounded_quiet].
    destruct (Generation.fee_salvage st); [apply salvage_quiet |].
    destruct (Generation.followup_salvage st); [apply salvage_quiet |].
    destruct (if Generation.wantsDuration st then _ else _); [constructor |].
    destruct (Generation.social_salvage st);
      [apply salvage_quiet | apply graceful_non_answer_quiet].
  - intros e. destruct e; constructor.
Qed.

Lemma workflow_quiet w s q :
  Forall not_validator (effects (Workflow.executeRAGWorkflowFallback w s q)).
Proof.
  unfold Workflow.executeRAGWorkflowFallback, Workflow.retrieve_and_check.
  apply Forall_effects_try_catch; [| intros; constructor].
  apply Forall_effects_bind; [apply queryValidation_quiet | intros v].
  apply Forall_effects_bind.
  - destruct (truthy _); [| constructor].
    apply Forall_effects_bind; [apply retrieval_quiet | intros r].
    apply Forall_effects_bind; [apply contextCheck_quiet | intros c; constructor].
  - intros st. apply Forall_effects_bind; [apply generation_quiet | intros g; constructor].
Qed.

End EffectFacts.

(** ** What the generation stage returns *)

Module AnswerFacts.
Import JsString Stage Generation.

Lemma salvage_outcome w s st conf :
  outcome (salvage w s st conf) =
  match gen_result (generator w GROUNDED_RESPONSE_PROMPT
                      (documents_blob (docs_or_empty (retrievedDocs st))) (query st)) with
  | inl m => inl (JsError m)
  | inr content => inr (answer_update content true (JNum conf))
  end.
Proof.
  unfold salvage, generation_call.
  destruct (generator w _ _ _) as [toks [m | content]]; reflexivity.
Qed.

Lemma graceful_non_answer_outcome w s st :
  outcome (graceful_non_answer w s st) =
  inr (match gen_result (generator w FALLBACK_RESPONSE_PROMPT
                           "Insufficient information in knowledge base" (query st)) with
       | inl _ => answer_update RESPONSE_TEMPLATES.NO_INFORMATION false (JNum 0.2)
       | inr content => answer_update content false (JNum 0.3)
       end).
Proof.
  unfold graceful_non_answer, generation_call.
  destruct (generator w _ _ _) as [toks [m | content]]; reflexivity.
Qed.

Lemma grounded_outcome w s st :
  outcome (grounded w s st) =
  match gen_result (generator w GROUNDED_RESPONSE_PROMPT (context st) (query st)) with
  | inl m => inl (JsError m)
  | inr content =>
      if is_empty content || (String.length (trim content) <? 20)
      then inl (GenerationError "Generated response is too short or empty")
      else inr (answer_update content true (or (confidence st) (JNum 0.8)))
  end.
Proof.
  unfold grounded, generation_call.
  destruct (generator w _ _ _) as [toks [m | content]]; [reflexivity |].
  cbn [gen_result gen_tokens perform bind ret throw outcome snd].
  destruct (is_empty content || _); reflexivity.
Qed.

Lemma outcome_try_catch_value {A} (body : M A) (h : Exn -> M A) a :
  outcome body = inr a -> outcome (try_catch body h) = inr a.
Proof.
  destruct body as [es [e | x]]; simpl; intros H; [discriminate | exact H].
Qed.

Lemma outcome_try_catch_throw {A} (body : M A) (h : Exn -> M A) e :
  outcome body = inl e -> outcome (try_catch body h) = outcome (h e).
Proof.
  destruct body as [es [e' | x]]; simpl; intros H; [| discriminate].
  injection H as ->. destruct (h e); reflexivity.
Qed.

(** The fixed confidences the stage can attach to an answer. *)
Lemma generation_answer w s st upd :
  outcome (generationNode w s st) = inr upd ->
  exists resp needs conf,
    u_response upd = Some resp
    /\ u_needsValidation upd = Some needs
    /\ u_confidence upd = Some conf
    /\ (conf = or (confidence st) (JNum 0.8)
        \/ exists c, conf = JNum c
                     /\ In c [1.0; 0.7; 0.8; 0.6; 0.75; 0.3; 0.2; 0.1]%Q).
Proof.
  unfold generationNode. intros H.
  match type of H with
  | outcome (try_catch ?b ?h) = _ =>
      destruct (outcome b) as [e | u] eqn:Eb;
      [ rewrite (outcome_try_catch_throw b h e Eb) in H
      | rewrite (outcome_try_catch_value b h u Eb) in H ]
  end.
  - (* the stage's own catch *)
    destruct e; cbn in H; try discriminate H; injection H as <-;
      do 3 eexists; repeat split; right; eexists; (split; [reflexivity |]);
      simpl; tauto.
  - injection H as <-.
    destruct (negb (truthy (isRelevant st))).
    { injection Eb as <-. do 3 eexists; repeat split.
      right; eexists; split; [reflexivity | simpl; tauto]. }
    destruct (insufficient st).
    2:{ rewrite grounded_outcome in Eb.
        destruct (gen_result _) as [m | content]; [discriminate Eb |].
        destruct (_ || _); [discriminate Eb |]. injection Eb as <-.
        do 3 eexists; repeat split. left; reflexivity. }
    destruct (fee_salvage st).
    { rewrite salvage_outcome in Eb.
      destruct (gen_result _); [discriminate Eb |]. injection Eb as <-.
      do 3 eexists; repeat split. right; eexists; split; [reflexivity | simpl; tauto]. }
    destruct (followup_salvage st).
    { rewrite salvage_outcome in Eb.
      destruct (gen_result _); [discriminate Eb |]. injection Eb as <-.
      do 3 eexists; repeat split. right; eexists; split; [reflexivity | simpl; tauto]. }
    destruct (if wantsDuration st then monthMatch st else None) as [m |].
    { injection Eb as <-. rewrite GenerationFacts.duration_answer_is_fifteen.
      do 3 eexists; repeat split. right; eexists; split; [reflexivity | simpl; tauto]. }
    destruct (social_salvage st).
    { rewrite salvage_outcome in Eb.
      destruct (gen_result _); [discriminate Eb |]. injection Eb as <-.
      do 3 eexists; repeat split. right; eexists; split; [reflexivity | simpl; tauto]. }
    rewrite graceful_non_answer_outcome in Eb. injection Eb as <-.
    destruct (gen_result _); do 3 eexists; repeat split;
      right; eexists; (split; [reflexivity | simpl; tauto]).
Qed.

(** With a state confidence in [0,1] (or none), so is the stage's. *)
Lemma generation_confidence_in_unit w s st upd :
  in_unit (confidence st) \/ truthy (confidence st) = false ->
  outcome (generationNode w s st) = inr upd ->
  exists conf, u_confidence upd = Some conf /\ in_unit conf.
Proof.
  intros Hst H.
  destruct (generation_answer w s st upd H) as (resp & needs & conf & _ & _ & Hc & Hcases).
  exists conf; split; [exact Hc |].
  destruct Hcases as [-> | (c & -> & Hin)].
  - unfold or. destruct (truthy (confidence st)) eqn:Et.
    + destruct Hst as [Hu | Hf]; [exact Hu | discriminate Hf].
    + exists 0.8%Q; repeat split; unfold Qle; simpl; lia.
  - exists c; split; [reflexivity |].
    simpl in Hin.
    repeat (destruct Hin as [<- | Hin]; [split; unfold Qle; simpl; lia |]).
    contradiction.
Qed.

(** The run ends with the degraded state or with the generation stage's
    update merged into the state it was given. *)
Lemma workflow_result w s q :
  exists final,
    outcome (Workflow.executeRAGWorkflowFallback w s q) = inr final
    /\ ((exists e, final = Workflow.degraded q e)
        \/ (exists st upd,
               outcome (generationNode w s st) = inr upd
               /\ final = merge st upd)).
Proof.
  unfold Workflow.executeRAGWorkflowFallback.
  match goal with
  | |- exists f, outcome (try_catch ?b ?h) = _ /\ _ =>
      destruct (outcome b) as [e | u] eqn:Eb;
      [ exists (Workflow.degraded q e);
        rewrite (outcome_try_catch_throw b h e Eb)
      | exists u; rewrite (outcome_try_catch_value b h u Eb) ]
  end.
  - split; [reflexivity |]. left; eauto.
  - split; [reflexivity |]. right.
    destruct (QueryValidation.queryValidationNode w (Workflow.initialState q))
      as [es1 [e1 | v]]; [discriminate Eb |].
    cbn [bind] in Eb.
    destruct (Workflow.retrieve_and_check w (merge (Workflow.initialState q) v))
      as [es2 [e2 | st]]; [discriminate Eb |].
    cbn [bind] in Eb.
    destruct (generationNode w s st) as [es3 [e3 | g]] eqn:Eg; [discriminate Eb |].
    cbn in Eb. injection Eb as <-.
    exists st, g. split; [rewrite Eg; reflexivity | reflexivity].
Qed.

(** Once the context is insufficient and branch 2b is not taken, the
    confidences left are those of the other salvages, of the non-answer and
    of the stage's own fallback. *)
Lemma without_follow_up_salvage w s st upd :
  truthy (isRelevant st) = true ->
  insufficient st = true ->
  followup_salvage st = false ->
  outcome (generationNode w s st) = inr upd ->
  exists c, u_confidence upd = Some (JNum c)
            /\ In c [0.7; 0.6; 0.75; 0.3; 0.2; 0.1]%Q.
Proof.
  unfold generationNode. intros Hrel Hins Hfollow H.
  rewrite Hrel, Hins, Hfollow in H. cbn [negb] in H.
  match type of H with
  | outcome (try_catch ?b ?h) = _ =>
      destruct (outcome b) as [e | u] eqn:Eb;
      [ rewrite (outcome_try_catch_throw b h e Eb) in H
      | rewrite (outcome_try_catch_value b h u Eb) in H ]
  end.
  - destruct e; cbn in H; try discriminate H; injection H as <-;
      eexists; (split; [reflexivity | simpl; tauto]).
  - injection H as <-.
    destruct (fee_salvage st).
    { rewrite salvage_outcome in Eb.
      destruct (gen_result _); [discriminate Eb |]. injection Eb as <-.
      eexists; split; [reflexivity | simpl; tauto]. }
    destruct (if wantsDuration st then monthMatch st else None) as [m |].
    { injection Eb as <-. rewrite GenerationFacts.duration_answer_is_fifteen.
      eexists; split; [reflexivity | simpl; tauto]. }
    destruct (social_salvage st).
    { rewrite salvage_outcome in Eb.
      destruct (gen_result _); [discriminate Eb |]. injection Eb as <-.
      eexists; split; [reflexivity | simpl; tauto]. }
    rewrite graceful_non_answer_outcome in Eb. injection Eb as <-.
    destruct (gen_result _); eexists; (split; [reflexivity | simpl; tauto]).
Qed.

End AnswerFacts.

(** C9, on the duration salvage.  Whenever the stage reaches the duration
    branch (relevant query, insufficient context, neither the fee nor the
    follow-up salvage taken, a duration query, and some document matching
    the month pattern with text [m]), it makes no generation call and
    answers "15 months" at confidence 0.6, whatever [m] is: the stage tests
    the first character of the matched text for "18", so the "18 months"
    answer at confidence 0.9 is never produced, not even for a document that
    says "18-month". *)
Theorem duration_salvage_reads_first_character
        (w : World) (streaming : bool) (st : RAGState) (m : string) :
  truthy (isRelevant st) = true ->
  Generation.insufficient st = true ->
  Generation.fee_salvage st = false ->
  Generation.followup_salvage st = false ->
  Generation.wantsDuration st = true ->
  Generation.monthMatch st = Some m ->
  Generation.generationNode w streaming st
  = ([], inr (Generation.answer_update
                "The SPJIMR PGPM is 15 months. It includes 2 months online, 12 months on-campus, and 4 months for social/start-up projects and international immersion. Please verify with SPJIMR for the latest details."
                false (JNum 0.6))).
Proof.
  intros Hrel Hins Hfee Hfollow Hdur Hmonth.
  unfold Generation.generationNode.
  rewrite Hrel, Hins, Hfee, Hfollow, Hdur, Hmonth. cbn [negb].
  rewrite GenerationFacts.duration_answer_is_fifteen. reflexivity.
Qed.

(** "How long is PGPM?" with the overview document, whose text contains
    "18-month", after an insufficient context check: the month pattern
    matches "18-month", and the answer says 15 months at 0.6. *)
Lemma duration_salvage_reads_first_character_witness :
  let st := Scenario.insufficient_state "How long is PGPM?" [Scenario.doc_overview] in
  Generation.monthMatch st = Some "18-month"
  /\ Generation.generationNode (Scenario.world [Scenario.doc_overview]) true st
     = ([], inr (Generation.answer_update
                   "The SPJIMR PGPM is 15 months. It includes 2 months online, 12 months on-campus, and 4 months for social/start-up projects and international immersion. Please verify with SPJIMR for the latest details."
                   false (JNum 0.6))).
Proof.
  split; [vm_compute; reflexivity |].
  apply (duration_salvage_reads_first_character
           (Scenario.world [Scenario.doc_overview]) true
           (Scenario.insufficient_state "How long is PGPM?" [Scenario.doc_overview])
           "18-month"); vm_compute; reflexivity.
Defined.

(** C3, on follow-up questions.  A follow-up question (non-empty, not a
    known term) reaches the generation stage as the composite text built
    from the session memory.  For that text the stage's follow-up test is
    false, so with an insufficient context and no statistics word in the
    composite text branch 2b is not taken, and the answer's confidence is
    never 0.8: the stage goes on to the other salvages or to the graceful
    non-answer. *)
Theorem composite_follow_up_misses_salvage
        (w : World) (streaming : bool) (question : string)
        (memory : ConversationMemory.t) (st : RAGState) (upd : Update) :
  JsString.trim question <> "" ->
  QueryHeuristics.isKnownPGPMTerm (JsString.trim question) = false ->
  QueryHeuristics.isFollowUpQuery (JsString.trim question) = true ->
  query st = JsString.trim (Conversation.buildCompositeQuery question memory) ->
  truthy (isRelevant st) = true ->
  Generation.insufficient st = true ->
  Generation.isStatsQuery st = false ->
  outcome (Generation.generationNode w streaming st) = inr upd ->
  Generation.isFollowUp st = false
  /\ Generation.followup_salvage st = false
  /\ u_confidence upd <> Some (JNum 0.8).
Proof.
  intros Hne Hknown Hfollow Hq Hrel Hins Hstats Hout.
  destruct (GenerationFacts.composite_follow_up_never_matches
              question memory st Hne Hknown Hfollow Hq) as [Hf Hb].
  assert (Hsalvage : Generation.followup_salvage st = false).
  { unfold Generation.followup_salvage. rewrite Hf, Hb, Hstats. reflexivity. }
  split; [exact Hf |]. split; [exact Hsalvage |].
  destruct (AnswerFacts.without_follow_up_salvage w streaming st upd
              Hrel Hins Hsalvage Hout) as (c & Hc & Hin).
  rewrite Hc. intros E. injection E as ->.
  simpl in Hin.
  repeat (destruct Hin as [E | Hin]; [discriminate E |]). contradiction.
Qed.

(** "tell me more" asked after one exchange about admissions, with one
    retrieved document and an insufficient context check: the composite
    text embeds the earlier exchange and the follow-up note, branch 2b is
    skipped, and the stage produces the graceful non-answer at 0.3. *)
Lemma composite_follow_up_misses_salvage_witness :
  let q := Conversation.buildCompositeQuery "tell me more" Scenario.after_admissions in
  let st := Scenario.insufficient_state q [Scenario.doc_admissions] in
  JsString.includes q "Q: What is the admission process?" = true
  /\ JsString.includes q "This appears to be a follow-up query" = true
  /\ Generation.isFollowUp st = false
  /\ Generation.followup_salvage st = false
  /\ outcome (Generation.generationNode (Scenario.world [Scenario.doc_admissions]) true st)
     = inr (Generation.answer_update Scenario.generated_text false (JNum 0.3))
  /\ filter is_generator_call
       (effects (Generation.generationNode (Scenario.world [Scenario.doc_admissions]) true st))
     = [CallGenerator FALLBACK_RESPONSE_PROMPT
          "Insufficient information in knowledge base" q].
Proof.
  intros q st.
  destruct (composite_follow_up_misses_salvage
              (Scenario.world [Scenario.doc_admissions]) true
              "tell me more" Scenario.after_admissions st
              (Generation.answer_update Scenario.generated_text false (JNum 0.3)))
    as (Hf & Hs & _); try (vm_compute; reflexivity); try discriminate.
  split; [vm_compute; reflexivity |]. split; [vm_compute; reflexivity |].
  split; [exact Hf |]. split; [exact Hs |].
  split; vm_compute; reflexivity.
Defined.

(** ** The fifth stage *)

Module ValidationFacts.
Import JsString.

Lemma math_max_floor (coerce : jsval -> option Q) (v : jsval) (c : Q) :
  v = JNum c ->
  exists r, math_max coerce 0.8 (or v (JNum 0.8)) = JNum r /\ (0.8 <= r)%Q.
Proof.
  intros ->. unfold or.
  assert (Hmax : forall x, exists r,
               math_max coerce 0.8 (JNum x) = JNum r /\ (0.8 <= r)%Q).
  { intros x. unfold math_max; cbn [to_number].
    destruct (Qle_bool 0.8 x) eqn:Hle; eexists; split; try reflexivity.
    - apply Qle_bool_iff; exact Hle.
    - apply Qle_refl. }
  destruct (truthy (JNum c)); apply Hmax.
Qed.

End ValidationFacts.

(** C2, as the code has it.  The orchestrator calls four stages and never
    the fifth: no run consults the response validator, and every run ends
    either with the degraded error state or with exactly what the generation
    stage returned (its response, its needsValidation flag and its
    confidence).  The stage function itself, when called on a state that
    does not ask for validation, returns the response unchanged with
    needsValidation=false, touches no confidence and makes no call; when
    called on a state that asks for validation, with a non-empty response
    and context, a numeric confidence and a validator reply that parses to
    an object, it returns the response unchanged, needsValidation=false and
    a confidence of at least 0.8. *)
Theorem validate_response_is_not_run :
  (forall w s q,
      Forall not_validator (effects (Workflow.executeRAGWorkflowFallback w s q))
      /\ exists final,
          outcome (Workflow.executeRAGWorkflowFallback w s q) = inr final
          /\ ((exists e, final = Workflow.degraded q e)
              \/ (exists st upd,
                     outcome (Generation.generationNode w s st) = inr upd
                     /\ final = merge st upd
                     /\ u_response upd = Some (response final)
                     /\ u_needsValidation upd = Some (needsValidation final)
                     /\ u_confidence upd = Some (confidence final))))
  /\ (forall w st,
         needsValidation st = false ->
         ResponseValidation.responseValidationNode w st
         = ([], inr {| u_isRelevant := None; u_retrievedDocs := None;
                       u_hasAnswer := None; u_context := None;
                       u_response := Some (response st);
                       u_needsValidation := Some false;
                       u_confidence := None; u_sources := None;
                       u_errorMessage := None |}))
  /\ (forall w st fields c,
         needsValidation st = true ->
         response st <> "" ->
         context st <> "" ->
         validator w (context st) (response st) = JsonContent (Some (JObj fields)) ->
         confidence st = JNum c ->
         exists r,
           outcome (ResponseValidation.responseValidationNode w st)
           = inr (Generation.answer_update (response st) false (JNum r))
           /\ (0.8 <= r)%Q).
Proof.
  split; [| split].
  - intros w s q. split; [apply EffectFacts.workflow_quiet |].
    destruct (AnswerFacts.workflow_result w s q) as (final & Hout & Hcases).
    exists final; split; [exact Hout |].
    destruct Hcases as [He | (st & upd & Hgen & ->)]; [left; exact He | right].
    exists st, upd. split; [exact Hgen |]. split; [reflexivity |].
    destruct (AnswerFacts.generation_answer w s st upd Hgen)
      as (resp & needs & conf & Hr & Hn & Hc & _).
    unfold merge; cbn [response needsValidation confidence].
    rewrite Hr, Hn, Hc. repeat split.
  - intros w st Hneeds. unfold ResponseValidation.responseValidationNode.
    rewrite Hneeds. reflexivity.
  - intros w st fields c Hneeds Hresp Hctx Hval Hconf.
    destruct (ValidationFacts.math_max_floor (coerce w) (confidence st) c Hconf)
      as (r & Hr & Hle).
    exists r; split; [| exact Hle].
    unfold ResponseValidation.responseValidationNode.
    rewrite Hneeds, (is_empty_false _ Hresp),
      (is_empty_false _ Hctx), Hval.
    cbn -[math_max or]. rewrite Hr. reflexivity.
Qed.

Lemma validate_response_is_not_run_witness :
  exists r,
    outcome (ResponseValidation.responseValidationNode
               (Scenario.world [Scenario.doc_fees]) Scenario.salvaged_fee_state)
    = inr (Generation.answer_update (response Scenario.salvaged_fee_state) false (JNum r))
    /\ (0.8 <= r)%Q.
Proof.
  apply (proj2 (proj2 validate_response_is_not_run)
           (Scenario.world [Scenario.doc_fees]) Scenario.salvaged_fee_state
           [("isValid", JBool true); ("issues", JArr []); ("confidence", JNum 0.9)]
           0.7%Q).
  - reflexivity.
  - discriminate.
  - discriminate.
  - reflexivity.
  - reflexivity.
Defined.

(** C2 fails on the code: a fee question whose context check was
    insufficient is answered by the fee salvage; the run ends with
    needsValidation still true and the confidence still 0.7, below 0.8, and
    without any call to the response validator. *)
Lemma fee_salvage_run_is_left_unvalidated :
  exists final,
    outcome (Workflow.executeRAGWorkflowFallback
               (Scenario.world [Scenario.doc_fees]) false
               "What is the total PGPM fee?") = inr final
    /\ response final = Scenario.generated_text
    /\ needsValidation final = true
    /\ confidence final = JNum 0.7
    /\ ~ (0.8 <= 0.7)%Q
    /\ existsb is_validator_call
         (effects (Workflow.executeRAGWorkflowFallback
                     (Scenario.world [Scenario.doc_fees]) false
                     "What is the total PGPM fee?")) = false.
Proof.
  eexists. split; [vm_compute; reflexivity |].
  repeat split; try reflexivity.
  unfold Qle; simpl; lia.
Qed.

(** ** The event stream *)

Module StreamFacts.
Import Server.

Lemma interleave_progress pings toks : forall k,
  Forall (fun e => is_token_or_ping e = true) (interleave pings k toks).
Proof.
  assert (Hp : forall l, Forall (fun e => is_token_or_ping e = true) (map EvPing l)).
  { induction l; simpl; constructor; [reflexivity | assumption]. }
  induction toks as [| t rest IH]; intros k; simpl.
  - apply Hp.
  - apply Forall_app; split; [apply Hp |].
    constructor; [reflexivity | apply IH].
Qed.

Lemma count_app p (a b : list StreamEvent) :
  count p (a ++ b) = count p a + count p b.
Proof. unfold count. rewrite filter_app, length_app. reflexivity. Qed.

Lemma count_none p (l : list StreamEvent) :
  Forall (fun e => p e = false) l -> count p l = 0.
Proof.
  unfold count. induction 1 as [| e l He _ IH]; simpl; [reflexivity |].
  rewrite He. exact IH.
Qed.

Lemma count_during p (during : list StreamEvent) :
  (forall e, is_token_or_ping e = true -> p e = false) ->
  Forall (fun e => is_token_or_ping e = true) during ->
  count p during = 0.
Proof.
  intros Hp Hd. apply count_none.
  eapply Forall_impl; [| exact Hd]. exact Hp.
Qed.

(** The workflow call always resolves. *)
Lemma invoke_returns w cb st :
  exists result, outcome (Workflow.invoke w cb st) = inr result.
Proof.
  unfold Workflow.invoke.
  destruct (AnswerFacts.workflow_result w cb (query st)) as (final & H & _).
  exists final; exact H.
Qed.

(** A request without a usable question, or one arriving before the
    workflow exists, is answered with a JSON error and no frame. *)
Lemma rejected_request_has_no_stream ready w req :
  (forall q, body_question req = JStr q -> q = "" \/ ready = false) ->
  exists status code,
    handleStreamingChat ready w req = (JsonError status code, conversationMemory req).
Proof.
  intros H. unfold handleStreamingChat.
  destruct (body_question req) as [| | | | | q | |] eqn:Eq; eauto.
  destruct (H q eq_refl) as [-> | ->]; [simpl; eauto |].
  destruct (JsString.is_empty q); simpl; eauto.
Qed.

(** A throwing query validation leaves the workflow call with the degraded
    state. *)
Lemma invoke_after_failed_validation w cb q e :
  outcome (QueryValidation.queryValidationNode w (Workflow.initialState q)) = inl e ->
  outcome (Workflow.invoke w cb (Workflow.initialState q)) = inr (Workflow.degraded q e).
Proof.
  intros Hv. unfold Workflow.invoke, Workflow.executeRAGWorkflowFallback.
  cbn [query Workflow.initialState].
  rewrite (AnswerFacts.outcome_try_catch_throw _ _ e); [reflexivity |].
  rewrite (outcome_bind_throw _ _ e Hv). reflexivity.
Qed.

End StreamFacts.

(** C1.  A request carrying a non-empty string question, on a server whose
    workflow is initialised, is answered by a stream of exactly this form:
    one [connected]; one [status]; any number of [token] and [ping] frames;
    one [complete]; one [end], which comes last.  So the stream holds
    exactly one [connected], exactly one [complete] and exactly one [end],
    in that order, and no [error] frame.  This is so whatever the classifier,
    the retriever, the judge and the generation model do: the workflow call
    turns a failing stage into its degraded result, and the [complete] frame
    then carries the apology at confidence 0.1, followed by [end].  The
    constructors of the tracing SDK that the handler calls before the
    workflow are taken to return, as its span calls are throughout the
    stages. *)
Theorem stream_shape (w : World) (req : Server.Request) (question : string) :
  let q := JsString.trim
             (Conversation.buildCompositeQuery question (Server.conversationMemory req)) in
  Server.body_question req = JStr question ->
  question <> "" ->
  (forall m, tracing w <> TracingSetupThrows m) ->
  exists during answer conf srcs n memory' events,
    Server.handleStreamingChat true w req = (Server.EventStream events, memory')
    /\ events = (Server.EvConnected (Server.sessionId req) (now_iso w)
                   :: Server.EvStatus "Processing query..."
                   :: during
                   ++ [Server.EvComplete answer conf srcs n; Server.EvEnd])%list
    /\ Forall (fun e => Server.is_token_or_ping e = true) during
    /\ Server.count Server.is_connected events = 1
    /\ Server.count Server.is_complete events = 1
    /\ Server.count Server.is_end events = 1
    /\ Server.count Server.is_error events = 0
    /\ (forall e,
           outcome (QueryValidation.queryValidationNode w (Workflow.initialState q))
           = inl e ->
           Server.EvComplete answer conf srcs n
           = Server.EvComplete
               "I apologize, but I encountered an error while processing your question. Please try again or contact SPJIMR directly for assistance."
               (JNum 0.1) [] 0).
Proof.
  intros q Hq Hne Hsetup.
  destruct (StreamFacts.invoke_returns w true (Workflow.initialState q))
    as (result & Hres).
  set (tokens := Server.tokens_of
                   (effects (Workflow.invoke w true (Workflow.initialState q)))).
  set (during := Server.interleave (ping_times w) 0 tokens).
  set (answer := if JsString.is_empty (response result)
                 then String.concat "" tokens else response result).
  assert (Hrun : Server.handleStreamingChat true w req
                 = (Server.EventStream
                      (Server.EvConnected (Server.sessionId req) (now_iso w)
                         :: Server.EvStatus "Processing query..."
                         :: during
                         ++ [Server.EvComplete answer
                               (or (confidence result) (JNum 0.7)) (sources result)
                               (length (Stage.docs_or_empty (retrievedDocs result)));
                             Server.EvEnd])%list,
                    ConversationMemory.addTurn (now_ms w)
                      {| ConversationMemory.in_question := question;
                         ConversationMemory.in_answer := answer;
                         ConversationMemory.in_confidence :=
                           or (confidence result) (JNum 0.7);
                         ConversationMemory.in_sources := sources result |}
                      (Server.conversationMemory req))).
  { unfold Server.handleStreamingChat. rewrite Hq.
    rewrite (is_empty_false _ Hne). cbn [negb].
    unfold Server.stream_body, Server.tracing_setup.
    destruct (tracing w) as [| | m] eqn:Et;
      [| | exfalso; exact (Hsetup m eq_refl)];
      cbn [bind ret outcome snd]; fold q; rewrite Hres;
      cbn [app]; rewrite <- app_assoc; reflexivity. }
  assert (Hduring : Forall (fun e => Server.is_token_or_ping e = true) during)
    by apply StreamFacts.interleave_progress.
  exists during, answer, (or (confidence result) (JNum 0.7)), (sources result),
         (length (Stage.docs_or_empty (retrievedDocs result))).
  eexists. eexists. split; [exact Hrun |]. split; [reflexivity |].
  split; [exact Hduring |].
  change (?a :: ?b :: during ++ ?tail)%list with ([a; b] ++ during ++ tail)%list.
  rewrite !StreamFacts.count_app.
  rewrite (StreamFacts.count_during Server.is_connected during),
          (StreamFacts.count_during Server.is_end during),
          (StreamFacts.count_during Server.is_complete during),
          (StreamFacts.count_during Server.is_error during);
    try exact Hduring; try (intros [] He; try discriminate He; reflexivity).
  repeat (split; [reflexivity |]).
  intros e He.
  rewrite (StreamFacts.invoke_after_failed_validation w true q e He) in Hres.
  injection Hres as <-. reflexivity.
Qed.

Lemma stream_shape_witness :
  let req := Scenario.request (JStr "How long is PGPM?") ConversationMemory.empty in
  let w := Scenario.world [Scenario.doc_overview] in
  Server.body_question req = JStr "How long is PGPM?"
  /\ (forall m, tracing w <> TracingSetupThrows m)
  /\ exists during answer conf srcs n memory' events,
       Server.handleStreamingChat true w req = (Server.EventStream events, memory')
       /\ events = (Server.EvConnected "session-1" "2025-01-01T00:00:00.000Z"
                      :: Server.EvStatus "Processing query..."
                      :: during
                      ++ [Server.EvComplete answer conf srcs n; Server.EvEnd])%list
       /\ Server.count Server.is_connected events = 1
       /\ Server.count Server.is_complete events = 1
       /\ Server.count Server.is_end events = 1
       /\ Server.count Server.is_error events = 0.
Proof.
  intros req w.
  assert (Hq : Server.body_question req = JStr "How long is PGPM?") by reflexivity.
  assert (Hsetup : forall m, tracing w <> TracingSetupThrows m) by discriminate.
  split; [exact Hq |]. split; [exact Hsetup |].
  destruct (stream_shape w req "How long is PGPM?" Hq ltac:(discriminate) Hsetup)
    as (during & answer & conf & srcs & n & memory' & events
        & Hrun & Hev & _ & Hc & Hk & He & Herr & _).
  exists during, answer, conf, srcs, n, memory', events.
  repeat split; assumption.
Defined.

(** A failing pipeline stage does not change the shape: the stream still
    ends with [complete] (carrying the apology at confidence 0.1) and
    [end]. *)
Example stage_failure_still_completes :
  fst (Server.handleStreamingChat true
         (Scenario.with_classifier (JsonContent None) (Scenario.world []))
         (Scenario.request (JStr "How long is PGPM?") ConversationMemory.empty))
  = Server.EventStream
      [Server.EvConnected "session-1" "2025-01-01T00:00:00.000Z";
       Server.EvStatus "Processing query...";
       Server.EvComplete
         "I apologize, but I encountered an error while processing your question. Please try again or contact SPJIMR directly for assistance."
         (JNum 0.1) [] 0;
       Server.EvEnd].
Proof. reflexivity. Qed.

(* ===================================================================== *)
(** * Further properties of the pipeline *)
(* ===================================================================== *)

Module StageFacts.
Import JsString Stage.

(** Query validation consults the classifier once and does nothing else. *)
Lemma queryValidation_effects w st :
  effects (QueryValidation.queryValidationNode w st) = [CallClassifier (query st)].
Proof.
  unfold QueryValidation.queryValidationNode.
  destruct (classifier w (query st)) as [m | [reply |]]; try reflexivity.
  destruct reply; reflexivity.
Qed.

(** Everything query validation throws is a ValidationError. *)
Lemma queryValidation_throws w st e :
  outcome (QueryValidation.queryValidationNode w st) = inl e ->
  e = ValidationError "Query validation failed"
  \/ e = ValidationError "Failed to parse validation response".
Proof.
  unfold QueryValidation.queryValidationNode.
  destruct (classifier w (query st)) as [m | [reply |]]; cbn.
  - intros H; injection H as <-; auto.
  - destruct reply; cbn; intros H; try discriminate H; injection H as <-; auto.
  - intros H; injection H as <-; auto.
Qed.


(** A generation update sets the response, the flag and the confidence,
    possibly an error message, and nothing else. *)
Lemma generation_update_form w s st upd :
  outcome (Generation.generationNode w s st) = inr upd ->
  exists resp needs conf msg,
    upd = {| u_isRelevant := None; u_retrievedDocs := None; u_hasAnswer := None;
             u_context := None; u_response := Some resp;
             u_needsValidation := Some needs; u_confidence := Some conf;
             u_sources := None; u_errorMessage := msg |}.
Proof.
  unfold Generation.generationNode. intros H.
  match type of H with
  | outcome (try_catch ?b ?h) = _ =>
      destruct (outcome b) as [e | u] eqn:Eb;
      [ rewrite (AnswerFacts.outcome_try_catch_throw b h e Eb) in H
      | rewrite (AnswerFacts.outcome_try_catch_value b h u Eb) in H ]
  end.
  - destruct e; cbn in H; try discriminate H; injection H as <-;
      do 4 eexists; reflexivity.
  - injection H as <-.
    destruct (negb (truthy (isRelevant st))).
    { injection Eb as <-. do 4 eexists; reflexivity. }
    destruct (Generation.insufficient st).
    2:{ rewrite AnswerFacts.grounded_outcome in Eb.
        destruct (gen_result _) as [m | content]; [discriminate Eb |].
        destruct (_ || _); [discriminate Eb |]. injection Eb as <-.
        do 4 eexists; reflexivity. }
    destruct (Generation.fee_salvage st).
    { rewrite AnswerFacts.salvage_outcome in Eb.
      destruct (gen_result _); [discriminate Eb |]. injection Eb as <-.
      do 4 eexists; reflexivity. }
    destruct (Generation.followup_salvage st).
    { rewrite AnswerFacts.salvage_outcome in Eb.
      destruct (gen_result _); [discriminate Eb |]. injection Eb as <-.
      do 4 eexists; reflexivity. }
    destruct (if Generation.wantsDuration st then Generation.monthMatch st else None).
    { injection Eb as <-. do 4 eexists; reflexivity. }
    destruct (Generation.social_salvage st).
    { rewrite AnswerFacts.salvage_outcome in Eb.
      destruct (gen_result _); [discriminate Eb |]. injection Eb as <-.
      do 4 eexists; reflexivity. }
    rewrite AnswerFacts.graceful_non_answer_outcome in Eb. injection Eb as <-.
    destruct (gen_result _); do 4 eexists; reflexivity.
Qed.

End StageFacts.

(** X1 (generationNode): the stage throws in one situation only.  A thrown
    error is the GenerationError "too short or empty", raised with a
    relevant query and sufficient context when the generated text is empty
    or shorter than 20 characters once trimmed.  A failing model call never
    leaves the stage as an exception.  The generated text is taken to be
    ASCII, so that its length is the number of its characters. *)
Theorem generation_throws_only_on_short_text
        (w : World) (streaming : bool) (st : RAGState) (e : Exn) :
  (forall content,
      gen_result (generator w GROUNDED_RESPONSE_PROMPT (context st) (query st))
      = inr content ->
      JsString.is_ascii content = true) ->
  outcome (Generation.generationNode w streaming st) = inl e ->
  e = GenerationError "Generated response is too short or empty"
  /\ truthy (isRelevant st) = true
  /\ Generation.insufficient st = false
  /\ exists content,
      gen_result (generator w GROUNDED_RESPONSE_PROMPT (context st) (query st))
      = inr content
      /\ (JsString.is_empty content
          || (String.length (JsString.trim content) <? 20)) = true.
Proof.
  unfold Generation.generationNode. intros _ H.
  match type of H with
  | outcome (try_catch ?b ?h) = _ =>
      destruct (outcome b) as [e' | u] eqn:Eb;
      [ rewrite (AnswerFacts.outcome_try_catch_throw b h e' Eb) in H
      | rewrite (AnswerFacts.outcome_try_catch_value b h u Eb) in H;
        discriminate H ]
  end.
  destruct e'; cbn in H; try discriminate H. injection H as <-.
  destruct (truthy (isRelevant st)); cbn [negb] in Eb; [| discriminate Eb].
  destruct (Generation.insufficient st).
  - exfalso.
    destruct (Generation.fee_salvage st).
    { rewrite AnswerFacts.salvage_outcome in Eb.
      destruct (gen_result _); discriminate Eb. }
    destruct (Generation.followup_salvage st).
    { rewrite AnswerFacts.salvage_outcome in Eb.
      destruct (gen_result _); discriminate Eb. }
    destruct (if Generation.wantsDuration st then Generation.monthMatch st else None).
    { discriminate Eb. }
    destruct (Generation.social_salvage st).
    { rewrite AnswerFacts.salvage_outcome in Eb.
      destruct (gen_result _); discriminate Eb. }
    rewrite AnswerFacts.graceful_non_answer_outcome in Eb. discriminate Eb.
  - rewrite AnswerFacts.grounded_outcome in Eb.
    destruct (gen_result _) as [m | content]; [discriminate Eb |].
    destruct (JsString.is_empty content || _) eqn:Eshort; [| discriminate Eb].
    injection Eb as <-. repeat split. exists content. split; [reflexivity | exact Eshort].
Qed.

Lemma generation_throws_only_on_short_text_witness :
  exists content,
    gen_result (Samples.terse GROUNDED_RESPONSE_PROMPT
                  (context Samples.sufficient_state) (query Samples.sufficient_state))
    = inr content
    /\ (JsString.is_empty content
        || (String.length (JsString.trim content) <? 20)) = true.
Proof.
  eapply (generation_throws_only_on_short_text
            (Samples.with_generator Samples.terse (Scenario.world [Scenario.doc_fees]))
            false Samples.sufficient_state).
  - intros content Hcontent. cbn in Hcontent. injection Hcontent as <-. reflexivity.
  - reflexivity.
Defined.

Module RunFacts.
Import JsString Stage.

(** Query validation touches the relevance, the confidence and possibly
    the sources, and nothing else. *)
Lemma queryValidation_update_form w st upd :
  outcome (QueryValidation.queryValidationNode w st) = inr upd ->
  exists r c srcs,
    upd = {| u_isRelevant := Some r; u_retrievedDocs := None; u_hasAnswer := None;
             u_context := None; u_response := None; u_needsValidation := None;
             u_confidence := Some c; u_sources := srcs; u_errorMessage := None |}.
Proof.
  unfold QueryValidation.queryValidationNode.
  destruct (classifier w (query st)) as [m | [reply |]]; cbn; try discriminate.
  destruct reply; cbn; intros H; try discriminate H; injection H as <-;
    do 3 eexists; reflexivity.
Qed.

Lemma retrieval_cases w st :
  Retrieval.retrievalNode w st
  = match retriever w (query st) with
    | RetrievalThrows m => ([CallRetriever (query st)], inl (RetrievalError m))
    | Retrieved docs srcs =>
        ([CallRetriever (query st)],
         inr {| u_isRelevant := None; u_retrievedDocs := Some docs;
                u_hasAnswer := None; u_context := None; u_response := None;
                u_needsValidation := None; u_confidence := None;
                u_sources := Some srcs; u_errorMessage := None |})
    end.
Proof.
  unfold Retrieval.retrievalNode. destruct (retriever w (query st)); reflexivity.
Qed.


End RunFacts.



(** X3 (executeRAGWorkflowFallback, generationNode): when query validation
    marks a query of ASCII characters as not relevant, the run consults
    nothing after the classifier (no retrieval, no judge, no generation
    call) and ends with the fixed not-relevant template at confidence 1.0,
    needsValidation false, no documents and an empty context. *)
Theorem irrelevant_query_skips_retrieval
        (w : World) (streaming : bool) (q : string) (upd : Update) (r : jsval) :
  JsString.is_ascii q = true ->
  outcome (QueryValidation.queryValidationNode w (Workflow.initialState q)) = inr upd ->
  u_isRelevant upd = Some r ->
  truthy r = false ->
  exists final,
    Workflow.executeRAGWorkflowFallback w streaming q = ([CallClassifier q], inr final)
    /\ response final = RESPONSE_TEMPLATES.NOT_RELEVANT
    /\ confidence final = JNum 1.0
    /\ needsValidation final = false
    /\ retrievedDocs final = Some []
    /\ context final = "".
Proof.
  intros _ Hv Hr Hfalse.
  pose proof (StageFacts.queryValidation_effects w (Workflow.initialState q)) as He.
  destruct (RunFacts.queryValidation_update_form w _ upd Hv) as (r' & c & srcs & ->).
  cbn in Hr. injection Hr as ->.
  unfold Workflow.executeRAGWorkflowFallback.
  destruct (QueryValidation.queryValidationNode w (Workflow.initialState q))
    as [es o]. cbn in He, Hv. subst es o.
  cbn [bind try_catch]. unfold Workflow.retrieve_and_check.
  cbn [merge isRelevant pick u_isRelevant]. rewrite Hfalse.
  cbn [ret bind app]. unfold Generation.generationNode.
  cbn [merge isRelevant pick u_isRelevant]. rewrite Hfalse.
  cbn. eexists. split; [reflexivity |]. repeat split.
Qed.

Lemma irrelevant_query_skips_retrieval_witness :
  exists final,
    Workflow.executeRAGWorkflowFallback
      (Scenario.with_classifier
         (JsonContent (Some (Scenario.classifier_reply false 0.95)))
         (Scenario.world [Scenario.doc_overview]))
      true "what is the weather today"
    = ([CallClassifier "what is the weather today"], inr final)
    /\ response final = RESPONSE_TEMPLATES.NOT_RELEVANT
    /\ confidence final = JNum 1.0
    /\ needsValidation final = false
    /\ retrievedDocs final = Some []
    /\ context final = "".
Proof.
  eapply (irrelevant_query_skips_retrieval
            (Scenario.with_classifier
               (JsonContent (Some (Scenario.classifier_reply false 0.95)))
               (Scenario.world [Scenario.doc_overview]))
            true "what is the weather today" _ (JBool false)).
  - reflexivity.
  - reflexivity.
  - reflexivity.
  - reflexivity.
Defined.

(** X4 (executeRAGWorkflowFallback): a stage that throws ends the run at
    once.  When query validation throws, nothing but the classifier was
    consulted; when the retriever fails on a relevant query, nothing after
    the retriever is; when the judge's reply does not parse, no generation
    call follows.  Each time the run returns, rather than throws, the
    degraded state: the apology, confidence 0.1, no documents, no sources,
    and the error's message. *)
Theorem failed_stage_aborts_run (w : World) (streaming : bool) (q : string) :
  (forall e,
      outcome (QueryValidation.queryValidationNode w (Workflow.initialState q)) = inl e ->
      Workflow.executeRAGWorkflowFallback w streaming q
      = ([CallClassifier q], inr (Workflow.degraded q e)))
  /\ (forall upd r m,
         outcome (QueryValidation.queryValidationNode w (Workflow.initialState q)) = inr upd ->
         u_isRelevant upd = Some r ->
         truthy r = true ->
         retriever w q = RetrievalThrows m ->
         Workflow.executeRAGWorkflowFallback w streaming q
         = ([CallClassifier q; CallRetriever q],
            inr (Workflow.degraded q (RetrievalError m))))
  /\ (forall upd r d docs srcs,
         outcome (QueryValidation.queryValidationNode w (Workflow.initialState q)) = inr upd ->
         u_isRelevant upd = Some r ->
         truthy r = true ->
         retriever w q = Retrieved (d :: docs) srcs ->
         judge w (Stage.documents_blob (d :: docs)) q = JsonContent None ->
         Workflow.executeRAGWorkflowFallback w streaming q
         = ([CallClassifier q; CallRetriever q;
             CallJudge (Stage.documents_blob (d :: docs)) q],
            inr (Workflow.degraded q
                   (ValidationError "Failed to parse context validation response")))).
Proof.
  pose proof (StageFacts.queryValidation_effects w (Workflow.initialState q)) as He.
  split; [| split].
  - intros e Hv. unfold Workflow.executeRAGWorkflowFallback.
    destruct (QueryValidation.queryValidationNode w (Workflow.initialState q))
      as [es o]. cbn in He, Hv. subst es o. reflexivity.
  - intros upd r m Hv Hr Htrue Hret.
    destruct (RunFacts.queryValidation_update_form w _ upd Hv) as (r' & c & srcs & ->).
    cbn in Hr. injection Hr as ->.
    unfold Workflow.executeRAGWorkflowFallback.
    destruct (QueryValidation.queryValidationNode w (Workflow.initialState q))
      as [es o]. cbn in He, Hv. subst es o.
    cbn [bind try_catch]. unfold Workflow.retrieve_and_check.
    cbn [merge isRelevant pick u_isRelevant]. rewrite Htrue.
    rewrite RunFacts.retrieval_cases. cbn [merge query Workflow.initialState].
    rewrite Hret. reflexivity.
  - intros upd r d docs srcs Hv Hr Htrue Hret Hjudge.
    destruct (RunFacts.queryValidation_update_form w _ upd Hv) as (r' & c & srcs' & ->).
    cbn in Hr. injection Hr as ->.
    unfold Workflow.executeRAGWorkflowFallback.
    destruct (QueryValidation.queryValidationNode w (Workflow.initialState q))
      as [es o]. cbn in He, Hv. subst es o.
    cbn [bind try_catch]. unfold Workflow.retrieve_and_check.
    cbn [merge isRelevant pick u_isRelevant]. rewrite Htrue.
    rewrite RunFacts.retrieval_cases. cbn [merge query Workflow.initialState].
    rewrite Hret. cbn [bind].
    unfold ContextCheck.contextCheckNode.
    cbn [merge retrievedDocs query Workflow.initialState u_retrievedDocs
         Stage.has_docs Stage.docs_or_empty negb].
    rewrite Hjudge. reflexivity.
Qed.

Lemma failed_stage_aborts_run_witness :
  Workflow.executeRAGWorkflowFallback
    (Samples.with_retriever (RetrievalThrows "Missing Supabase configuration")
                            (Scenario.world []))
    true "How long is PGPM?"
  = ([CallClassifier "How long is PGPM?"; CallRetriever "How long is PGPM?"],
     inr (Workflow.degraded "How long is PGPM?"
            (RetrievalError "Missing Supabase configuration"))).
Proof.
  eapply (proj1 (proj2 (failed_stage_aborts_run
                          (Samples.with_retriever
                             (RetrievalThrows "Missing Supabase configuration")
                             (Scenario.world []))
                          true "How long is PGPM?"))
            _ (JBool true)).
  - reflexivity.
  - reflexivity.
  - reflexivity.
  - reflexivity.
Defined.

(** X5 (responseValidationNode): the stage throws only the ValidationError
    of an unparseable reply; a validator call that fails is answered with
    the verification-failed template at confidence 0.1, carrying the error
    message, and an answer that asks for validation with an empty response
    or an empty context gets the same template without any call. *)
Theorem validation_stage_failures (w : World) (st : RAGState) :
  (forall e,
      outcome (ResponseValidation.responseValidationNode w st) = inl e ->
      e = ValidationError "Failed to parse validation response")
  /\ (forall m,
         needsValidation st = true ->
         response st <> "" ->
         context st <> "" ->
         validator w (context st) (response st) = JsonCallThrows m ->
         outcome (ResponseValidation.responseValidationNode w st)
         = inr (ResponseValidation.verification_failed (Some m)))
  /\ (needsValidation st = true ->
      response st = "" \/ context st = "" ->
      ResponseValidation.responseValidationNode w st
      = ([], inr (ResponseValidation.verification_failed None))).
Proof.
  split; [| split].
  - unfold ResponseValidation.responseValidationNode.
    destruct (negb (needsValidation st)); [discriminate |].
    destruct (_ || _); [discriminate |].
    destruct (validator w (context st) (response st)) as [m | [reply |]]; cbn.
    + discriminate.
    + destruct reply; cbn; intros e H; try discriminate H;
        injection H as <-; reflexivity.
    + intros e H; injection H as <-; reflexivity.
  - intros m Hn Hr Hc Hv. unfold ResponseValidation.responseValidationNode.
    rewrite Hn, (is_empty_false _ Hr), (is_empty_false _ Hc), Hv. reflexivity.
  - intros Hn Hempty. unfold ResponseValidation.responseValidationNode.
    rewrite Hn. cbn [negb].
    destruct Hempty as [-> | ->]; [reflexivity |].
    rewrite orb_true_r. reflexivity.
Qed.

Lemma validation_stage_failures_witness :
  outcome (ResponseValidation.responseValidationNode
             (Samples.with_validator (JsonCallThrows "socket hang up")
                                     (Scenario.world [Scenario.doc_fees]))
             Scenario.salvaged_fee_state)
  = inr (ResponseValidation.verification_failed (Some "socket hang up")).
Proof.
  apply (proj1 (proj2 (validation_stage_failures
                         (Samples.with_validator (JsonCallThrows "socket hang up")
                                                 (Scenario.world [Scenario.doc_fees]))
                         Scenario.salvaged_fee_state))).
  - reflexivity.
  - discriminate.
  - discriminate.
  - reflexivity.
Defined.

(** X6 (generationNode, then responseValidationNode): an answer generated
    over an empty context that asks for validation (the fee, follow-up and
    social salvages) cannot pass the validation stage as written: fed the
    generation stage's result, it discards the answer for the
    verification-failed template at confidence 0.1 without consulting the
    validator. *)
Theorem salvaged_answer_cannot_be_validated
        (w : World) (streaming : bool) (st : RAGState) (upd : Update) :
  context st = "" ->
  outcome (Generation.generationNode w streaming st) = inr upd ->
  u_needsValidation upd = Some true ->
  ResponseValidation.responseValidationNode w (merge st upd)
  = ([], inr (ResponseValidation.verification_failed None)).
Proof.
  intros Hctx Hgen Hneeds.
  destruct (StageFacts.generation_update_form w streaming st upd Hgen)
    as (resp & needs & conf & msg & ->).
  cbn in Hneeds. injection Hneeds as ->.
  unfold ResponseValidation.responseValidationNode.
  cbn [merge needsValidation response context pick u_needsValidation u_response
       u_context negb].
  rewrite Hctx. cbn [JsString.is_empty]. rewrite orb_true_r. reflexivity.
Qed.

Lemma salvaged_answer_cannot_be_validated_witness :
  ResponseValidation.responseValidationNode (Scenario.world [Scenario.doc_fees])
    (merge (Scenario.insufficient_state "What is the total PGPM fee?" [Scenario.doc_fees])
           (Generation.answer_update Scenario.generated_text true (JNum 0.7)))
  = ([], inr (ResponseValidation.verification_failed None)).
Proof.
  apply (salvaged_answer_cannot_be_validated
           (Scenario.world [Scenario.doc_fees]) false
           (Scenario.insufficient_state "What is the total PGPM fee?" [Scenario.doc_fees])).
  - reflexivity.
  - reflexivity.
  - reflexivity.
Defined.

Module EndpointFacts.
Import JsString.

Lemma outcome_try_catch {A} (body : M A) (h : Exn -> M A) :
  outcome (try_catch body h)
  = match outcome body with
    | inl e => outcome (h e)
    | inr a => inr a
    end.
Proof. destruct body as [es [e | a]]; simpl; [destruct (h e) |]; reflexivity. Qed.

Lemma outcome_bind_cases {A B} (m : M A) (k : A -> M B) :
  outcome (bind m k)
  = match outcome m with
    | inl e => inl e
    | inr a => outcome (k a)
    end.
Proof. destruct m as [es [e | a]]; simpl; [| destruct (k a)]; reflexivity. Qed.

(** Registering a stream callback changes what is emitted, not what the
    generation stage returns. *)
Lemma generation_outcome_streaming w st :
  outcome (Generation.generationNode w true st)
  = outcome (Generation.generationNode w false st).
Proof.
  unfold Generation.generationNode. rewrite !outcome_try_catch.
  assert (H : forall s,
             outcome
               (if negb (truthy (isRelevant st))
                then ret (Generation.answer_update RESPONSE_TEMPLATES.NOT_RELEVANT false
                            (JNum 1.0))
                else if Generation.insufficient st
                then if Generation.fee_salvage st then Generation.salvage w s st 0.7
                     else if Generation.followup_salvage st
                     then Generation.salvage w s st 0.8
                     else match (if Generation.wantsDuration st
                                 then Generation.monthMatch st else None) with
                          | Some m => ret (Generation.duration_answer m)
                          | None =>
                              if Generation.social_salvage st
                              then Generation.salvage w s st 0.75
                              else Generation.graceful_non_answer w s st
                          end
                else Generation.grounded w s st)
             = outcome
                 (if negb (truthy (isRelevant st))
                  then ret (Generation.answer_update RESPONSE_TEMPLATES.NOT_RELEVANT false
                              (JNum 1.0))
                  else if Generation.insufficient st
                  then if Generation.fee_salvage st then Generation.salvage w false st 0.7
                       else if Generation.followup_salvage st
                       then Generation.salvage w false st 0.8
                       else match (if Generation.wantsDuration st
                                   then Generation.monthMatch st else None) with
                            | Some m => ret (Generation.duration_answer m)
                            | None =>
                                if Generation.social_salvage st
                                then Generation.salvage w false st 0.75
                                else Generation.graceful_non_answer w false st
                            end
                  else Generation.grounded w false st)).
  { intros s.
    destruct (negb _); [reflexivity |].
    destruct (Generation.insufficient st);
      [| rewrite !AnswerFacts.grounded_outcome; reflexivity].
    destruct (Generation.fee_salvage st);
      [rewrite !AnswerFacts.salvage_outcome; reflexivity |].
    destruct (Generation.followup_salvage st);
      [rewrite !AnswerFacts.salvage_outcome; reflexivity |].
    destruct (if Generation.wantsDuration st then _ else _); [reflexivity |].
    destruct (Generation.social_salvage st);
      [rewrite !AnswerFacts.salvage_outcome; reflexivity |].
    rewrite !AnswerFacts.graceful_non_answer_outcome; reflexivity. }
  rewrite (H true). reflexivity.
Qed.

Lemma workflow_outcome_streaming w q :
  outcome (Workflow.executeRAGWorkflowFallback w true q)
  = outcome (Workflow.executeRAGWorkflowFallback w false q).
Proof.
  unfold Workflow.executeRAGWorkflowFallback.
  rewrite !outcome_try_catch, !outcome_bind_cases.
  destruct (outcome (QueryValidation.queryValidationNode w _)) as [e | v];
    [reflexivity |].
  rewrite !outcome_bind_cases.
  destruct (outcome (Workflow.retrieve_and_check w _)) as [e | st]; [reflexivity |].
  rewrite !outcome_bind_cases, generation_outcome_streaming. reflexivity.
Qed.

Lemma filter_tokens_interleave pings toks : forall k,
  filter (fun e => match e with Server.EvToken _ => true | _ => false end)
         (Server.interleave pings k toks)
  = map Server.EvToken toks.
Proof.
  assert (Hp : forall l,
             filter (fun e => match e with Server.EvToken _ => true | _ => false end)
                    (map Server.EvPing l) = []).
  { induction l; simpl; [reflexivity | assumption]. }
  induction toks as [| t rest IH]; intros k; simpl.
  - apply Hp.
  - rewrite filter_app, Hp. simpl. rewrite IH. reflexivity.
Qed.

End EndpointFacts.

(** X7 (handleStreamingChat): what the stream sends is what the session
    remembers.  For an accepted request whose tracing set-up does not throw,
    the memory afterwards is the memory before plus one turn holding the raw
    question (not the composite text), and the answer, confidence and
    sources of the [complete] frame; the token frames are the generation
    model's tokens in their order, whatever heartbeats fall between them.
    When the set-up throws, the memory is left as it was. *)
Theorem stream_records_what_it_sent
        (w : World) (req : Server.Request) (question : string) :
  Server.body_question req = JStr question ->
  question <> "" ->
  match tracing w with
  | TracingSetupThrows _ =>
      snd (Server.handleStreamingChat true w req) = Server.conversationMemory req
  | _ =>
      exists during answer conf srcs n,
        Server.handleStreamingChat true w req
        = (Server.EventStream
             (Server.EvConnected (Server.sessionId req) (now_iso w)
                :: Server.EvStatus "Processing query..."
                :: during ++ [Server.EvComplete answer conf srcs n; Server.EvEnd])%list,
           ConversationMemory.addTurn (now_ms w)
             {| ConversationMemory.in_question := question;
                ConversationMemory.in_answer := answer;
                ConversationMemory.in_confidence := conf;
                ConversationMemory.in_sources := srcs |}
             (Server.conversationMemory req))
        /\ filter (fun e => match e with Server.EvToken _ => true | _ => false end) during
           = map Server.EvToken
               (Server.tokens_of
                  (effects (Workflow.invoke w true
                              (Workflow.initialState
                                 (JsString.trim
                                    (Conversation.buildCompositeQuery question
                                       (Server.conversationMemory req)))))))
  end.
Proof.
  intros Hq Hne.
  unfold Server.handleStreamingChat. rewrite Hq, (is_empty_false _ Hne). cbn [negb].
  unfold Server.stream_body, Server.tracing_setup.
  destruct (tracing w) as [| | m].
  1,2: cbn [bind ret outcome snd];
    match goal with
    | |- context [Workflow.invoke ?w0 true ?st] =>
        destruct (StreamFacts.invoke_returns w0 true st) as (result & Hres);
        rewrite Hres
    end;
    do 5 eexists; split;
    [ cbn [app]; rewrite <- app_assoc; reflexivity
    | apply EndpointFacts.filter_tokens_interleave ].
  reflexivity.
Qed.

Lemma stream_records_what_it_sent_witness :
  exists during answer conf srcs n,
    Server.handleStreamingChat true (Scenario.world [Scenario.doc_admissions])
      (Scenario.request (JStr "tell me more") Scenario.after_admissions)
    = (Server.EventStream
         (Server.EvConnected "session-1" "2025-01-01T00:00:00.000Z"
            :: Server.EvStatus "Processing query..."
            :: during ++ [Server.EvComplete answer conf srcs n; Server.EvEnd])%list,
       ConversationMemory.addTurn 1735689600000
         {| ConversationMemory.in_question := "tell me more";
            ConversationMemory.in_answer := answer;
            ConversationMemory.in_confidence := conf;
            ConversationMemory.in_sources := srcs |}
         Scenario.after_admissions).
Proof.
  destruct (stream_records_what_it_sent (Scenario.world [Scenario.doc_admissions])
              (Scenario.request (JStr "tell me more") Scenario.after_admissions)
              "tell me more" eq_refl)
    as (during & answer & conf & srcs & n & Hrun & _).
  - discriminate.
  - exists during, answer, conf, srcs, n. exact Hrun.
Defined.


(** X9 (handleChatQuery, handleStreamingChat): the two endpoints answer from
    the same pipeline result.  For an accepted request whose tracing set-up
    does not throw there is one final state such that the buffered reply
    carries its response, confidence and sources as they are, and the
    stream's [complete] frame carries the same, except that an empty
    response is replaced by the streamed tokens and a falsy confidence by
    0.7. *)
Theorem endpoints_agree
        (w : World) (req : Server.Request) (question : string) (includeContext : jsval) :
  Server.body_question req = JStr question ->
  question <> "" ->
  (forall m, tracing w <> TracingSetupThrows m) ->
  exists result during reply memory1 memory2 stamp,
    ChatEndpoint.handleChatQuery true w req includeContext
    = (ChatEndpoint.ChatOk reply, memory1, stamp)
    /\ ChatEndpoint.reply_answer reply = response result
    /\ ChatEndpoint.reply_confidence reply = confidence result
    /\ ChatEndpoint.reply_sources reply = sources result
    /\ Server.handleStreamingChat true w req
       = (Server.EventStream
            (Server.EvConnected (Server.sessionId req) (now_iso w)
               :: Server.EvStatus "Processing query..."
               :: during
               ++ [Server.EvComplete
                     (if JsString.is_empty (response result)
                      then String.concat ""
                             (Server.tokens_of
                                (effects (Workflow.invoke w true
                                            (Workflow.initialState
                                               (JsString.trim
                                                  (Conversation.buildCompositeQuery question
                                                     (Server.conversationMemory req)))))))
                      else response result)
                     (or (confidence result) (JNum 0.7))
                     (sources result)
                     (length (Stage.docs_or_empty (retrievedDocs result)));
                   Server.EvEnd])%list,
          memory2).
Proof.
  intros Hq Hne Htr.
  unfold ChatEndpoint.handleChatQuery, Server.handleStreamingChat.
  rewrite Hq, (is_empty_false _ Hne). cbn [negb].
  unfold Server.stream_body, Server.tracing_setup.
  set (st0 := Workflow.initialState
                (JsString.trim (Conversation.buildCompositeQuery question
                                  (Server.conversationMemory req)))).
  destruct (StreamFacts.invoke_returns w false st0) as (result & Hres).
  assert (Hres' : outcome (Workflow.invoke w true st0) = inr result).
  { unfold Workflow.invoke in *. rewrite EndpointFacts.workflow_outcome_streaming.
    exact Hres. }
  rewrite Hres.
  destruct (tracing w) as [| | m] eqn:Et; [| | exfalso; apply (Htr m); reflexivity].
  1,2: cbn [bind ret outcome snd]; rewrite Hres';
    exists result; do 5 eexists;
    split; [reflexivity |]; repeat (split; [reflexivity |]);
    cbn [app]; rewrite <- app_assoc; reflexivity.
Qed.

Lemma endpoints_agree_witness :
  exists result reply memory1 stamp,
    ChatEndpoint.handleChatQuery true (Scenario.world [Scenario.doc_fees])
      (Scenario.request (JStr "What is the total PGPM fee?") ConversationMemory.empty)
      (JBool false)
    = (ChatEndpoint.ChatOk reply, memory1, stamp)
    /\ ChatEndpoint.reply_answer reply = response result
    /\ ChatEndpoint.reply_confidence reply = confidence result
    /\ ChatEndpoint.reply_sources reply = sources result.
Proof.
  destruct (endpoints_agree (Scenario.world [Scenario.doc_fees])
              (Scenario.request (JStr "What is the total PGPM fee?") ConversationMemory.empty)
              "What is the total PGPM fee?" (JBool false) eq_refl)
    as (result & during & reply & m1 & m2 & stamp & Hchat & Ha & Hc & Hs & _).
  - discriminate.
  - discriminate.
  - exists result, reply, m1, stamp. repeat split; assumption.
Defined.

Module SelfTestFacts.

Lemma run_after_failed_validation w s q e :
  outcome (QueryValidation.queryValidationNode w (Workflow.initialState q)) = inl e ->
  outcome (Workflow.executeRAGWorkflowFallback w s q) = inr (Workflow.degraded q e).
Proof.
  intros Hv. unfold Workflow.executeRAGWorkflowFallback.
  rewrite EndpointFacts.outcome_try_catch, EndpointFacts.outcome_bind_cases, Hv.
  reflexivity.
Qed.

End SelfTestFacts.

(** X10 (testWorkflow, executeRAGWorkflow): the self-test cannot see a
    failing stage.  It never throws, and whenever query validation throws
    for the test query it still reports success, because the apology the
    orchestrator substitutes is longer than 20 characters. *)
Theorem self_test_passes_on_failure (w : World) (testQuery : option string) :
  let q := match testQuery with
           | Some t => if JsString.is_empty t then WorkflowEntry.defaultTestQuery else t
           | None => WorkflowEntry.defaultTestQuery
           end in
  (exists verdict, outcome (WorkflowEntry.testWorkflow w testQuery) = inr verdict)
  /\ (forall e,
         outcome (QueryValidation.queryValidationNode w (Workflow.initialState q)) = inl e ->
         outcome (WorkflowEntry.testWorkflow w testQuery) = inr true).
Proof.
  intros q. split.
  - apply (try_catch_returns _ (fun _ => false)).
  - intros e Hv.
    unfold WorkflowEntry.testWorkflow. fold q.
    rewrite EndpointFacts.outcome_try_catch, EndpointFacts.outcome_bind_cases.
    unfold WorkflowEntry.executeRAGWorkflow, Workflow.invoke.
    cbn [query Workflow.initialState].
    rewrite EndpointFacts.outcome_try_catch,
      (SelfTestFacts.run_after_failed_validation w false q e Hv).
    reflexivity.
Qed.

Lemma self_test_passes_on_failure_witness :
  outcome (WorkflowEntry.testWorkflow
             (Scenario.with_classifier (JsonCallThrows "401 Incorrect API key")
                                       (Scenario.world []))
             None) = inr true.
Proof.
  apply (proj2 (self_test_passes_on_failure
                  (Scenario.with_classifier (JsonCallThrows "401 Incorrect API key")
                                            (Scenario.world []))
                  None)
           (ValidationError "Query validation failed")).
  reflexivity.
Defined.

(* ===================================================================== *)
(** * Further properties of the conversation memory and the composite
    query *)
(* ===================================================================== *)

Module StringFacts.
Import JsString.

Lemma append_assoc (a b c : string) : (a ++ b) ++ c = a ++ b ++ c.
Proof. induction a as [| x a IH]; simpl; [reflexivity | rewrite IH; reflexivity]. Qed.

Lemma append_nil_r (a : string) : a ++ "" = a.
Proof. induction a as [| x a IH]; simpl; [reflexivity | rewrite IH; reflexivity]. Qed.

Lemma length_append (a b : string) :
  String.length (a ++ b) = String.length a + String.length b.
Proof. induction a as [| x a IH]; simpl; [reflexivity | rewrite IH; reflexivity]. Qed.

Lemma prefix_nil (s : string) : prefix "" s = true.
Proof. destruct s; reflexivity. Qed.

Lemma prefix_refl (s : string) : prefix s s = true.
Proof.
  induction s as [| c s IH]; simpl; [reflexivity |].
  destruct (ascii_dec c c); [exact IH | congruence].
Qed.

Lemma prefix_append (s a b : string) :
  prefix s a = true -> prefix s (a ++ b) = true.
Proof.
  revert a. induction s as [| c s IH]; intros a H; [apply prefix_nil |].
  destruct a as [| x a]; simpl in *; [discriminate |].
  destruct (ascii_dec c x); [apply IH; exact H | discriminate].
Qed.

Lemma includes_unfold (s sub : string) :
  includes s sub
  = prefix sub s || match s with
                    | EmptyString => false
                    | String _ s' => includes s' sub
                    end.
Proof. destruct s; reflexivity. Qed.

Lemma includes_refl (s : string) : includes s s = true.
Proof. rewrite includes_unfold, prefix_refl. reflexivity. Qed.

(** What occurs in a text occurs in the text with something after it. *)
Lemma includes_append_l (a b sub : string) :
  includes a sub = true -> includes (a ++ b) sub = true.
Proof.
  induction a as [| x a IH]; intros H.
  - rewrite includes_unfold in H. rewrite orb_false_r in H.
    destruct sub; [| discriminate H].
    rewrite includes_unfold, prefix_nil. reflexivity.
  - rewrite includes_unfold in H. cbn [append]. rewrite includes_unfold.
    apply orb_true_iff in H as [H | H].
    + change (String x (a ++ b)) with (String x a ++ b).
      rewrite (prefix_append _ _ _ H). reflexivity.
    + rewrite (IH H). apply orb_true_r.
Qed.

(** ... and in the text with something before it. *)
Lemma includes_append_r (a b sub : string) :
  includes b sub = true -> includes (a ++ b) sub = true.
Proof.
  intros H. induction a as [| x a IH]; [exact H |].
  cbn [append]. rewrite includes_unfold, IH. apply orb_true_r.
Qed.

Lemma toLowerCase_append (a b : string) :
  toLowerCase (a ++ b) = toLowerCase a ++ toLowerCase b.
Proof. induction a as [| x a IH]; simpl; [reflexivity | rewrite IH; reflexivity]. Qed.

End StringFacts.

Module HistoryFacts.
Import JsString ConversationMemory.

Lemma skipn_all_but {A} (l : list A) : length l <= 10 -> skipn (length l - 10) l = l.
Proof. intros H. replace (length l - 10) with 0 by lia. reflexivity. Qed.

(** The history after a batch of calls, from any history within capacity. *)
Lemma addTurns_window calls : forall h,
  length h <= 10 ->
  addTurns calls h
  = skipn (length h + length calls - 10)
          (h ++ map (fun call => stamp (fst call) (snd call)) calls).
Proof.
  induction calls as [| [now turn] rest IH]; intros h Hle.
  - simpl. rewrite app_nil_r, Nat.add_0_r. symmetry. apply skipn_all_but, Hle.
  - cbn [addTurns]. rewrite IH by (apply MemoryFacts.addTurn_bounded; exact Hle).
    rewrite MemoryFacts.addTurn_unfold. unfold maxHistoryLength.
    destruct (length h =? 10) eqn:E10.
    + apply Nat.eqb_eq in E10.
      destruct h as [| a h0]; [discriminate E10 |].
      cbn [tl]. rewrite length_app. cbn [length map fst snd] in *.
      rewrite <- app_assoc. cbn [app].
      replace (length h0 + 1 + length rest - 10) with (length rest) by lia.
      replace (S (length h0) + S (length rest) - 10) with (S (length rest)) by lia.
      reflexivity.
    + apply Nat.eqb_neq in E10.
      replace (length h <? 10) with true by (symmetry; apply Nat.ltb_lt; lia).
      rewrite length_app. cbn [length map fst snd].
      rewrite <- app_assoc. cbn [app].
      replace (length h + 1 + length rest - 10) with (length h + S (length rest) - 10)
        by lia.
      reflexivity.
Qed.

Lemma join_snoc sep (ps : list string) (p : string) :
  exists before, join sep (ps ++ [p]) = before ++ p.
Proof.
  induction ps as [| a rest IH]; cbn [app join].
  - exists "". reflexivity.
  - destruct IH as (before & IH).
    destruct (rest ++ [p])%list as [| b tail] eqn:E.
    + destruct rest; discriminate E.
    + rewrite IH. exists (a ++ sep ++ before).
      rewrite !StringFacts.append_assoc. reflexivity.
Qed.

Lemma slice_last_snoc {A} n (l : list A) (x : A) :
  exists l', slice_last n (l ++ [x]) = (l' ++ [x])%list.
Proof.
  unfold slice_last. destruct (n =? 0) eqn:En; [exists l; reflexivity |].
  apply Nat.eqb_neq in En. rewrite length_app. cbn [length].
  exists (skipn (length l + 1 - n) l).
  rewrite skipn_app.
  replace (length l + 1 - n - length l) with 0 by lia. reflexivity.
Qed.

Lemma slice_last_nonempty {A} n (l : list A) :
  l <> [] -> slice_last n l <> [].
Proof.
  intros Hne. unfold slice_last. destruct (n =? 0) eqn:En; [exact Hne |].
  apply Nat.eqb_neq in En. intros E.
  assert (Hlen : length (skipn (length l - n) l) = 0) by (rewrite E; reflexivity).
  rewrite length_skipn in Hlen.
  assert (length l <> 0) by (destruct l; [congruence | discriminate]). lia.
Qed.

Lemma rendered_nonempty sep (turns : list Turn) :
  turns <> [] -> is_empty (join sep (map render turns)) = false.
Proof.
  destruct turns as [| t rest]; [congruence | intros _].
  cbn [map join]. destruct (map render rest); reflexivity.
Qed.

Lemma slice_last_slice_last {A} a b (l : list A) :
  0 < a -> a <= b -> slice_last a (slice_last b l) = slice_last a l.
Proof.
  intros Ha Hab. unfold slice_last.
  replace (a =? 0) with false by (symmetry; apply Nat.eqb_neq; lia).
  replace (b =? 0) with false by (symmetry; apply Nat.eqb_neq; lia).
  rewrite length_skipn, skipn_skipn. f_equal. lia.
Qed.

End HistoryFacts.

(** X11 (ConversationMemory.addTurn): after any sequence of calls on a new
    memory, the history is exactly the last ten turns added, each with the
    timestamp of its call, oldest first ([slice(-10)] of everything that was
    added). *)
Theorem history_is_last_ten (calls : list (Z * ConversationMemory.TurnInput)) :
  ConversationMemory.addTurns calls ConversationMemory.empty
  = ConversationMemory.slice_last 10
      (map (fun call => ConversationMemory.stamp (fst call) (snd call)) calls).
Proof.
  rewrite HistoryFacts.addTurns_window by (simpl; lia).
  unfold ConversationMemory.slice_last, ConversationMemory.empty.
  cbn [Nat.eqb app length]. rewrite length_map. reflexivity.
Qed.

(** X12 (ConversationMemory.getRecentContext): for every turn count, zero
    included, the rendered context is empty exactly when the history is
    empty, and right after [addTurn] it ends with the Q/A rendering of the
    turn just added. *)
Theorem recent_context_shows_newest
        (n : nat) (h : ConversationMemory.t) (now : Z)
        (turn : ConversationMemory.TurnInput) :
  (JsString.is_empty (ConversationMemory.getRecentContext n h) = true <-> h = [])
  /\ exists before,
      ConversationMemory.getRecentContext n (ConversationMemory.addTurn now turn h)
      = before ++ "Q: " ++ ConversationMemory.in_question turn ++ JsString.nl
               ++ "A: " ++ ConversationMemory.in_answer turn.
Proof.
  split.
  - split.
    + intros Hempty. destruct h as [| t rest]; [reflexivity |].
      unfold ConversationMemory.getRecentContext in Hempty.
      rewrite HistoryFacts.rendered_nonempty in Hempty; [discriminate |].
      apply HistoryFacts.slice_last_nonempty. discriminate.
    + intros ->. unfold ConversationMemory.getRecentContext, ConversationMemory.slice_last.
      destruct (n =? 0); [reflexivity |]. rewrite skipn_nil. reflexivity.
  - unfold ConversationMemory.getRecentContext.
    assert (Hsnoc : exists l, ConversationMemory.addTurn now turn h
                              = (l ++ [ConversationMemory.stamp now turn])%list).
    { destruct h as [| a h0]; [exists []; reflexivity |].
      unfold ConversationMemory.addTurn, ConversationMemory.shift.
      destruct (_ <? _); cbn [app tl];
        [exists h0 | exists (a :: h0)]; reflexivity. }
    destruct Hsnoc as (l & ->).
    destruct (HistoryFacts.slice_last_snoc n l (ConversationMemory.stamp now turn))
      as (l' & ->).
    rewrite map_app. cbn [map].
    apply HistoryFacts.join_snoc.
Qed.

(* ===================================================================== *)
(** ** The composite query *)
(* ===================================================================== *)

(** X13 (buildCompositeQuery): whatever the history, the text handed to the
    workflow contains the trimmed question verbatim. *)
Theorem composite_query_contains_question
        (question : string) (memory : ConversationMemory.t) :
  JsString.includes (Conversation.buildCompositeQuery question memory)
                    (JsString.trim question) = true.
Proof.
  unfold Conversation.buildCompositeQuery.
  repeat match goal with
         | |- context [if ?c then _ else _] => destruct c
         end;
    repeat first [ apply StringFacts.includes_refl
                 | apply StringFacts.includes_append_l; apply StringFacts.includes_refl
                 | apply StringFacts.includes_append_r ].
Qed.

(** X14 (buildCompositeQuery): the composite query reads the last five turns
    of the history and nothing older: on a history and on its last five
    turns it is the same text. *)
Theorem composite_query_reads_last_five
        (question : string) (memory : ConversationMemory.t) :
  Conversation.buildCompositeQuery question memory
  = Conversation.buildCompositeQuery question
      (ConversationMemory.slice_last 5 memory).
Proof.
  unfold Conversation.buildCompositeQuery, ConversationMemory.getRecentContext.
  rewrite !HistoryFacts.slice_last_slice_last by lia. reflexivity.
Qed.

(* ===================================================================== *)
(** ** Query expansion and the retrieval filter *)
(* ===================================================================== *)

Module ExpansionFacts.
Import JsString QueryHeuristics QueryExpansion RetrievalHelpers.

Lemma append_nonempty (a : string) (c : ascii) (b : string) :
  a ++ String c b <> "".
Proof. destruct a; discriminate. Qed.

(** Every branch of [enhanceQuery] that changes the query puts text and a
    space in front of it. *)
Lemma enhanceQuery_cases (q : string) :
  (needsEnhancement q = false /\ enhanceQuery q = q)
  \/ (needsEnhancement q = true
      /\ exists expansion, enhanceQuery q = (expansion ++ " ") ++ q).
Proof.
  unfold enhanceQuery.
  destruct (needsEnhancement q); [right; split; [reflexivity |] | left; split; reflexivity].
  cbn [negb].
  destruct (isStatsQuery q);
    [eexists; rewrite StringFacts.append_assoc; reflexivity |].
  destruct (isBroadInformationQuery q);
    [eexists; rewrite StringFacts.append_assoc; reflexivity |].
  destruct (isFollowUpQuery q);
    [eexists; rewrite StringFacts.append_assoc; reflexivity |].
  destruct (if _ <=? 2 then _ else None);
    [eexists; rewrite StringFacts.append_assoc; reflexivity |].
  unfold default_expansion. cbv zeta.
  destruct (200 <? _); eexists; rewrite StringFacts.append_assoc; reflexivity.
Qed.

Lemma primed_mentions_admission (priming q : string) :
  includes (toLowerCase priming) "admission" = true ->
  includes (toLowerCase (priming ++ " " ++ q)) "admission" = true.
Proof.
  intros H. rewrite StringFacts.toLowerCase_append.
  apply StringFacts.includes_append_l, H.
Qed.

End ExpansionFacts.

(** X15 (enhanceQuery): the search text for a query of ASCII characters
    always ends with the query as the user gave it; text is only ever put in
    front, and that happens exactly when the query needs enhancement. *)
Theorem expansion_keeps_the_query (originalQuery : string) :
  JsString.is_ascii originalQuery = true ->
  exists added,
    QueryExpansion.enhanceQuery originalQuery = added ++ originalQuery
    /\ (added = "" <-> QueryExpansion.needsEnhancement originalQuery = false).
Proof.
  intros _.
  destruct (ExpansionFacts.enhanceQuery_cases originalQuery)
    as [(Hno & ->) | (Hyes & expansion & ->)].
  - exists "". split; [reflexivity | split; intros _; [exact Hno | reflexivity]].
  - exists (expansion ++ " "). split; [reflexivity |]. split.
    + intros E. exfalso. exact (ExpansionFacts.append_nonempty _ _ _ E).
    + intros E. congruence.
Qed.

Lemma expansion_keeps_the_query_witness :
  JsString.is_ascii "What is the SPJIMR PGPM admission process?" = true
  /\ exists added,
       QueryExpansion.enhanceQuery "What is the SPJIMR PGPM admission process?"
       = added ++ "What is the SPJIMR PGPM admission process?"
       /\ (added = ""
           <-> QueryExpansion.needsEnhancement
                 "What is the SPJIMR PGPM admission process?" = false).
Proof.
  assert (H : JsString.is_ascii "What is the SPJIMR PGPM admission process?" = true)
    by reflexivity.
  split; [exact H |].
  exact (expansion_keeps_the_query "What is the SPJIMR PGPM admission process?" H).
Defined.

(** X16 (retrievalNode, createRetrievalFilter, enhanceQuery): a statistics
    query, a broad-information query and a follow-up are all searched with
    the metadata filter of type admissions, whatever topic they name: the
    filter is computed from the primed text, and each priming mentions
    admission. *)
Theorem primed_queries_search_admissions (q : string)
        (Hprimed : QueryExpansion.isStatsQuery q = true
                   \/ QueryExpansion.isBroadInformationQuery q = true
                   \/ QueryHeuristics.isFollowUpQuery q = true) :
  RetrievalHelpers.createRetrievalFilter (QueryExpansion.enhanceQuery q)
  = {| RetrievalHelpers.program := "PGPM";
       RetrievalHelpers.filter_type := Some "admissions" |}.
Proof.
  assert (Hneeds : QueryExpansion.needsEnhancement q = true).
  { unfold QueryExpansion.needsEnhancement. cbv zeta.
    destruct Hprimed as [H | [H | H]]; rewrite H;
      rewrite ?orb_true_r; reflexivity. }
  assert (Hmention :
            JsString.includes
              (JsString.toLowerCase (QueryExpansion.enhanceQuery q)) "admission" = true).
  { unfold QueryExpansion.enhanceQuery. rewrite Hneeds. cbn [negb].
    destruct (QueryExpansion.isStatsQuery q) eqn:Es;
      [apply ExpansionFacts.primed_mentions_admission; vm_compute; reflexivity |].
    destruct (QueryExpansion.isBroadInformationQuery q) eqn:Eb;
      [apply ExpansionFacts.primed_mentions_admission; vm_compute; reflexivity |].
    destruct (QueryHeuristics.isFollowUpQuery q) eqn:Ef;
      [apply ExpansionFacts.primed_mentions_admission; vm_compute; reflexivity |].
    destruct Hprimed as [H | [H | H]]; discriminate H. }
  unfold RetrievalHelpers.createRetrievalFilter. rewrite Hmention. reflexivity.
Qed.

Lemma primed_queries_search_admissions_witness :
  RetrievalHelpers.createRetrievalFilter "placement statistics"
  = {| RetrievalHelpers.program := "PGPM";
       RetrievalHelpers.filter_type := Some "placements" |}
  /\ QueryExpansion.isStatsQuery "placement statistics" = true
  /\ RetrievalHelpers.createRetrievalFilter
       (QueryExpansion.enhanceQuery "placement statistics")
     = {| RetrievalHelpers.program := "PGPM";
          RetrievalHelpers.filter_type := Some "admissions" |}
  /\ QueryExpansion.isBroadInformationQuery "Tell me everything" = true
  /\ RetrievalHelpers.createRetrievalFilter
       (QueryExpansion.enhanceQuery "Tell me everything")
     = {| RetrievalHelpers.program := "PGPM";
          RetrievalHelpers.filter_type := Some "admissions" |}
  /\ QueryHeuristics.isFollowUpQuery "anything else" = true
  /\ RetrievalHelpers.createRetrievalFilter
       (QueryExpansion.enhanceQuery "anything else")
     = {| RetrievalHelpers.program := "PGPM";
          RetrievalHelpers.filter_type := Some "admissions" |}.
Proof.
  assert (Hstats : QueryExpansion.isStatsQuery "placement statistics" = true)
    by (vm_compute; reflexivity).
  assert (Hbroad : QueryExpansion.isBroadInformationQuery "Tell me everything" = true)
    by (vm_compute; reflexivity).
  assert (Hmore : QueryHeuristics.isFollowUpQuery "anything else" = true)
    by (vm_compute; reflexivity).
  split; [vm_compute; reflexivity |].
  split; [exact Hstats |].
  split; [exact (primed_queries_search_admissions _ (or_introl Hstats)) |].
  split; [exact Hbroad |].
  split; [exact (primed_queries_search_admissions _ (or_intror (or_introl Hbroad))) |].
  split; [exact Hmore |].
  exact (primed_queries_search_admissions _ (or_intror (or_intror Hmore))).
Defined.

(* ===================================================================== *)
(** ** The retrieval helpers *)
(* ===================================================================== *)

Module RetrievalFacts.
Import JsString RetrievalHelpers.

Lemma mem_In (x : string) (xs : list string) : mem x xs = true <-> In x xs.
Proof.
  unfold mem. rewrite existsb_exists. split.
  - intros (y & Hin & E). apply String.eqb_eq in E. subst. exact Hin.
  - intros Hin. exists x. split; [exact Hin | apply String.eqb_refl].
Qed.

Lemma mem_false (x : string) (xs : list string) : mem x xs = false <-> ~ In x xs.
Proof.
  rewrite <- mem_In. destruct (mem x xs); split; congruence.
Qed.

(** *** deduplicateDocuments *)

Lemma dedupe_loop_In (docs : list Hit) : forall seen d,
  In d (dedupe_loop seen docs) -> In d docs /\ ~ In (contentHash d) seen.
Proof.
  induction docs as [| x rest IH]; intros seen d Hin; [destruct Hin |].
  cbn [dedupe_loop] in Hin. destruct (mem (contentHash x) seen) eqn:E.
  - destruct (IH _ _ Hin) as (H1 & H2). split; [right; exact H1 | exact H2].
  - destruct Hin as [<- | Hin].
    + split; [left; reflexivity | apply mem_false, E].
    + destruct (IH _ _ Hin) as (H1 & H2).
      split; [right; exact H1 | intros H; apply H2; right; exact H].
Qed.

Lemma dedupe_loop_NoDup (docs : list Hit) : forall seen,
  NoDup (map contentHash (dedupe_loop seen docs)).
Proof.
  induction docs as [| x rest IH]; intros seen; [constructor |].
  cbn [dedupe_loop]. destruct (mem (contentHash x) seen); [apply IH |].
  cbn [map]. constructor; [| apply IH].
  intros Hin. apply in_map_iff in Hin as (d & E & Hd).
  apply dedupe_loop_In in Hd as (_ & Hd). apply Hd. left. symmetry. exact E.
Qed.

Lemma dedupe_loop_hashes (docs : list Hit) : forall seen h,
  In h (map contentHash docs) -> ~ In h seen ->
  In h (map contentHash (dedupe_loop seen docs)).
Proof.
  induction docs as [| x rest IH]; intros seen h Hin Hseen; [destruct Hin |].
  cbn [dedupe_loop]. destruct (mem (contentHash x) seen) eqn:E.
  - destruct Hin as [<- | Hin]; [exfalso; apply Hseen, mem_In, E |].
    apply IH; assumption.
  - cbn [map]. destruct (string_dec (contentHash x) h) as [Eh | Nh];
      [left; exact Eh | right].
    destruct Hin as [Hx | Hin]; [contradiction |].
    apply IH; [exact Hin |]. intros [H | H]; [contradiction | exact (Hseen H)].
Qed.

(** The first document with a hash not yet seen is kept. *)
Lemma dedupe_loop_first (pre : list Hit) : forall seen d post,
  ~ In (contentHash d) seen ->
  ~ In (contentHash d) (map contentHash pre) ->
  In d (dedupe_loop seen (pre ++ d :: post)).
Proof.
  induction pre as [| x rest IH]; intros seen d post Hseen Hpre; cbn [app dedupe_loop].
  - apply mem_false in Hseen. rewrite Hseen. left. reflexivity.
  - cbn [map] in Hpre.
    assert (Hx : contentHash x <> contentHash d) by (intros E; apply Hpre; left; exact E).
    assert (Hrest : ~ In (contentHash d) (map contentHash rest))
      by (intros H; apply Hpre; right; exact H).
    destruct (mem (contentHash x) seen).
    + apply IH; assumption.
    + right. apply IH; [| exact Hrest].
      intros [H | H]; [exact (Hx H) | exact (Hseen H)].
Qed.

(** A list without repeated hashes, none of them seen, passes unchanged. *)
Lemma dedupe_loop_fixed (docs : list Hit) : forall seen,
  NoDup (map contentHash docs) ->
  (forall d, In d docs -> ~ In (contentHash d) seen) ->
  dedupe_loop seen docs = docs.
Proof.
  induction docs as [| x rest IH]; intros seen Hnd Hseen; [reflexivity |].
  cbn [dedupe_loop]. cbn [map] in Hnd. inversion Hnd as [| ? ? Hx Hrest]; subst.
  replace (mem (contentHash x) seen) with false
    by (symmetry; apply mem_false, Hseen; left; reflexivity).
  f_equal. apply IH; [exact Hrest |].
  intros d Hd [H | H].
  - apply Hx. rewrite H. apply in_map, Hd.
  - apply (Hseen d); [right; exact Hd | exact H].
Qed.

(** *** The sources *)

Lemma indexOf_in_prefix (x : string) (pre : list string) : forall rest,
  In x pre -> exists i, indexOf x (pre ++ rest) = Some i /\ i < length pre.
Proof.
  induction pre as [| y pre IH]; intros rest Hin; [destruct Hin |].
  cbn [app indexOf length]. destruct (String.eqb y x) eqn:E.
  - exists 0. split; [reflexivity | lia].
  - destruct Hin as [Hy | Hin]; [subst; rewrite String.eqb_refl in E; discriminate |].
    destruct (IH rest Hin) as (i & -> & Hi). exists (S i). split; [reflexivity | lia].
Qed.

Lemma indexOf_after_prefix (x : string) (pre : list string) : forall rest,
  ~ In x pre -> indexOf x (pre ++ x :: rest) = Some (length pre).
Proof.
  induction pre as [| y pre IH]; intros rest Hnot; cbn [app indexOf length].
  - rewrite String.eqb_refl. reflexivity.
  - destruct (String.eqb y x) eqn:E.
    + apply String.eqb_eq in E. exfalso. apply Hnot. left. exact E.
    + rewrite IH; [reflexivity |]. intros H. apply Hnot. right. exact H.
Qed.

(** One step of the filter: the element at position [length pre] is kept
    exactly when it does not occur before. *)
Lemma first_occurrences_step (pre : list string) (s : string) (rest : list string) :
  first_occurrences (pre ++ s :: rest) (length pre) (s :: rest)
  = if mem s pre
    then first_occurrences ((pre ++ [s]) ++ rest) (length (pre ++ [s])) rest
    else s :: first_occurrences ((pre ++ [s]) ++ rest) (length (pre ++ [s])) rest.
Proof.
  rewrite <- app_assoc, length_app. cbn [app length]. rewrite Nat.add_1_r.
  cbn [first_occurrences]. destruct (mem s pre) eqn:E.
  - apply mem_In in E. destruct (indexOf_in_prefix s pre (s :: rest) E) as (i & -> & Hi).
    replace (i =? length pre) with false by (symmetry; apply Nat.eqb_neq; lia).
    reflexivity.
  - apply mem_false in E. rewrite (indexOf_after_prefix s pre rest E).
    rewrite Nat.eqb_refl. reflexivity.
Qed.

Lemma first_occurrences_In (rest : list string) : forall pre s,
  In s (first_occurrences (pre ++ rest) (length pre) rest)
  <-> In s rest /\ ~ In s pre.
Proof.
  induction rest as [| x rest IH]; intros pre s.
  - cbn. tauto.
  - rewrite first_occurrences_step. destruct (mem x pre) eqn:E.
    + rewrite IH. apply mem_In in E. rewrite in_app_iff. cbn [In]. split.
      * intros (H1 & H2). split; [right; exact H1 | tauto].
      * intros ([H1 | H1] & H2); [subst; contradiction |].
        split; [exact H1 |]. intros [H | [H | []]]; [contradiction |].
        subst. contradiction.
    + apply mem_false in E. cbn [In]. rewrite IH, in_app_iff. cbn [In]. split.
      * intros [H | (H1 & H2)]; [subst; tauto | tauto].
      * intros ([H1 | H1] & H2); [left; exact H1 |].
        destruct (string_dec x s) as [Exs | Nxs]; [left; exact Exs | right].
        split; [exact H1 | tauto].
Qed.

Lemma first_occurrences_NoDup (rest : list string) : forall pre,
  NoDup (first_occurrences (pre ++ rest) (length pre) rest).
Proof.
  induction rest as [| x rest IH]; intros pre; [constructor |].
  rewrite first_occurrences_step. destruct (mem x pre); [apply IH |].
  constructor; [| apply IH].
  rewrite first_occurrences_In. intros (_ & H). apply H, in_app_iff.
  right. left. reflexivity.
Qed.

Lemma firstn_NoDup {A} (n : nat) (l : list A) : NoDup l -> NoDup (firstn n l).
Proof.
  intros H. rewrite <- (firstn_skipn n l) in H. exact (NoDup_app_remove_r _ _ H).
Qed.

Lemma firstn_In {A} (n : nat) (l : list A) (x : A) : In x (firstn n l) -> In x l.
Proof.
  intros H. rewrite <- (firstn_skipn n l). apply in_app_iff. left. exact H.
Qed.

(** *** The reordering *)

Section Sorting.
Variable score : Hit -> nat.

Lemma insert_Permutation (x : Hit) (l : list Hit) :
  Permutation (x :: l) (insert_by_score score x l).
Proof.
  induction l as [| y rest IH]; cbn [insert_by_score]; [apply Permutation_refl |].
  destruct (score y <=? score x); [apply Permutation_refl |].
  eapply Permutation_trans; [apply perm_swap |]. apply perm_skip, IH.
Qed.

Lemma sort_Permutation (l : list Hit) : Permutation l (sort_by_score score l).
Proof.
  induction l as [| x rest IH]; cbn [sort_by_score fold_right]; [constructor |].
  eapply Permutation_trans; [apply perm_skip, IH | apply insert_Permutation].
Qed.

Lemma insert_Forall (P : Hit -> Prop) (x : Hit) (l : list Hit) :
  P x -> Forall P l -> Forall P (insert_by_score score x l).
Proof.
  intros Hx Hl.
  eapply Permutation_Forall; [apply insert_Permutation |]. constructor; assumption.
Qed.

Lemma insert_sorted (x : Hit) (l : list Hit) :
  StronglySorted (fun a b => score b <= score a) l ->
  StronglySorted (fun a b => score b <= score a) (insert_by_score score x l).
Proof.
  induction l as [| y rest IH]; intros Hs; cbn [insert_by_score].
  - constructor; constructor.
  - apply StronglySorted_inv in Hs as (Hrest & Hy).
    destruct (score y <=? score x) eqn:E.
    + apply Nat.leb_le in E. constructor.
      * constructor; assumption.
      * constructor; [exact E |].
        eapply Forall_impl; [| exact Hy]. cbn. intros z Hz. lia.
    + apply Nat.leb_gt in E. constructor; [apply IH, Hrest |].
      apply insert_Forall; [lia | exact Hy].
Qed.

Lemma sort_sorted (l : list Hit) :
  StronglySorted (fun a b => score b <= score a) (sort_by_score score l).
Proof.
  induction l as [| x rest IH]; cbn [sort_by_score fold_right]; [constructor |].
  apply insert_sorted, IH.
Qed.

(** Documents of one score keep their order. *)
Lemma insert_stable (k : nat) (x : Hit) (l : list Hit) :
  filter (fun d => score d =? k) (insert_by_score score x l)
  = filter (fun d => score d =? k) (x :: l).
Proof.
  induction l as [| y rest IH]; cbn [insert_by_score]; [reflexivity |].
  destruct (score y <=? score x) eqn:E; [reflexivity |].
  apply Nat.leb_gt in E. cbn [filter] in *. rewrite IH.
  destruct (score x =? k) eqn:Ex; [| reflexivity].
  apply Nat.eqb_eq in Ex.
  replace (score y =? k) with false by (symmetry; apply Nat.eqb_neq; lia).
  reflexivity.
Qed.

Lemma sort_stable (k : nat) (l : list Hit) :
  filter (fun d => score d =? k) (sort_by_score score l)
  = filter (fun d => score d =? k) l.
Proof.
  induction l as [| x rest IH]; cbn [sort_by_score fold_right]; [reflexivity |].
  rewrite insert_stable. cbn [filter]. fold (sort_by_score score rest).
  rewrite IH. reflexivity.
Qed.

End Sorting.

(** Dropping documents keeps the hashes distinct. *)
Lemma kept_hashes_distinct (keep : Hit -> bool) (docs : list Hit) :
  NoDup (map contentHash docs) -> NoDup (map contentHash (filter keep docs)).
Proof.
  intros Hnd. induction docs as [| doc rest IH]; [constructor |].
  cbn [map] in Hnd. apply NoDup_cons_iff in Hnd as (Hdoc & Hrest).
  cbn [filter]. destruct (keep doc); [| exact (IH Hrest)].
  cbn [map]. apply NoDup_cons; [| exact (IH Hrest)].
  intros Hin. apply Hdoc. apply in_map_iff in Hin as (other & E & Hother).
  apply filter_In in Hother as (Hother & _). rewrite <- E. apply in_map, Hother.
Qed.

End RetrievalFacts.

(** X17 (deduplicateDocuments): on documents of ASCII text, the result has
    no two documents with the same content hash, loses no hash of the input,
    keeps of each hash the first document that carries it, and is unchanged
    by a second pass. *)
Theorem deduplicate_keeps_first_of_each_hash (docs : list RetrievalHelpers.Hit) :
  Forall (fun doc => RetrievalHelpers.ascii_hit doc = true) docs ->
  let kept := RetrievalHelpers.deduplicateDocuments docs in
  NoDup (map RetrievalHelpers.contentHash kept)
  /\ (forall h, In h (map RetrievalHelpers.contentHash docs)
                <-> In h (map RetrievalHelpers.contentHash kept))
  /\ (forall pre d post,
         docs = (pre ++ d :: post)%list ->
         ~ In (RetrievalHelpers.contentHash d) (map RetrievalHelpers.contentHash pre) ->
         In d kept)
  /\ RetrievalHelpers.deduplicateDocuments kept = kept.
Proof.
  intros _. cbv zeta. unfold RetrievalHelpers.deduplicateDocuments.
  split; [apply RetrievalFacts.dedupe_loop_NoDup |]. split; [| split].
  - intros h. split.
    + intros H. apply RetrievalFacts.dedupe_loop_hashes; [exact H | intros []].
    + intros H. apply in_map_iff in H as (d & <- & Hd).
      apply RetrievalFacts.dedupe_loop_In in Hd as (Hd & _). apply in_map, Hd.
  - intros pre d post -> Hpre.
    apply RetrievalFacts.dedupe_loop_first; [intros [] | exact Hpre].
  - apply RetrievalFacts.dedupe_loop_fixed;
      [apply RetrievalFacts.dedupe_loop_NoDup | intros d _ []].
Qed.

Lemma deduplicate_keeps_first_of_each_hash_witness :
  Forall (fun doc => RetrievalHelpers.ascii_hit doc = true) Samples.hits
  /\ map (fun doc => source (RetrievalHelpers.hit_document doc))
         (RetrievalHelpers.deduplicateDocuments Samples.hits)
     = ["fees.md"; "admissions.md"]
  /\ NoDup (map RetrievalHelpers.contentHash
                (RetrievalHelpers.deduplicateDocuments Samples.hits)).
Proof.
  assert (H : Forall (fun doc => RetrievalHelpers.ascii_hit doc = true) Samples.hits)
    by (repeat constructor).
  split; [exact H |]. split; [reflexivity |].
  exact (proj1 (deduplicate_keeps_first_of_each_hash Samples.hits H)).
Defined.

(** X18 (retrievalNode, the sources for citation): at most three sources,
    none twice, each the source of one of the documents; and the source of
    the first document always comes first. *)
Theorem sources_are_top_three_unique (orderedDocs : list RetrievalHelpers.Hit) :
  let srcs := RetrievalHelpers.extractSources orderedDocs in
  length srcs <= 3
  /\ NoDup srcs
  /\ (forall s, In s srcs ->
                exists doc, In doc orderedDocs
                            /\ source (RetrievalHelpers.hit_document doc) = s)
  /\ (forall doc rest, orderedDocs = doc :: rest ->
                       hd_error srcs = Some (source (RetrievalHelpers.hit_document doc))).
Proof.
  cbv zeta. unfold RetrievalHelpers.extractSources.
  set (arr := map _ orderedDocs).
  split; [apply firstn_le_length |]. split; [| split].
  - apply RetrievalFacts.firstn_NoDup.
    exact (RetrievalFacts.first_occurrences_NoDup arr []).
  - intros s Hs. apply RetrievalFacts.firstn_In in Hs.
    apply (RetrievalFacts.first_occurrences_In arr [] s) in Hs as (Hs & _).
    apply in_map_iff in Hs as (doc & E & Hdoc). exists doc. split; assumption.
  - intros doc rest ->. subst arr.
    cbn [map RetrievalHelpers.first_occurrences RetrievalHelpers.indexOf].
    rewrite String.eqb_refl. reflexivity.
Qed.

(** X19 (reorderDocumentsByRelevance): for a query and documents of ASCII
    text, the reordering is a stable sort by descending relevance score: the
    same documents, no score followed by a higher one, and documents of
    equal score in the order they came. *)
Theorem reorder_is_stable_descending (docs : list RetrievalHelpers.Hit) (q : string) :
  JsString.is_ascii q = true ->
  Forall (fun doc => RetrievalHelpers.ascii_hit doc = true) docs ->
  let score := RetrievalHelpers.relevanceScore (JsString.toLowerCase q) in
  let ordered := RetrievalHelpers.reorderDocumentsByRelevance docs q in
  Permutation docs ordered
  /\ StronglySorted (fun a b => score b <= score a) ordered
  /\ (forall k, filter (fun d => score d =? k) ordered
                = filter (fun d => score d =? k) docs).
Proof.
  intros _ _. cbv zeta. unfold RetrievalHelpers.reorderDocumentsByRelevance.
  split; [apply RetrievalFacts.sort_Permutation |].
  split; [apply RetrievalFacts.sort_sorted |].
  intros k. apply RetrievalFacts.sort_stable.
Qed.

Lemma reorder_is_stable_descending_witness :
  JsString.is_ascii "admission process" = true
  /\ Forall (fun doc => RetrievalHelpers.ascii_hit doc = true) Samples.hits
  /\ map (fun doc => source (RetrievalHelpers.hit_document doc))
         (RetrievalHelpers.reorderDocumentsByRelevance Samples.hits "admission process")
     = ["admissions.md"; "fees.md"; "fees-copy.md"]
  /\ Permutation Samples.hits
       (RetrievalHelpers.reorderDocumentsByRelevance Samples.hits "admission process").
Proof.
  assert (Hq : JsString.is_ascii "admission process" = true) by reflexivity.
  assert (H : Forall (fun doc => RetrievalHelpers.ascii_hit doc = true) Samples.hits)
    by (repeat constructor).
  split; [exact Hq |]. split; [exact H |]. split; [reflexivity |].
  exact (proj1 (reorder_is_stable_descending Samples.hits "admission process" Hq H)).
Defined.

(** X20 (retrievalNode, from deduplication to the sources), for retrieved
    documents of ASCII text: every document
    the stage returns was retrieved and has more than fifty characters once
    trimmed; no two returned documents share a content hash; the sources are
    at most three, distinct, and sources of returned documents; and there is
    a source whenever there is a document. *)
Theorem retrieval_tail_shape (retrievedDocs : list RetrievalHelpers.Hit) (q : string) :
  Forall (fun doc => RetrievalHelpers.ascii_hit doc = true) retrievedDocs ->
  let orderedDocs := fst (RetrievalHelpers.finish_retrieval retrievedDocs q) in
  let srcs := snd (RetrievalHelpers.finish_retrieval retrievedDocs q) in
  (forall doc, In doc orderedDocs ->
     In doc retrievedDocs
     /\ 50 < String.length
               (JsString.trim (pageContent (RetrievalHelpers.hit_document doc))))
  /\ NoDup (map RetrievalHelpers.contentHash orderedDocs)
  /\ length srcs <= 3
  /\ NoDup srcs
  /\ (forall s, In s srcs ->
        exists doc, In doc orderedDocs
                    /\ source (RetrievalHelpers.hit_document doc) = s)
  /\ (orderedDocs = [] <-> srcs = []).
Proof.
  intros _. cbv zeta. unfold RetrievalHelpers.finish_retrieval. cbn [fst snd].
  set (filtered := filter _ _).
  pose proof (RetrievalFacts.sort_Permutation
                (RetrievalHelpers.relevanceScore (JsString.toLowerCase q)) filtered)
    as Hperm.
  fold (RetrievalHelpers.reorderDocumentsByRelevance filtered q) in Hperm.
  set (ordered := RetrievalHelpers.reorderDocumentsByRelevance filtered q) in *.
  split; [| split; [| split; [| split; [| split]]]].
  - intros doc Hdoc.
    apply (Permutation_in _ (Permutation_sym Hperm)) in Hdoc.
    subst filtered. apply filter_In in Hdoc as (Hdoc & Hlen).
    apply RetrievalFacts.dedupe_loop_In in Hdoc as (Hdoc & _).
    split; [exact Hdoc | apply Nat.ltb_lt, Hlen].
  - eapply Permutation_NoDup; [apply Permutation_map, Hperm |].
    subst filtered. apply RetrievalFacts.kept_hashes_distinct.
    apply RetrievalFacts.dedupe_loop_NoDup.
  - apply firstn_le_length.
  - apply RetrievalFacts.firstn_NoDup.
    exact (RetrievalFacts.first_occurrences_NoDup _ []).
  - intros s Hs. apply RetrievalFacts.firstn_In in Hs.
    apply (RetrievalFacts.first_occurrences_In _ [] s) in Hs as (Hs & _).
    apply in_map_iff in Hs as (doc & E & Hdoc). exists doc. split; assumption.
  - split; [intros ->; reflexivity |].
    destruct ordered as [| doc rest]; [reflexivity |].
    unfold RetrievalHelpers.extractSources.
    cbn [map RetrievalHelpers.first_occurrences RetrievalHelpers.indexOf].
    rewrite String.eqb_refl. discriminate.
Qed.

Lemma retrieval_tail_shape_witness :
  Forall (fun doc => RetrievalHelpers.ascii_hit doc = true) Samples.hits
  /\ snd (RetrievalHelpers.finish_retrieval Samples.hits "fee structure")
     = ["fees.md"; "admissions.md"]
  /\ NoDup (map RetrievalHelpers.contentHash
                (fst (RetrievalHelpers.finish_retrieval Samples.hits "fee structure"))).
Proof.
  assert (H : Forall (fun doc => RetrievalHelpers.ascii_hit doc = true) Samples.hits)
    by (repeat constructor).
  split; [exact H |]. split; [reflexivity |].
  exact (proj1 (proj2 (retrieval_tail_shape Samples.hits "fee structure" H))).
Defined.

(* ===================================================================== *)
(** ** The response helpers *)
(* ===================================================================== *)

Module ResponseFacts.
Import JsString ResponseHelpers.

Lemma length_substring_0 (n : nat) : forall s,
  String.length (substring 0 n s) = Nat.min n (String.length s).
Proof.
  induction n as [| n IH]; intros [| c s]; cbn [substring String.length Nat.min];
    try reflexivity.
  rewrite IH. reflexivity.
Qed.

Lemma substring_0_substring_0 (k : nat) : forall n s,
  substring 0 k (substring 0 n s) = substring 0 (Nat.min k n) s.
Proof.
  induction k as [| k IH]; intros [| n] [| c s]; cbn [substring Nat.min];
    try reflexivity.
  rewrite IH. reflexivity.
Qed.

Lemma disclaimer_asks_to_verify :
  includes (toLowerCase disclaimer) "verify" = true.
Proof. vm_compute. reflexivity. Qed.

End ResponseFacts.

(** X21 (addVerificationDisclaimer): the result only ever extends the
    response, always asks to verify or to contact, and a second application
    adds nothing. *)
Theorem disclaimer_is_added_once (response : string) :
  let out := ResponseHelpers.addVerificationDisclaimer response in
  (exists added, out = response ++ added)
  /\ (JsString.includes (JsString.toLowerCase out) "verify"
      || JsString.includes (JsString.toLowerCase out) "contact") = true
  /\ ResponseHelpers.addVerificationDisclaimer out = out.
Proof.
  cbv zeta.
  destruct (JsString.includes (JsString.toLowerCase response) "verify"
            || JsString.includes (JsString.toLowerCase response) "contact") eqn:E.
  - assert (Hout : ResponseHelpers.addVerificationDisclaimer response = response)
      by (unfold ResponseHelpers.addVerificationDisclaimer; rewrite E; reflexivity).
    rewrite !Hout.
    split; [exists ""; symmetry; apply StringFacts.append_nil_r |].
    split; [exact E | reflexivity].
  - assert (Hout : ResponseHelpers.addVerificationDisclaimer response
                   = response ++ ResponseHelpers.disclaimer)
      by (unfold ResponseHelpers.addVerificationDisclaimer; rewrite E; reflexivity).
    rewrite !Hout.
    assert (Hv : JsString.includes
                   (JsString.toLowerCase (response ++ ResponseHelpers.disclaimer))
                   "verify" = true).
    { rewrite StringFacts.toLowerCase_append.
      apply StringFacts.includes_append_r, ResponseFacts.disclaimer_asks_to_verify. }
    split; [eexists; reflexivity |].
    split; [rewrite Hv; reflexivity |].
    unfold ResponseHelpers.addVerificationDisclaimer. rewrite Hv. reflexivity.
Qed.

(** X22 (truncateResponse), for a response of ASCII characters: a response
    within the limit is returned as it is.  A longer one becomes either a prefix of at most the limit (the cut
    at a sentence end) or the first [maxLength] characters followed by the
    ellipsis, which is three characters more than the limit. *)
Theorem truncation_may_exceed_limit
        (beyond : Z -> nat -> bool) (response : string) (maxLength : nat) :
  JsString.is_ascii response = true ->
  let out := ResponseHelpers.truncateResponse beyond response maxLength in
  (String.length response <= maxLength -> out = response)
  /\ (maxLength < String.length response ->
      (exists k, k <= maxLength /\ out = substring 0 k response)
      \/ (out = substring 0 maxLength response ++ "..."
          /\ String.length out = maxLength + 3)).
Proof.
  intros _. cbv zeta. unfold ResponseHelpers.truncateResponse.
  destruct (String.length response <=? maxLength) eqn:E.
  - apply Nat.leb_le in E. split; [reflexivity | lia].
  - apply Nat.leb_gt in E. split; [lia |]. intros _.
    destruct (beyond _ maxLength).
    + left. eexists. split; [| apply ResponseFacts.substring_0_substring_0].
      apply Nat.le_min_r.
    + right. split; [reflexivity |].
      rewrite StringFacts.length_append, ResponseFacts.length_substring_0.
      cbn [String.length]. lia.
Qed.

Lemma truncation_may_exceed_limit_witness :
  10 < String.length "The PGPM runs for fifteen months"
  /\ ((exists k, k <= 10
                 /\ ResponseHelpers.truncateResponse (fun _ _ => false)
                      "The PGPM runs for fifteen months" 10
                    = substring 0 k "The PGPM runs for fifteen months")
      \/ (ResponseHelpers.truncateResponse (fun _ _ => false)
            "The PGPM runs for fifteen months" 10
          = substring 0 10 "The PGPM runs for fifteen months" ++ "..."
          /\ String.length
               (ResponseHelpers.truncateResponse (fun _ _ => false)
                  "The PGPM runs for fifteen months" 10) = 10 + 3)).
Proof.
  assert (H : 10 < String.length "The PGPM runs for fifteen months") by (cbn; lia).
  split; [exact H |].
  exact (proj2 (truncation_may_exceed_limit (fun _ _ => false)
                  "The PGPM runs for fifteen months" 10 eq_refl) H).
Defined.

(* ===================================================================== *)
(** ** Sessions *)
(* ===================================================================== *)

Module SessionFacts.
Import Sessions.

Lemma get_In (id : string) (sessions : t) (s : Session) :
  get id sessions = Some s -> In (id, s) sessions.
Proof.
  induction sessions as [| [k x] rest IH]; cbn [get]; [discriminate |].
  destruct (String.eqb k id) eqn:E.
  - apply String.eqb_eq in E. intros [= ->]. left. subst. reflexivity.
  - intros H. right. apply IH, H.
Qed.

Lemma get_None (id : string) (sessions : t) :
  get id sessions = None <-> ~ In id (map fst sessions).
Proof.
  induction sessions as [| [k x] rest IH]; cbn [get map fst In]; [tauto |].
  destruct (String.eqb k id) eqn:E.
  - apply String.eqb_eq in E. split; [discriminate | intros H; exfalso; apply H; left; exact E].
  - apply String.eqb_neq in E. rewrite IH. tauto.
Qed.

(** A kept session is still found under its identifier. *)
Lemma get_cleanup_kept now id s (sessions : t) :
  get id sessions = Some s -> expired now s = false ->
  get id (cleanupSessions now sessions) = Some s.
Proof.
  unfold cleanupSessions.
  induction sessions as [| [k x] rest IH]; cbn [get filter snd]; [discriminate |].
  destruct (String.eqb k id) eqn:E.
  - intros [= ->] Hx. rewrite Hx. cbn [negb get]. rewrite E. reflexivity.
  - intros H Hs. destruct (negb (expired now x)); [cbn [get]; rewrite E |]; apply IH; assumption.
Qed.

(** With one entry per identifier, an expired session is gone. *)
Lemma get_cleanup_expired now id s (sessions : t) :
  NoDup (map fst sessions) ->
  get id sessions = Some s -> expired now s = true ->
  get id (cleanupSessions now sessions) = None.
Proof.
  unfold cleanupSessions.
  induction sessions as [| [k x] rest IH]; cbn [get filter snd map fst];
    [discriminate |].
  intros Hnd. inversion Hnd as [| ? ? Hk Hrest]; subst.
  destruct (String.eqb k id) eqn:E.
  - apply String.eqb_eq in E. subst k. intros [= ->] Hx. rewrite Hx. cbn [negb].
    apply get_None. intros Hin. apply Hk.
    apply in_map_iff in Hin as ([k' y] & Ek & Hy). cbn [fst] in Ek. subst k'.
    apply filter_In in Hy as (Hy & _). apply in_map_iff. exists (id, y).
    split; [reflexivity | exact Hy].
  - intros H Hs. destruct (negb (expired now x)); [cbn [get]; rewrite E |];
      apply IH; assumption.
Qed.

Lemma get_add_fresh id s (sessions : t) :
  get id sessions = None -> get id (add id s sessions) = Some s.
Proof.
  unfold add.
  induction sessions as [| [k x] rest IH]; cbn [get app].
  - rewrite String.eqb_refl. reflexivity.
  - destruct (String.eqb k id); [discriminate | exact IH].
Qed.

Lemma unstamped_never_expires now s :
  lastActivity s = None -> expired now s = false.
Proof.
  intros H. unfold expired, activity_or. rewrite H.
  rewrite Z.sub_diag. reflexivity.
Qed.

End SessionFacts.

(** X23 (cleanupSessions): every session left in the map has been active
    within the timeout or carries no activity stamp; and a session that
    never completed an exchange, so has no stamp, survives every cleanup,
    however late. *)
Theorem cleanup_spares_unstamped_sessions (now : Z) (sessions : Sessions.t) :
  (forall id s, Sessions.get id (Sessions.cleanupSessions now sessions) = Some s ->
                Sessions.expired now s = false)
  /\ (forall id s, Sessions.get id sessions = Some s ->
                   Sessions.lastActivity s = None ->
                   Sessions.get id (Sessions.cleanupSessions now sessions) = Some s).
Proof.
  split.
  - intros id s H. apply SessionFacts.get_In in H.
    unfold Sessions.cleanupSessions in H. apply filter_In in H as (_ & H).
    cbn [snd] in H. apply negb_true_iff, H.
  - intros id s H Hnone.
    apply SessionFacts.get_cleanup_kept;
      [exact H | apply SessionFacts.unstamped_never_expires, Hnone].
Qed.

(** X24 (handleSession): the request gets the session the map holds under
    its identifier, a new one if there is none.  The cleanup runs after the
    session is attached: an unexpired session stays in the map, but an
    expired one is attached to this request and removed from the map in the
    same call, so the exchange is recorded in a memory the next request
    with the same identifier no longer finds. *)
Theorem expired_session_is_attached_then_dropped
        (header : option string) (uuid : string) (now : Z) (sessions : Sessions.t)
        (Hkeys : NoDup (map fst sessions)) :
  let handled := Sessions.handleSession header uuid now sessions in
  let id := Sessions.sessionId handled in
  Sessions.attached handled
  = match Sessions.get id sessions with
    | Some s => s
    | None => Sessions.fresh
    end
  /\ Sessions.get id (Sessions.sessions_after handled)
     = if Sessions.expired now (Sessions.attached handled)
       then None else Some (Sessions.attached handled).
Proof.
  cbv zeta. unfold Sessions.handleSession.
  cbn [Sessions.sessionId Sessions.attached Sessions.sessions_after].
  match goal with
  | |- context [Sessions.has ?i sessions] => generalize i; intros id
  end.
  unfold Sessions.has. destruct (Sessions.get id sessions) as [s |] eqn:E.
  - rewrite E. split; [reflexivity |].
    destruct (Sessions.expired now s) eqn:Ex.
    + apply SessionFacts.get_cleanup_expired with (s := s); assumption.
    + apply SessionFacts.get_cleanup_kept; assumption.
  - rewrite (SessionFacts.get_add_fresh id Sessions.fresh sessions E).
    split; [reflexivity |].
    rewrite (SessionFacts.unstamped_never_expires now Sessions.fresh eq_refl).
    apply SessionFacts.get_cleanup_kept;
      [apply SessionFacts.get_add_fresh, E
      | apply SessionFacts.unstamped_never_expires; reflexivity].
Qed.

Lemma expired_session_is_attached_then_dropped_witness :
  let stored := Samples.session Scenario.after_admissions (Some 1000%Z) in
  let handled :=
    Sessions.handleSession (Some "s-1") "fresh-id" 5000000%Z [("s-1", stored)] in
  NoDup (map fst [("s-1", stored)])
  /\ Sessions.attached handled = stored
  /\ Sessions.get "s-1" (Sessions.sessions_after handled) = None.
Proof.
  cbv zeta.
  assert (Hkeys : NoDup (map fst [("s-1", Samples.session Scenario.after_admissions
                                             (Some 1000%Z))]))
    by (repeat constructor; intros []).
  split; [exact Hkeys |].
  exact (expired_session_is_attached_then_dropped (Some "s-1") "fresh-id" 5000000%Z
           [("s-1", Samples.session Scenario.after_admissions (Some 1000%Z))] Hkeys).
Defined.
